(** * Calc.py: tokeniser, precedence-climbing parser and evaluator

    A shallow embedding of [Calc.py] and the properties its specification
    states about it.

    Conventions of the embedding.
    - A Python [str] is a [string]; one [ascii] stands for one code point
      below 256.
    - A Python [int] is a [Z]; a Python [float] is an IEEE-754 binary64
      value, a [spec_float] at precision 53 and maximal exponent 1024.
    - [print] appends a line to the output of a computation; an uncaught
      exception ends it with [Raise].
    - The interpreter is idealised in two places: the call stack and the
      memory are unbounded (no [RecursionError], no [MemoryError]). *)

From Stdlib Require Import ZArith Bool List Ascii String Lia.
From Stdlib Require Import SpecFloat.
From stdpp Require Import gmap strings list.

Set Warnings "-register-all".

Open Scope string_scope.
Open Scope list_scope.

(** ** Python string primitives *)

Module Py.

(** [s[i:]] for [0 <= i]. *)
Fixpoint slice_from (i : nat) (s : string) : string :=
  match i, s with
  | O, _ => s
  | S _, EmptyString => EmptyString
  | S i', String _ s' => slice_from i' s'
  end.

(** [s[i:j]] for [0 <= i] and [0 <= j]; empty when [j <= i]. *)
Definition slice (i j : nat) (s : string) : string := substring i (j - i) s.

(** [s[:-1]]. *)
Fixpoint drop_last (s : string) : string :=
  match s with
  | EmptyString => EmptyString
  | String _ EmptyString => EmptyString
  | String c s' => String c (drop_last s')
  end.

(** [needle in hay] on two strings: substring containment. *)
Fixpoint str_in (needle hay : string) : bool :=
  String.prefix needle hay ||
  match hay with
  | EmptyString => false
  | String _ hay' => str_in needle hay'
  end.

(** [x in l] on a list of strings. *)
Definition list_in (x : string) (l : list string) : bool :=
  existsb (String.eqb x) l.

(** Truth value of a string: non-empty. *)
Definition str_truthy (s : string) : bool :=
  match s with EmptyString => false | String _ _ => true end.

(** Truth value of a [str]-or-[None] attribute. *)
Definition opt_truthy (o : option string) : bool :=
  match o with Some s => str_truthy s | None => false end.

Definition char_str (c : ascii) : string := String c EmptyString.

(** The double quote character as a string. *)
Definition dquote : string := char_str "034"%char.

End Py.

(** ** The operator table *)

Inductive op_kind := UNARYOP | BINARYOP | SUBEXPR.

Inductive assoc := LEFT | RIGHT.

#[global] Instance op_kind_eq_dec : EqDecision op_kind.
Proof. solve_decision. Defined.

#[global] Instance assoc_eq_dec : EqDecision assoc.
Proof. solve_decision. Defined.

Definition Op_Sets : list (op_kind * assoc * list string) :=
  [ (BINARYOP, LEFT,  ["|"]);
    (BINARYOP, LEFT,  ["^"]);
    (BINARYOP, LEFT,  ["&"]);
    (BINARYOP, LEFT,  ["<<"; ">>"]);
    (BINARYOP, LEFT,  ["+"; "-"]);
    (BINARYOP, LEFT,  ["*"; "/"; "%"]);
    (UNARYOP,  RIGHT, ["+ x"; "- x"; "~ x"]);
    (BINARYOP, RIGHT, ["**"]) ].

Abbreviation op_table := (gmap string (op_kind * assoc * nat)).

(** The inner [for op in ops] loop of [build_Op_Table]. *)
Definition add_ops (kind : op_kind) (associativity : assoc) (precedence : nat)
    (ops : list string) (table : op_table) : op_table :=
  fold_left (fun t op => <[op := (kind, associativity, precedence)]> t) ops table.

(** [build_Op_Table], as a function of the table it updates: the state of
    the outer loop is the running precedence and the table. *)
Definition build_Op_Table (table : op_table) : op_table :=
  snd (fold_left
         (fun '(precedence, t) '(kind, associativity, ops) =>
            let precedence := S precedence in
            (precedence, add_ops kind associativity precedence ops t))
         Op_Sets (0, table)).

(** The global [Op_Table] once [setup()] has run. *)
Definition Op_Table : op_table := build_Op_Table ∅.

(** ** The tokeniser *)

Definition Predefined_Tokens : list string :=
  [ "**";
    "<<"; ">>";
    "("; ")";
    "~";
    "+"; "-"; "*"; "/"; "%";
    "|"; "^"; "&" ].

(** The string [" \t\n"]. *)
Definition whitespace : string :=
  String " " (String "009" (String "010" EmptyString)).

Definition number_chars : string := "0123456789abcdefABCDEF.xXbo".

(** The [for tok in Predefined_Tokens] loop: the first predefined token
    that equals [line[start:start+len(tok)]]. *)
Fixpoint find_predefined (line : string) (start : nat) (toks : list string)
    : option string :=
  match toks with
  | [] => None
  | tok :: toks' =>
      let finish := start + String.length tok in
      if String.eqb (Py.slice start finish line) tok then Some tok
      else find_predefined line start toks'
  end.

(** The loop [while i < len(line) and line[i] in number_chars: i += 1];
    [fuel] bounds the number of iterations. *)
Fixpoint number_end (fuel : nat) (line : string) (i : nat) : nat :=
  match fuel with
  | O => i
  | S fuel' =>
      match String.get i line with
      | Some c =>
          if Py.str_in (Py.char_str c) number_chars
          then number_end fuel' line (S i)
          else i
      | None => i
      end
  end.

(** The main loop of [tokenise]; the state is [(tokens, start)] and the
    result is the state in which the loop is left. *)
Fixpoint tokenise_loop (fuel : nat) (line : string)
    (tokens : list string) (start : nat) : list string * nat :=
  match fuel with
  | O => (tokens, start)
  | S fuel' =>
      if (start <? String.length line)%nat then
        if Py.str_in (Py.slice start (start + 1) line) whitespace then
          tokenise_loop fuel' line tokens (start + 1)
        else
          match find_predefined line start Predefined_Tokens with
          | Some tok =>
              tokenise_loop fuel' line (tokens ++ [tok])
                            (start + String.length tok)
          | None =>
              let i := number_end (String.length line) line start in
              if (start <? i)%nat then
                tokenise_loop fuel' line
                              (tokens ++ [Py.slice start i line]) i
              else (tokens, start)
          end
      else (tokens, start)
  end.

(** Every iteration that does not leave the loop advances [start], so
    [len(line)] iterations are enough (lemma [tokenise_loop_fuel]). *)
Definition tokenise_state (line : string) : list string * nat :=
  tokenise_loop (String.length line) line [] 0.

Definition tokenise (line : string) : list string :=
  fst (tokenise_state line).

(** ** Values, exceptions and output *)

Abbreviation float := spec_float.

Inductive value :=
  | VNone
  | VInt (z : Z)
  | VFloat (f : float).

Inductive exn :=
  | TypeError
  | ValueError
  | ZeroDivisionError
  | OverflowError
  | KeyError
  | AttributeError.

(** How a computation ends: with a value, with an uncaught exception, or
    ([Outside]) outside the values of the embedding ([None], [int] and
    [float]). The only computation that leaves them is a negative float
    raised to a fractional power, which Python carries out in complex
    numbers (with a complex result or an exception of that arithmetic);
    the embedding does not follow it. *)
Inductive result (A : Type) :=
  | Ok (a : A)
  | Raise (e : exn)
  | Outside.

Arguments Ok {A} a.
Arguments Raise {A} e.
Arguments Outside {A}.

Definition rbind {A B} (r : result A) (k : A -> result B) : result B :=
  match r with
  | Ok a => k a
  | Raise e => Raise e
  | Outside => Outside
  end.

(** A computation that prints: the lines printed, in order, and how it
    ended. *)
Definition io (A : Type) : Type := (list string * result A)%type.

Definition ret {A} (a : A) : io A := ([], Ok a).

Definition lift {A} (r : result A) : io A := ([], r).

Definition print (line : string) : io unit := ([line], Ok tt).

Definition bind {A B} (m : io A) (k : A -> io B) : io B :=
  match m with
  | (out, Ok a) => let '(out', r) := k a in (out ++ out', r)
  | (out, Raise e) => (out, Raise e)
  | (out, Outside) => (out, Outside)
  end.

Declare Scope io_scope.
Delimit Scope io_scope with io.
Declare Scope result_scope.
Delimit Scope result_scope with result.

Notation "'do' x <- m ; k" := (bind m (fun x => k))
  (at level 10, x name, m at level 100, k at level 200) : io_scope.
Notation "'do' ' p <- m ; k" := (bind m (fun x => let p := x in k))
  (at level 10, p pattern, m at level 100, k at level 200) : io_scope.
Notation "'run' m ; k" := (bind m (fun _ => k))
  (at level 10, m at level 100, k at level 200) : io_scope.
Notation "'do' x <- m ; k" := (rbind m (fun x => k))
  (at level 10, x name, m at level 100, k at level 200) : result_scope.
Notation "'do' ' p <- m ; k" := (rbind m (fun x => let p := x in k))
  (at level 10, p pattern, m at level 100, k at level 200) : result_scope.

(** ** Binary64 arithmetic as Python exposes it *)

Module F64.

Definition prec : Z := 53.
Definition emax : Z := 1024.

Definition of_Z (z : Z) : float := binary_normalize prec emax z 0 false.

Definition add : float -> float -> float := SFadd prec emax.
Definition sub : float -> float -> float := SFsub prec emax.
Definition mul : float -> float -> float := SFmul prec emax.
Definition div : float -> float -> float := SFdiv prec emax.
Definition opp : float -> float := SFopp.

(** [x == 0.0]. *)
Definition is_zero (f : float) : bool :=
  match f with S754_zero _ => true | _ => false end.

(** [x < 0.0]. *)
Definition is_neg (f : float) : bool :=
  match f with
  | S754_finite true _ _ | S754_infinity true => true
  | _ => false
  end.

(** The integer part of a finite float, rounded towards zero. *)
Definition trunc (f : float) : Z :=
  match f with
  | S754_finite s m e => cond_Zopp s (Z.shiftl (Zpos m) e)
  | _ => 0
  end.

(** [x == floor(x)] for a finite [x]. *)
Definition is_integer (f : float) : bool :=
  match f with
  | S754_zero _ => true
  | S754_finite _ m e => Z.shiftl (Z.shiftl (Zpos m) e) (- e) =? Zpos m
  | _ => false
  end%Z.

(** [fmod(fabs(x), 2.0) == 1.0]. *)
Definition is_odd_integer (f : float) : bool :=
  is_integer f && Z.odd (trunc f).

(** [copysign(0.0, y)]. *)
Definition zero_like (y : float) : float :=
  match y with
  | S754_zero s | S754_infinity s | S754_finite s _ _ => S754_zero s
  | S754_nan => S754_zero false
  end.

(** C's [fmod], which is exact: [x - n*y] with [n] the quotient rounded
    towards zero; the result has the sign of [x]. *)
Definition fmod (x y : float) : float :=
  match x, y with
  | S754_nan, _ | _, S754_nan => S754_nan
  | S754_infinity _, _ => S754_nan
  | _, S754_zero _ => S754_nan
  | S754_zero _, _ => x
  | S754_finite _ _ _, S754_infinity _ => x
  | S754_finite sx mx ex, S754_finite _ my ey =>
      let e := Z.min ex ey in
      let r := Z.rem (Z.shiftl (Zpos mx) (ex - e)) (Z.shiftl (Zpos my) (ey - e)) in
      binary_normalize prec emax (cond_Zopp sx r) e sx
  end%Z.

(** The remainder of Python for a divisor that is not zero: [fmod], moved
    to the sign of the divisor. *)
Definition rem (x y : float) : float :=
  let m := fmod x y in
  if negb (is_zero m) then
    if negb (Bool.eqb (is_neg y) (is_neg m)) then add m y else m
  else zero_like y.

(** The correctly rounded value of [(-1)^s * m * 10^e10], as the string
    to float conversion computes it. *)
Definition of_decimal (s : bool) (m : Z) (e10 : Z) : float :=
  match m with
  | Z0 => S754_zero s
  | _ =>
      if (0 <=? e10)%Z then
        binary_normalize prec emax (cond_Zopp s (m * 10 ^ e10)) 0 s
      else
        let '(q, e, l) := SFdiv_core_binary prec emax m 0 (10 ^ (- e10)) 0 in
        binary_round_aux prec emax s q e l
  end%Z.

End F64.

(** ** Text to number conversions of the interpreter *)

Module Text.

Definition code (c : ascii) : nat := nat_of_ascii c.

(** [Py_ISSPACE]. *)
Definition is_space (c : ascii) : bool :=
  ((9 <=? code c) && (code c <=? 13) || (code c =? 32))%nat.

(** What the conversions see of a code point: ASCII as it is, another
    space as a blank, anything else as a question mark. *)
Definition ascii_view (c : ascii) : ascii :=
  if (code c <? 127)%nat then c
  else if ((code c =? 133) || (code c =? 160))%nat then " "%char
  else "?"%char.

Fixpoint view (s : string) : string :=
  match s with
  | EmptyString => EmptyString
  | String c s' => String (ascii_view c) (view s')
  end.

Fixpoint lstrip (s : string) : string :=
  match s with
  | String c s' => if is_space c then lstrip s' else s
  | EmptyString => EmptyString
  end.

Fixpoint rstrip (s : string) : string :=
  match s with
  | EmptyString => EmptyString
  | String c s' =>
      match rstrip s' with
      | EmptyString => if is_space c then EmptyString else String c EmptyString
      | r => String c r
      end
  end.

(** An optional sign: whether it is a minus, and the text after it. *)
Definition sign (s : string) : bool * string :=
  match s with
  | String c s' =>
      if Ascii.eqb c "+" then (false, s')
      else if Ascii.eqb c "-" then (true, s')
      else (false, s)
  | EmptyString => (false, s)
  end.

(** [_PyLong_DigitValue]: the value of a digit or letter. *)
Definition digit_value (c : ascii) : option Z :=
  let n := code c in
  if ((48 <=? n) && (n <=? 57))%nat then Some (Z.of_nat (n - 48))
  else if ((97 <=? n) && (n <=? 122))%nat then Some (Z.of_nat (n - 87))
  else if ((65 <=? n) && (n <=? 90))%nat then Some (Z.of_nat (n - 55))
  else None.

Definition is_digit (c : ascii) : bool :=
  ((48 <=? code c) && (code c <=? 57))%nat.

Definition lower (c : ascii) : ascii :=
  if ((65 <=? code c) && (code c <=? 90))%nat
  then ascii_of_nat (code c + 32) else c.

Fixpoint lower_str (s : string) : string :=
  match s with
  | EmptyString => EmptyString
  | String c s' => String (lower c) (lower_str s')
  end.

(** The digits of an integer in [base], single underscores allowed
    between them: the value read, the number of digits and the text left;
    [None] for a doubled or a trailing underscore. [after_us] tells that
    the previous character was an underscore. *)
Fixpoint int_digits (base : Z) (s : string) (acc : Z) (n : nat)
    (after_us : bool) : option (Z * nat * string) :=
  match s with
  | EmptyString => if after_us then None else Some (acc, n, s)
  | String c s' =>
      if Ascii.eqb c "_" then
        if after_us then None else int_digits base s' acc n true
      else
        match digit_value c with
        | Some d =>
            if (d <? base)%Z
            then int_digits base s' (acc * base + d)%Z (S n) false
            else if after_us then None else Some (acc, n, s)
        | None => if after_us then None else Some (acc, n, s)
        end
  end.

(** The base prefix that [int(s, base)] accepts, with the one underscore
    allowed after it. *)
Definition skip_base_prefix (base : Z) (s : string) : string :=
  match s with
  | String c0 (String c s') =>
      if Ascii.eqb c0 "0"
         && (((base =? 16)%Z && (Ascii.eqb c "x" || Ascii.eqb c "X"))
             || ((base =? 8)%Z && (Ascii.eqb c "o" || Ascii.eqb c "O"))
             || ((base =? 2)%Z && (Ascii.eqb c "b" || Ascii.eqb c "B")))
      then match s' with
           | String c' s'' => if Ascii.eqb c' "_" then s'' else s'
           | EmptyString => s'
           end
      else s
  | _ => s
  end.

Definition starts_with_underscore (s : string) : bool :=
  match s with
  | String c _ => Ascii.eqb c "_"
  | EmptyString => false
  end.

(** A run of decimal digits: value, number of digits, text left. *)
Fixpoint dec_digits (s : string) (acc : Z) (n : nat) : Z * nat * string :=
  match s with
  | String c s' =>
      if is_digit c
      then dec_digits s' (acc * 10 + Z.of_nat (code c - 48))%Z (S n)
      else (acc, n, s)
  | EmptyString => (acc, n, s)
  end.

(** Underscores of a float literal: each must stand between two digits;
    they are removed. [prev] is the previous character. *)
Fixpoint drop_underscores (s : string) (prev : option ascii) : option string :=
  match s with
  | EmptyString =>
      match prev with
      | Some "_"%char => None
      | _ => Some EmptyString
      end
  | String c s' =>
      if Ascii.eqb c "_" then
        match prev with
        | Some p => if is_digit p then drop_underscores s' (Some c) else None
        | None => None
        end
      else
        match prev with
        | Some "_"%char =>
            if is_digit c
            then option_map (String c) (drop_underscores s' (Some c))
            else None
        | _ => option_map (String c) (drop_underscores s' (Some c))
        end
  end.

(** The exponent part of a float literal, if one is well formed at the
    head of [s]: its value and the text left. *)
Definition exponent (s : string) : option (Z * string) :=
  match s with
  | String c s' =>
      if Ascii.eqb c "e" || Ascii.eqb c "E" then
        let '(neg, s'') := sign s' in
        let '(x, n, rest) := dec_digits s'' 0 0 in
        match n with
        | O => None
        | S _ => Some (if neg then (- x)%Z else x, rest)
        end
      else None
  | EmptyString => None
  end.

(** A decimal float literal without its sign: mantissa digits, decimal
    exponent and the text left; [None] when there is no mantissa digit. *)
Definition decimal (s : string) : option (Z * Z * string) :=
  let '(m1, n1, s1) := dec_digits s 0 0 in
  let '(m, n2, s2) :=
    match s1 with
    | String "." s1' => dec_digits s1' m1 0
    | _ => (m1, O, s1)
    end in
  match (n1 + n2)%nat with
  | O => None
  | S _ =>
      match exponent s2 with
      | Some (x, rest) => Some (m, (x - Z.of_nat n2)%Z, rest)
      | None => Some (m, (- Z.of_nat n2)%Z, s2)
      end
  end.

End Text.

Section Interpreter.

(** The platform's C function [pow] on doubles. *)
Variable libm_pow : float -> float -> float.

(** [sys.get_int_max_str_digits()]: the longest decimal literal [int]
    converts, [0] for no limit (also the behaviour of interpreters older
    than the limit). *)
Variable int_max_str_digits : nat.

(** [int(s, base)] on a string, for [base] 2, 8, 10 or 16. *)
Definition py_int_str (s : string) (base : Z) : result Z :=
  let '(neg, s1) := Text.sign (Text.lstrip (Text.view s)) in
  let s2 := Text.skip_base_prefix base s1 in
  if Text.starts_with_underscore s2 then Raise ValueError
  else
    match Text.int_digits base s2 0 0 false with
    | None => Raise ValueError
    | Some (v, n, rest) =>
        if (n =? 0)%nat then Raise ValueError
        else if negb (String.eqb (Text.lstrip rest) "") then Raise ValueError
        else if negb (Z.land base (base - 1) =? 0)%Z
                && (640 <? n)%nat
                && (0 <? int_max_str_digits)%nat
                && (int_max_str_digits <? n)%nat
             then Raise ValueError
        else Ok (if neg then (- v)%Z else v)
    end.

(** [float(s)] on a string. *)
Definition py_float_str (s : string) : result float :=
  let s1 := Text.rstrip (Text.lstrip (Text.view s)) in
  match Text.drop_underscores s1 None with
  | None => Raise ValueError
  | Some s2 =>
      let '(neg, s3) := Text.sign s2 in
      let word := Text.lower_str s3 in
      if String.eqb word "inf" || String.eqb word "infinity"
      then Ok (S754_infinity neg)
      else if String.eqb word "nan" then Ok S754_nan
      else
        match Text.decimal s3 with
        | Some (m, e10, EmptyString) => Ok (F64.of_decimal neg m e10)
        | _ => Raise ValueError
        end
  end.

(** ** Numbers: conversions and operators *)

(** [float(x)]. *)
Definition py_float (x : value) : result float :=
  match x with
  | VInt z =>
      match F64.of_Z z with
      | S754_infinity _ => Raise OverflowError
      | f => Ok f
      end
  | VFloat f => Ok f
  | VNone => Raise TypeError
  end.

(** [int(x)]. *)
Definition py_int (x : value) : result Z :=
  match x with
  | VInt z => Ok z
  | VFloat S754_nan => Raise ValueError
  | VFloat (S754_infinity _) => Raise OverflowError
  | VFloat f => Ok (F64.trunc f)
  | VNone => Raise TypeError
  end.

(** The truth value of [x], as [if x:] tests it. *)
Definition truthy (x : value) : bool :=
  match x with
  | VNone => false
  | VInt z => negb (z =? 0)%Z
  | VFloat f => negb (F64.is_zero f)
  end.

(** [x - y], [x * y]: an [int] when both operands are, a [float] when one
    is, the [int] operand converted first. *)
Definition py_arith (iop : Z -> Z -> Z) (fop : float -> float -> float)
    (x y : value) : result value :=
  match x, y with
  | VInt a, VInt b => Ok (VInt (iop a b))
  | VInt _, VFloat g => (do f <- py_float x; Ok (VFloat (fop f g)))%result
  | VFloat f, VInt _ => (do g <- py_float y; Ok (VFloat (fop f g)))%result
  | VFloat f, VFloat g => Ok (VFloat (fop f g))
  | _, _ => Raise TypeError
  end.

Definition py_sub : value -> value -> result value := py_arith Z.sub F64.sub.
Definition py_mul : value -> value -> result value := py_arith Z.mul F64.mul.

(** [x | y], [x ^ y], [x & y]: defined on two [int]s only. *)
Definition py_bitop (iop : Z -> Z -> Z) (x y : value) : result value :=
  match x, y with
  | VInt a, VInt b => Ok (VInt (iop a b))
  | _, _ => Raise TypeError
  end.

(** [x << y], [x >> y]. *)
Definition py_shift (iop : Z -> Z -> Z) (x y : value) : result value :=
  match x, y with
  | VInt a, VInt b =>
      if (b <? 0)%Z then Raise ValueError else Ok (VInt (iop a b))
  | _, _ => Raise TypeError
  end.

(** [x / g] for a [float] divisor [g]. *)
Definition py_truediv (x : value) (g : float) : result value :=
  (do f <- py_float x;
   if F64.is_zero g then Raise ZeroDivisionError
   else Ok (VFloat (F64.div f g)))%result.

(** [f % g] on two [float]s. *)
Definition float_rem (f g : float) : result float :=
  if F64.is_zero g then Raise ZeroDivisionError
  else Ok (F64.rem f g).

(** [x % n] for an [int] divisor [n]. *)
Definition py_mod (x : value) (n : Z) : result value :=
  match x with
  | VInt a =>
      if (n =? 0)%Z then Raise ZeroDivisionError else Ok (VInt (a mod n))
  | VFloat f =>
      (do g <- py_float (VInt n);
       do r <- float_rem f g;
       Ok (VFloat r))%result
  | VNone => Raise TypeError
  end.

(** [+y], [-y]. *)
Definition py_pos (y : value) : result value :=
  match y with
  | VNone => Raise TypeError
  | _ => Ok y
  end.

Definition py_neg (y : value) : result value :=
  match y with
  | VInt b => Ok (VInt (- b))
  | VFloat g => Ok (VFloat (F64.opp g))
  | VNone => Raise TypeError
  end.

(** [v ** w] on two [float]s. The special cases are decided before the
    platform's [pow] is asked; a result of [pow] out of range is an
    [OverflowError]. *)
Definition float_pow (v w : float) : result float :=
  let one := F64.of_Z 1 in
  if F64.is_zero w then Ok one
  else
    match v, w with
    | S754_nan, _ => Ok v
    | _, S754_nan => Ok (if SFeqb v one then one else w)
    | _, S754_infinity sw =>
        let a := SFabs v in
        if SFeqb a one then Ok one
        else if Bool.eqb (negb sw) (SFltb one a)
             then Ok (S754_infinity false)
             else Ok (S754_zero false)
    | S754_infinity sv, _ =>
        let odd := F64.is_odd_integer w in
        if negb (F64.is_neg w)
        then Ok (if odd then v else S754_infinity false)
        else Ok (if odd then S754_zero sv else S754_zero false)
    | S754_zero _, _ =>
        if F64.is_neg w then Raise ZeroDivisionError
        else Ok (if F64.is_odd_integer w then v else S754_zero false)
    | S754_finite sv _ _, S754_finite _ _ _ =>
        if sv && negb (F64.is_integer w) then Outside
        else
          let negate := sv && F64.is_odd_integer w in
          let a := SFabs v in
          if SFeqb a one then Ok (if negate then F64.opp one else one)
          else
            match libm_pow a w with
            | S754_infinity _ => Raise OverflowError
            | r => Ok (if negate then F64.opp r else r)
            end
    | S754_finite _ _ _, S754_zero _ => Ok one
    end.

(** ** Literals *)

Definition to_number (tok : string) : result value :=
  (if String.eqb (Py.slice 0 2 tok) "0x" then
     do z <- py_int_str (Py.slice_from 2 tok) 16; Ok (VInt z)
   else if String.eqb (Py.slice 0 2 tok) "0X" then
     do z <- py_int_str (Py.slice_from 2 tok) 16; Ok (VInt z)
   else if String.eqb (Py.slice 0 2 tok) "0o" then
     do z <- py_int_str (Py.slice_from 2 tok) 8; Ok (VInt z)
   else if String.eqb (Py.slice 0 2 tok) "0b" then
     do z <- py_int_str (Py.slice_from 2 tok) 2; Ok (VInt z)
   else if Py.str_in "." tok then
     do f <- py_float_str tok; Ok (VFloat f)
   else if Py.str_in "e" tok then
     do f <- py_float_str tok; Ok (VFloat f)
   else if Py.str_in "E" tok then
     do f <- py_float_str tok; Ok (VFloat f)
   else
     do z <- py_int_str tok 10; Ok (VInt z))%result.

(** ** Expression trees *)

(** An [Expr] object: its four attributes, [None] when absent. The
    attribute [tok] holds a [str], as its declaration says and as the
    parser fills it. *)
Inductive Expr :=
  MkExpr (tok : option string) (op : option string)
         (left right : option Expr).

Definition Expr_tok (e : Expr) := let 'MkExpr tok _ _ _ := e in tok.
Definition Expr_op (e : Expr) := let 'MkExpr _ op _ _ := e in op.
Definition Expr_left (e : Expr) := let 'MkExpr _ _ l _ := e in l.
Definition Expr_right (e : Expr) := let 'MkExpr _ _ _ r := e in r.

(** An attribute that holds an [Expr] is true, one that holds [None] is
    false. *)
Definition present (o : option Expr) : bool :=
  match o with Some _ => true | None => false end.

Fixpoint Expr_str (e : Expr) : string :=
  let 'MkExpr tok op l r := e in
  let s := "(" in
  let s := match tok with
           | Some t => if Py.str_truthy t then s +:+ "Token: " +:+ t +:+ " " else s
           | None => s
           end in
  let s := match l with
           | Some el => s +:+ "Left: " +:+ Expr_str el +:+ " "
           | None => s
           end in
  let s := match op with
           | Some o => if Py.str_truthy o then s +:+ "Op: " +:+ o +:+ " " else s
           | None => s
           end in
  let s := match r with
           | Some er => s +:+ "Right: " +:+ Expr_str er +:+ " "
           | None => s
           end in
  Py.drop_last s +:+ ")".

Definition Expr_repr (e : Expr) : string := Expr_str e.

Definition is_empty (e : Expr) : bool :=
  if Py.opt_truthy (Expr_tok e) then false
  else if Py.opt_truthy (Expr_op e) then false
  else if present (Expr_left e) then false
  else if present (Expr_right e) then false
  else true.

Definition is_token (e : Expr) : bool :=
  if Py.opt_truthy (Expr_tok e) then true else false.

Definition is_unary_expr (e : Expr) : bool :=
  if Py.opt_truthy (Expr_op e) && negb (present (Expr_left e))
     && present (Expr_right e)
  then true else false.

Definition is_parenth_expr (e : Expr) : bool :=
  if negb (Py.opt_truthy (Expr_op e)) && negb (present (Expr_left e))
     && present (Expr_right e)
  then true else false.

Definition is_binary_exprs (e : Expr) : bool :=
  if Py.opt_truthy (Expr_op e) && present (Expr_left e)
     && present (Expr_right e)
  then true else false.

(** ** The evaluator *)

(** The operator dispatch at the end of [evaluate], for a true [op]. *)
Definition apply_op (op : string) (x y : value) : io value :=
  (if String.eqb op "|" then lift (py_bitop Z.lor x y)
   else if String.eqb op "^" then lift (py_bitop Z.lxor x y)
   else if String.eqb op "&" then lift (py_bitop Z.land x y)
   else if String.eqb op "<<" then lift (py_shift Z.shiftl x y)
   else if String.eqb op ">>" then lift (py_shift Z.shiftr x y)
   else if String.eqb op "+" then lift (py_sub x y)
   else if String.eqb op "-" then lift (py_sub x y)
   else if String.eqb op "*" then lift (py_mul x y)
   else if String.eqb op "/" then
     if truthy y then
       lift (do g <- py_float y; py_truediv x g)%result
     else
       run print "Error: division by zero.";
       ret VNone
   else if String.eqb op "%" then
     if truthy y then
       lift (do n <- py_int y; py_mod x n)%result
     else
       run print "Error: modulo by zero.";
       ret VNone
   else if String.eqb op "+ x" then lift (py_pos y)
   else if String.eqb op "- x" then lift (py_neg y)
   else if String.eqb op "~ x" then
     lift (do n <- py_int y; Ok (VInt (Z.lnot n)))%result
   else if String.eqb op "**" then
     lift (do f <- py_float x;
           do g <- py_float y;
           do r <- float_pow f g;
           Ok (VFloat r))%result
   else
     run print "Error: evaluating";
     ret VNone)%io.

(** The branch of [evaluate] for a node with two children and no
    operator. *)
Definition no_operator (x y : value) : io value :=
  (do _ <- lift (if truthy x then py_float x else Ok (S754_zero false));
   do _ <- lift (if truthy y then py_float y else Ok (S754_zero false));
   run print "Parse error: leaf node wasn't a literal number.";
   ret VNone)%io.

(** The text of a node that [is_token()]. *)
Definition token_text (e : Expr) : option string :=
  if is_token e then Expr_tok e else None.

Fixpoint evaluate (e : Expr) : io value :=
  let 'MkExpr tok op l r := e in
  (match token_text e with
   | Some t => lift (to_number t)
   | None =>
     match r with
     | Some er =>
         if is_parenth_expr e then evaluate er
         else
           do x <- match l with
                   | None => ret VNone
                   | Some el => if is_empty el then ret VNone else evaluate el
                   end;
           do y <- (if is_empty er then ret VNone else evaluate er);
           match op with
           | Some o =>
               if Py.str_truthy o then apply_op o x y
               else no_operator x y
           | None => no_operator x y
           end
     | None =>
         if Py.opt_truthy op && negb (present l) then
           run print ("Error: " +:+ Expr_repr e +:+ " has too few items.");
           ret VNone
         else
           match l with
           | None => ret VNone
           | Some el => if is_empty el then ret VNone else evaluate el
           end
     end
   end)%io.

(** ** The parser *)

Record Parser := { current_tokens : list string; current_index : nat }.

(** [Parser(tokens)] and [set_tokens(tokens)]. *)
Definition Parser_init (tokens : list string) : Parser :=
  {| current_tokens := tokens; current_index := 0 |}.

Definition curr_token (p : Parser) : option string :=
  if (current_index p <? length (current_tokens p))%nat
  then current_tokens p !! current_index p
  else None.

Definition advance (p : Parser) : Parser :=
  {| current_tokens := current_tokens p;
     current_index := current_index p + 1 |}.

(** What a run of a parser method leaves behind: the lines printed, the
    operators looked up by the fold loop of [parse_expr], and how the run
    ended, with the parser's new state. The list [looked_up] is a history
    of the run: no method reads it. *)
Record steps (A : Type) := Steps {
  printed : list string;
  looked_up : list string;
  ended : result (A * Parser)
}.

Arguments Steps {A} printed looked_up ended.
Arguments printed {A} s.
Arguments looked_up {A} s.
Arguments ended {A} s.

(** A parser method; [None] when the fuel of the embedding runs out. *)
Definition parsing (A : Type) : Type := Parser -> option (steps A).

Definition pret {A} (a : A) : parsing A :=
  fun p => Some (Steps [] [] (Ok (a, p))).

Definition praise {A} (e : exn) : parsing A :=
  fun p => Some (Steps [] [] (Raise e)).

Definition plift {A} (r : result A) : parsing A :=
  fun p => Some (Steps [] [] (rbind r (fun a => Ok (a, p)))).

Definition pbind {A B} (m : parsing A) (k : A -> parsing B) : parsing B :=
  fun p =>
    match m p with
    | None => None
    | Some (Steps out ops (Ok (a, p'))) =>
        match k a p' with
        | None => None
        | Some (Steps out' ops' r) => Some (Steps (out ++ out') (ops ++ ops') r)
        end
    | Some (Steps out ops (Raise e)) => Some (Steps out ops (Raise e))
    | Some (Steps out ops Outside) => Some (Steps out ops Outside)
    end.

Declare Scope parsing_scope.
Delimit Scope parsing_scope with parsing.

Notation "'do' x <- m ; k" := (pbind m (fun x => k))
  (at level 10, x name, m at level 100, k at level 200) : parsing_scope.
Notation "'do' ' p <- m ; k" := (pbind m (fun x => let p := x in k))
  (at level 10, p pattern, m at level 100, k at level 200) : parsing_scope.
Notation "'run' m ; k" := (pbind m (fun _ => k))
  (at level 10, m at level 100, k at level 200) : parsing_scope.

Definition parse_error (s : string) : parsing unit :=
  fun p => Some (Steps ["Parse error: " +:+ s] [] (Ok (tt, p))).

Definition get_curr_token : parsing (option string) :=
  fun p => Some (Steps [] [] (Ok (curr_token p, p))).

Definition get_next_token : parsing (option string) :=
  fun p => Some (Steps [] [] (Ok (curr_token (advance p), advance p))).

(** Records that the fold loop looks [op] up in [Op_Table]. *)
Definition note_lookup (op : string) : parsing unit :=
  fun p => Some (Steps [] [op] (Ok (tt, p))).

(** [key in Op_Table]. *)
Definition in_Op_Table (key : string) : bool :=
  match Op_Table !! key with Some _ => true | None => false end.

(** [Op_Table[key]], for a key that may be [None]. *)
Definition Op_Table_item (key : option string)
    : result (op_kind * assoc * nat) :=
  match key with
  | Some k =>
      match Op_Table !! k with
      | Some d => Ok d
      | None => Raise KeyError
      end
  | None => Raise KeyError
  end.

(** The operator the fold loop works on and the left-hand side it keeps:
    the text of a left-hand side that is itself an operator token, else
    the current token; [None] when the loop is left. *)
Definition candidate (lhs : Expr)
    : parsing (option (string * option Expr)) :=
  (match token_text lhs with
   | Some t =>
       if in_Op_Table t then pret (Some (t, None))
       else
         do tok <- get_curr_token;
         match tok with
         | None => pret None
         | Some tok =>
             if negb (in_Op_Table tok) then pret None
             else pret (Some (tok, Some lhs))
         end
   | None =>
       do tok <- get_curr_token;
       match tok with
       | None => pret None
       | Some tok =>
           if negb (in_Op_Table tok) then pret None
           else pret (Some (tok, Some lhs))
       end
   end)%parsing.

(** The update of [lhs] at the end of an iteration of the fold loop. *)
Definition fold (op : string) (kind : op_kind) (associativity : assoc)
    (precedence : nat) (lhs : option Expr) (rhs : option Expr)
    : result Expr :=
  if decide (kind = UNARYOP) then Ok (MkExpr None (Some op) None rhs)
  else
    match lhs with
    | None => Raise AttributeError
    | Some l =>
        if is_token l then Ok (MkExpr None (Some op) (Some l) rhs)
        else if is_parenth_expr l
        then Ok (MkExpr None (Some op) (Expr_right l) rhs)
        else
          (do '(prev_kind, prev_associativity, prev_precedence)
              <- Op_Table_item (Expr_op l);
           if bool_decide (prev_kind = BINARYOP)
              && bool_decide (prev_associativity = associativity)
              && (prev_precedence =? precedence)%nat
           then Ok (MkExpr None (Some op) (Some l) rhs)
           else if decide (kind = UNARYOP)
           then Raise TypeError
           else if decide (kind = BINARYOP)
           then Ok (MkExpr None (Some op) (Some l) rhs)
           else Ok l)%result
    end.

Definition out_of_fuel {A} : parsing A := fun _ => None.

Fixpoint parse_atom (fuel : nat) (min_prec : nat) {struct fuel}
    : parsing Expr :=
  match fuel with
  | O => out_of_fuel
  | S fuel' =>
    (do tok <- get_curr_token;
     match tok with
     | None =>
         run parse_error "source ended unexpectedly";
         pret (MkExpr None None None None)
     | Some tok =>
         if String.eqb tok "(" then
           run get_next_token;
           do subexpr <- parse_expr fuel' 0;
           do closing <- get_curr_token;
           run (if bool_decide (closing = Some ")") then pret tt
                else parse_error ("unmatched " +:+ Py.dquote +:+ "("
                                  +:+ Py.dquote));
           run get_next_token;
           pret (MkExpr None None None subexpr)
         else if Py.list_in tok ["-"; "+"; "~"; "not"] then
           let op := tok +:+ " x" in
           do '(kind, associativity, precedence)
              <- plift (Op_Table_item (Some op));
           run get_next_token;
           do subexpr <- parse_expr fuel' precedence;
           pret (MkExpr None (Some op) None subexpr)
         else if in_Op_Table tok then
           run parse_error ("expected an atom, not an operator "
                            +:+ Py.dquote +:+ tok +:+ Py.dquote);
           pret (MkExpr None None None None)
         else
           run get_next_token;
           pret (MkExpr (Some tok) None None None)
     end)%parsing
  end

with parse_expr (fuel : nat) (min_prec : nat) {struct fuel}
    : parsing (option Expr) :=
  match fuel with
  | O => out_of_fuel
  | S fuel' =>
    (do lhs <- parse_atom fuel' min_prec;
     fold_loop fuel' min_prec lhs)%parsing
  end

(** The [while True] loop of [parse_expr], entered with [lhs]. *)
with fold_loop (fuel : nat) (min_prec : nat) (lhs : Expr) {struct fuel}
    : parsing (option Expr) :=
  match fuel with
  | O => out_of_fuel
  | S fuel' =>
    (do found <- candidate lhs;
     match found with
     | None => pret (Some lhs)
     | Some (op, lhs) =>
         do '(kind, associativity, precedence)
            <- plift (Op_Table_item (Some op));
         run note_lookup op;
         if (precedence <? min_prec)%nat then pret lhs
         else
           let next_min_prec :=
             if decide (associativity = LEFT) then precedence + 1
             else precedence in
           run get_next_token;
           do rhs <- parse_expr fuel' next_min_prec;
           do lhs <- plift (fold op kind associativity precedence lhs rhs);
           fold_loop fuel' min_prec lhs
     end)%parsing
  end.

(** Fuel that [parse_expr] never exhausts on [tokens] (lemma
    [parse_expr_fuel]). *)
Definition parse_fuel (tokens : list string) : nat := 2 * length tokens + 2.

(** [parse(line)]; [None] only if the fuel ran out. *)
Definition parse (line : string) : option (io value) :=
  let tokens := tokenise line in
  match tokens with
  | [] => Some (ret VNone)
  | _ =>
      match parse_expr (parse_fuel tokens) 0 (Parser_init tokens) with
      | None => None
      | Some (Steps out _ (Ok (Some expr, _))) =>
          Some (bind (out, Ok tt) (fun _ => evaluate expr))
      | Some (Steps out _ (Ok (None, _))) => Some (out, Raise AttributeError)
      | Some (Steps out _ (Raise e)) => Some (out, Raise e)
      | Some (Steps out _ Outside) => Some (out, Outside)
      end
  end.

(** ** The tokeniser, read on the rest of the line *)

Definition is_whitespace (c : ascii) : bool :=
  Py.str_in (Py.char_str c) whitespace.

Definition is_number_char (c : ascii) : bool :=
  Py.str_in (Py.char_str c) number_chars.

(** [s[:len(tok)] == tok]. *)
Fixpoint starts_with (tok s : string) : bool :=
  match tok with
  | EmptyString => true
  | String a tok' =>
      match s with
      | String b s' => Ascii.eqb a b && starts_with tok' s'
      | EmptyString => false
      end
  end.

(** The first predefined token, in the order of [Predefined_Tokens], that
    the text [s] starts with. *)
Definition first_predefined (s : string) : option string :=
  List.find (fun tok => starts_with tok s) Predefined_Tokens.

(** The length of the longest run of number characters [s] starts with. *)
Fixpoint number_run (s : string) : nat :=
  match s with
  | String c s' => if is_number_char c then S (number_run s') else 0
  | EmptyString => 0
  end.

(** The scanner of the specification, on the text that is left: the
    tokens read and the number of characters consumed before the scan
    stops. *)
Fixpoint scan (fuel : nat) (s : string) : list string * nat :=
  match fuel with
  | O => ([], 0)
  | S fuel' =>
      match s with
      | EmptyString => ([], 0)
      | String c s' =>
          if is_whitespace c then
            let '(ts, k) := scan fuel' s' in (ts, 1 + k)
          else
            match first_predefined s with
            | Some tok =>
                let '(ts, k) := scan fuel' (Py.slice_from (String.length tok) s) in
                (tok :: ts, String.length tok + k)
            | None =>
                let n := number_run s in
                if (0 <? n)%nat then
                  let '(ts, k) := scan fuel' (Py.slice_from n s) in
                  (substring 0 n s :: ts, n + k)
                else ([], 0)
            end
      end
  end.

(** The scanner with all the fuel it needs. *)
Definition scan_all (s : string) : list string * nat :=
  scan (String.length s) s.


(** [c] is the second character of a predefined token. *)
Definition second_of_predefined (c : ascii) : bool :=
  existsb (fun tok => match String.get 1 tok with
                      | Some c' => Ascii.eqb c c'
                      | None => false
                      end) Predefined_Tokens.


(** A token the scanner can produce: a predefined one, or a non-empty run
    of number characters. *)
Fixpoint all_number_chars (t : string) : bool :=
  match t with
  | EmptyString => true
  | String c t' => is_number_char c && all_number_chars t'
  end.

Definition scanned_token (t : string) : Prop :=
  In t Predefined_Tokens \/ (t <> EmptyString /\ all_number_chars t = true).

(** [Op_Table] as a decision list, last entry first. *)
Definition op_info (key : string) : option (op_kind * assoc * nat) :=
  if String.eqb key "**" then Some (BINARYOP, RIGHT, 8)
  else if String.eqb key "~ x" then Some (UNARYOP, RIGHT, 7)
  else if String.eqb key "- x" then Some (UNARYOP, RIGHT, 7)
  else if String.eqb key "+ x" then Some (UNARYOP, RIGHT, 7)
  else if String.eqb key "%" then Some (BINARYOP, LEFT, 6)
  else if String.eqb key "/" then Some (BINARYOP, LEFT, 6)
  else if String.eqb key "*" then Some (BINARYOP, LEFT, 6)
  else if String.eqb key "-" then Some (BINARYOP, LEFT, 5)
  else if String.eqb key "+" then Some (BINARYOP, LEFT, 5)
  else if String.eqb key ">>" then Some (BINARYOP, LEFT, 4)
  else if String.eqb key "<<" then Some (BINARYOP, LEFT, 4)
  else if String.eqb key "&" then Some (BINARYOP, LEFT, 3)
  else if String.eqb key "^" then Some (BINARYOP, LEFT, 2)
  else if String.eqb key "|" then Some (BINARYOP, LEFT, 1)
  else None.

(** A left-hand side of the fold loop that is not a leaf whose text is an
    operator. *)
Definition no_operator_leaf (e : Expr) : Prop :=
  forall t, token_text e = Some t -> in_Op_Table t = false.

(** What every run of a parser method on the tokens [ts] keeps: the
    operators the fold loop looks up are tokens and keys of [Op_Table],
    no [TypeError] is raised, the tokens stay and the cursor does not
    move back; [Q] holds of the value returned. *)
Definition keeps {A} (ts : list string) (m : parsing A) (Q : A -> Prop)
    : Prop :=
  forall p s, current_tokens p = ts -> m p = Some s ->
    (forall op, In op (looked_up s) -> In op ts /\ in_Op_Table op = true) /\
    ended s <> Raise TypeError /\
    forall a p', ended s = Ok (a, p') ->
      current_tokens p' = ts /\ current_index p <= current_index p' /\ Q a.

(** The tokens not yet consumed. *)
Definition remaining (p : Parser) : nat :=
  length (current_tokens p) - current_index p.

(** A run that does not exhaust its fuel. *)
Definition defined {A} (m : parsing A) (p : Parser) : Prop :=
  exists s, m p = Some s.

(** A syntactically valid expression text: the tokeniser reads it to its
    end, and the parser turns its tokens into a tree without reporting an
    error and without leaving a token unread. *)
Definition syntactically_valid (text : string) : Prop :=
  snd (tokenise_state text) = String.length text /\
  exists ops tree p,
    parse_expr (parse_fuel (tokenise text)) 0 (Parser_init (tokenise text))
      = Some (Steps [] ops (Ok (Some tree, p))) /\
    current_index p = length (tokenise text).

(** [c] is the first character of a predefined token. *)
Definition starts_predefined (c : ascii) : bool :=
  existsb (fun tok => starts_with (Py.char_str c) tok) Predefined_Tokens.

(** A character the tokeniser cannot read: no whitespace, not the start
    of a predefined token, no number character. *)
Definition stops_scan (c : ascii) : bool :=
  negb (is_whitespace c) && negb (starts_predefined c)
  && negb (is_number_char c).

(** The formats of numeric literals, in the words of the specification. *)
Inductive literal_format :=
  | Hexadecimal
  | Octal
  | Binary
  | Floating
  | Decimal.

(** [c] occurs in [s]. *)
Fixpoint occurs (c : ascii) (s : string) : bool :=
  match s with
  | EmptyString => false
  | String c' s' => Ascii.eqb c' c || occurs c s'
  end.

Definition format_of (tok : string) : literal_format :=
  if starts_with "0x" tok || starts_with "0X" tok then Hexadecimal
  else if starts_with "0o" tok then Octal
  else if starts_with "0b" tok then Binary
  else if occurs "." tok || occurs "e" tok || occurs "E" tok then Floating
  else Decimal.

(** The number a literal stands for, by its format. *)
Definition number_of_literal (tok : string) : result value :=
  match format_of tok with
  | Hexadecimal => rbind (py_int_str (Py.slice_from 2 tok) 16) (fun z => Ok (VInt z))
  | Octal => rbind (py_int_str (Py.slice_from 2 tok) 8) (fun z => Ok (VInt z))
  | Binary => rbind (py_int_str (Py.slice_from 2 tok) 2) (fun z => Ok (VInt z))
  | Floating => rbind (py_float_str tok) (fun f => Ok (VFloat f))
  | Decimal => rbind (py_int_str tok 10) (fun z => Ok (VInt z))
  end.

(** Shapes of trees. *)
Definition Leaf (tok : string) : Expr := MkExpr (Some tok) None None None.
Definition Unary (op : string) (operand : Expr) : Expr :=
  MkExpr None (Some op) None (Some operand).
Definition BinaryNode (op : string) (l r : Expr) : Expr :=
  MkExpr None (Some op) (Some l) (Some r).
Definition Paren (inner : Expr) : Expr :=
  MkExpr None None None (Some inner).

(** The tree [parse] evaluates, when the parser returns one. *)
Definition parse_tree (line : string) : option Expr :=
  match parse_expr (parse_fuel (tokenise line)) 0
                   (Parser_init (tokenise line)) with
  | Some (Steps _ _ (Ok (Some tree, _))) => Some tree
  | _ => None
  end.

(** The natural number a float is, if it is one. *)
Definition natural_of (f : float) : option Z :=
  match f with
  | S754_zero _ => Some 0%Z
  | S754_finite false _ _ =>
      if F64.is_integer f then Some (F64.trunc f) else None
  | _ => None
  end.

(** A power function that is exact on natural numbers. *)
Definition pow_on_naturals (x y : float) : float :=
  match natural_of x, natural_of y with
  | Some a, Some b => F64.of_Z (a ^ b)
  | _, _ => S754_nan
  end.

(** The precedence rank of an operator of the table. *)
Definition rank (key : string) : option nat :=
  match Op_Table !! key with
  | Some (_, _, precedence) => Some precedence
  | None => None
  end.

(** [x] is a number equal to zero. *)
Definition is_zero_number (x : value) : bool :=
  match x with
  | VNone => false
  | VInt z => (z =? 0)%Z
  | VFloat f => F64.is_zero f
  end.

(** The number [x mod n] for an integer [n] that is not zero. *)
Definition modulo_number (x : value) (n : Z) : value :=
  match x with
  | VInt a => VInt (a mod n)
  | VFloat f => VFloat (F64.rem f (F64.of_Z n))
  | VNone => VNone
  end.

Definition one_half : float := F64.of_decimal false 5 (-1).

(** The state [q] reads, after the tokens [pre], the tokens of [p]
    followed by a closing parenthesis, at the same place. *)
Definition embeds (pre : list string) (p q : Parser) : Prop :=
  current_tokens q = pre ++ current_tokens p ++ [")"] /\
  current_index q = length pre + current_index p.

(** A run of [m] that prints nothing and returns is matched by a run of
    [m'] in the embedding state. *)
Definition sim2 {A} (pre : list string) (m m' : parsing A) : Prop :=
  forall p q s a p1, embeds pre p q ->
    m p = Some s -> printed s = [] -> ended s = Ok (a, p1) ->
    exists q1, m' q = Some (Steps [] (looked_up s) (Ok (a, q1))) /\
               embeds pre p1 q1.

(** The default of [sys.get_int_max_str_digits()]. *)
Definition default_max_str_digits : nat := 4300.

(** ** A grammar of token lists

    An expression is a sequence of atoms separated by binary operators; an
    atom is a literal, an expression in parentheses, or a prefix operator
    followed by an atom. *)

Definition prefix_operator (t : string) : bool :=
  Py.list_in t ["-"; "+"; "~"].

Definition binary_operator (t : string) : bool :=
  match Op_Table !! t with
  | Some (BINARYOP, _, _) => true
  | _ => false
  end.

Definition literal_token (t : string) : bool :=
  Py.str_truthy t && negb (String.eqb t "(") && negb (String.eqb t ")")
  && negb (Py.list_in t ["-"; "+"; "~"; "not"]) && negb (in_Op_Table t).

(** The tokens [ts] continue an expression inside [depth] open
    parentheses, at a place where an atom ([expect_atom]) or an operator
    is due, and end it. *)
Fixpoint well_formed_from (expect_atom : bool) (depth : nat)
    (ts : list string) : bool :=
  match ts with
  | [] => negb expect_atom && (depth =? 0)%nat
  | t :: ts' =>
      if expect_atom then
        if String.eqb t "(" then well_formed_from true (S depth) ts'
        else if prefix_operator t then well_formed_from true depth ts'
        else if literal_token t then well_formed_from false depth ts'
        else false
      else
        if String.eqb t ")" then
          match depth with
          | S depth' => well_formed_from false depth' ts'
          | O => false
          end
        else if binary_operator t then well_formed_from true depth ts'
        else false
  end.

Definition well_formed (ts : list string) : bool :=
  well_formed_from true 0 ts.

(** A run of [m] from a state in [P] that ends: it has printed nothing,
    and it returns a value and a state in [Q]. *)
Definition quiet {A} (P : Parser -> Prop) (m : parsing A)
    (Q : A -> Parser -> Prop) : Prop :=
  forall p s, P p -> m p = Some s ->
    exists ops a p', s = Steps [] ops (Ok (a, p')) /\ Q a p'.

(** The parser reads [ts], and what is left is well formed. *)
Definition reading (ts : list string) (expect_atom : bool) (depth : nat)
    (p : Parser) : Prop :=
  current_tokens p = ts /\ current_index p <= length ts /\
  well_formed_from expect_atom depth (drop (current_index p) ts) = true.

(** Where a call of [parse_expr] with [min_prec] stops: at the end, at a
    closing parenthesis, or at an operator of lower precedence. *)
Definition stops_at (min_prec : nat) (p : Parser) : Prop :=
  match curr_token p with
  | None => True
  | Some t =>
      t = ")" \/
      exists kind a n, op_info t = Some (kind, a, n) /\ n < min_prec
  end.

(** A left-hand side the fold loop can fold. *)
Definition foldable (e : Expr) : Prop :=
  no_operator_leaf e /\
  (is_token e = true \/ is_parenth_expr e = true \/
   exists d, Op_Table_item (Expr_op e) = Ok d).

(** ** Numerals *)

(** Every character of [s] is a digit of [base]. *)
Fixpoint all_digits (base : Z) (s : string) : bool :=
  match s with
  | EmptyString => true
  | String c s' =>
      match Text.digit_value c with
      | Some d => (d <? base)%Z && all_digits base s'
      | None => false
      end
  end.

(** The number the digits of [s] write in [base], after the digits that
    write [acc]. *)
Fixpoint numeral (base : Z) (s : string) (acc : Z) : Z :=
  match s with
  | EmptyString => acc
  | String c s' =>
      match Text.digit_value c with
      | Some d => numeral base s' (acc * base + d)
      | None => acc
      end
  end.

(** ** Lines of two integer literals *)

(** A decimal integer literal, short enough for any limit on the length
    of integer literals. *)
Definition decimal_literal (s : string) : bool :=
  Py.str_truthy s && all_digits 10 s && (String.length s <=? 640)%nat.

(** The integer a decimal literal stands for. *)
Definition decimal_value (s : string) : Z := numeral 10 s 0.

(** The line [a op b]. *)
Definition binary_line (a op b : string) : string :=
  a +:+ " " +:+ op +:+ " " +:+ b.

(** Proof steps used more than once. *)
Ltac pair_eq :=
  match goal with
  | |- (_, _) = (_, _) => apply f_equal2; [try reflexivity | try lia]
  end.

(** * More of the program: definitions *)

(** ** Tokens and text *)

(** The text [s] without its whitespace characters. *)
Fixpoint without_whitespace (s : string) : string :=
  match s with
  | EmptyString => EmptyString
  | String c s' =>
      if is_whitespace c then without_whitespace s'
      else String c (without_whitespace s')
  end.

(** The tokens [ts] written one after the other. *)
Fixpoint concat_tokens (ts : list string) : string :=
  match ts with
  | [] => EmptyString
  | t :: ts' => t +:+ concat_tokens ts'
  end.


(** The tokens [ts] written with one blank between them:
    [" ".join(ts)]. *)
Fixpoint joined (ts : list string) : string :=
  match ts with
  | [] => EmptyString
  | [t] => t
  | t :: ts' => t +:+ String " " (joined ts')
  end.

(** ** Outcomes of the parser *)

(** The key of a prefix operator in [Op_Table]. *)
Definition unary_key (op : string) : bool :=
  match Op_Table !! op with
  | Some (UNARYOP, _, _) => true
  | _ => false
  end.

(** The trees the parser builds from the tokens [ts]. *)
Inductive parsed (ts : list string) : Expr -> Prop :=
  | parsed_empty :
      parsed ts (MkExpr None None None None)
  | parsed_token tok :
      In tok ts -> in_Op_Table tok = false ->
      parsed ts (MkExpr (Some tok) None None None)
  | parsed_parenth e :
      parsed ts e -> parsed ts (MkExpr None None None (Some e))
  | parsed_unary op e :
      unary_key op = true -> parsed ts e ->
      parsed ts (MkExpr None (Some op) None (Some e))
  | parsed_binary op l r :
      binary_operator op = true -> In op ts ->
      parsed ts l -> parsed ts r ->
      parsed ts (MkExpr None (Some op) (Some l) (Some r)).

(** The lines [parse_error] prints on the tokens [ts]. *)
Definition parser_message (ts : list string) (msg : string) : Prop :=
  msg = "Parse error: source ended unexpectedly" \/
  msg = "Parse error: unmatched " +:+ Py.dquote +:+ "(" +:+ Py.dquote \/
  exists tok, In tok ts /\ in_Op_Table tok = true /\
    msg = "Parse error: expected an atom, not an operator "
          +:+ Py.dquote +:+ tok +:+ Py.dquote.

(** A left-hand side that the fold loop can fold without a [KeyError]. *)
Definition has_shape (e : Expr) : Prop :=
  is_token e = true \/ is_parenth_expr e = true \/
  exists d, Op_Table_item (Expr_op e) = Ok d.

(** What a run of a parser method on the tokens [ts] comes to: it prints
    lines of [parse_error] only; it does not leave the values of the
    embedding; it keeps the tokens; a value it returns is in [Q], and in
    [G] if nothing was printed; an exception it raises is a [KeyError], and
    then something was printed. The two statements about a run that
    prints nothing are made under the assumption [given]. *)
Definition outcome {A} (ts : list string) (given : Prop) (m : parsing A)
    (Q G : A -> Prop) : Prop :=
  forall p s, current_tokens p = ts -> m p = Some s ->
    Forall (parser_message ts) (printed s) /\
    match ended s with
    | Ok (a, p') =>
        current_tokens p' = ts /\ Q a /\ (given -> printed s = [] -> G a)
    | Raise e => e = KeyError /\ (given -> printed s <> [])
    | Outside => False
    end.

(** ** Lines of literals and operators *)

(** A token that is a run of number characters. *)
Definition number_token (t : string) : bool :=
  Py.str_truthy t && all_number_chars t.

(** The operator [o2] that follows an operand of [o1] is left to the
    caller: its precedence is lower, or the same with [o1] grouping to the
    left. *)
Definition groups_left (o1 o2 : string) : bool :=
  match Op_Table !! o1, Op_Table !! o2 with
  | Some (_, a1, n1), Some (_, _, n2) =>
      (n2 <? n1)%nat || ((n2 =? n1)%nat && bool_decide (a1 = LEFT))
  | _, _ => false
  end.

(** ** The parser on a part of the tokens *)

(** The state [q] reads the tokens of [p] between the tokens [pre] and
    [suf], at the same place, which is not past the end of the tokens of
    [p]. *)
Definition within (pre suf : list string) (p q : Parser) : Prop :=
  current_tokens q = pre ++ current_tokens p ++ suf /\
  current_index q = length pre + current_index p /\
  current_index p <= length (current_tokens p).

(** A run of [m] from a state in [P] that prints nothing and returns is
    matched by a run of [m'] on the tokens between [pre] and [suf]. *)
Definition follows {A} (pre suf : list string) (P : Parser -> Prop)
    (m m' : parsing A) : Prop :=
  forall p q s a p1, P p -> within pre suf p q ->
    m p = Some s -> printed s = [] -> ended s = Ok (a, p1) ->
    exists q1, m' q = Some (Steps [] (looked_up s) (Ok (a, q1))) /\
               within pre suf p1 q1.

(** ** Outcomes of the evaluator *)

(** The two reports of the evaluator that [parse] can print. *)
Definition evaluator_message (msg : string) : Prop :=
  msg = "Error: division by zero." \/ msg = "Error: modulo by zero.".

(** The exceptions the arithmetic of the evaluator raises. *)
Definition arithmetic_exn (e : exn) : Prop :=
  In e [TypeError; ValueError; ZeroDivisionError; OverflowError].

(** A computation of the evaluator that prints only these reports and
    raises only these exceptions. *)
Definition evaluates {A} (m : io A) : Prop :=
  Forall evaluator_message (fst m) /\
  forall e, snd m = Raise e -> arithmetic_exn e.

(** ** Lines *)

(** Every character of [s] is a whitespace character of the tokeniser. *)
Fixpoint all_whitespace (s : string) : bool :=
  match s with
  | EmptyString => true
  | String c s' => is_whitespace c && all_whitespace s'
  end.

(** The empty expression [Expr()]. *)
Definition Empty : Expr := MkExpr None None None None.

(** The five tests of [Expr] on [e], and how many of them hold. *)
Definition classes (e : Expr) : list bool :=
  [is_empty e; is_token e; is_unary_expr e; is_parenth_expr e;
   is_binary_exprs e].

Definition class_count (e : Expr) : nat :=
  length (filter (fun b => b = true) (classes e)).

(** ** Trees as text *)

(** The text [__str__] builds before it replaces the last character. *)
Definition str_parts (e : Expr) : string :=
  let 'MkExpr tok op l r := e in
  (match tok with
   | Some t => if Py.str_truthy t then "Token: " +:+ t +:+ " " else ""
   | None => ""
   end)
  +:+ (match l with
       | Some el => "Left: " +:+ Expr_str el +:+ " "
       | None => ""
       end)
  +:+ (match op with
       | Some o => if Py.str_truthy o then "Op: " +:+ o +:+ " " else ""
       | None => ""
       end)
  +:+ (match r with
       | Some er => "Right: " +:+ Expr_str er +:+ " "
       | None => ""
       end).


(** ** Literals *)

(** A character of a literal that the conversions take as it is. *)
Definition plain_char (c : ascii) : Prop :=
  Text.ascii_view c = c /\ Text.is_space c = false /\ c <> "_"%char.

Fixpoint plain (s : string) : Prop :=
  match s with
  | EmptyString => True
  | String c s' => plain_char c /\ plain s'
  end.


(** ** Precedence and associativity of the operators *)

(** The associativity [Op_Sets] declares for an operator key. *)
Definition declared_associativity (key : string) : option assoc :=
  match Op_Table !! key with
  | Some (_, associativity, _) => Some associativity
  | None => None
  end.

(** The operator key [k1] binds tighter than [k2]: its precedence in
    [Op_Table] is the higher one. *)
Definition binds_tighter (k1 k2 : string) : bool :=
  match rank k1, rank k2 with
  | Some n1, Some n2 => (n2 <? n1)%nat
  | _, _ => false
  end.

(** * Properties *)

(** ** The tokeniser *)

Example tokenise_doc :
  tokenise "(3+17<<2)" = ["("; "3"; "+"; "17"; "<<"; "2"; ")"].
Proof. vm_compute. reflexivity. Qed.

(** *** Slices *)

Lemma slice_from_length i s :
  String.length (Py.slice_from i s) = String.length s - i.
Proof.
  revert s; induction i as [|i IH]; intros [|c s]; simpl; rewrite ?IH; lia.
Qed.

Lemma slice_from_add i j s :
  Py.slice_from (i + j) s = Py.slice_from j (Py.slice_from i s).
Proof.
  revert s; induction i as [|i IH]; intros s; simpl; [reflexivity|].
  destruct s as [|c s]; [destruct j; reflexivity | apply IH].
Qed.

Lemma slice_from_nonempty i s :
  i < String.length s ->
  exists c s', Py.slice_from i s = String c s'.
Proof.
  revert s; induction i as [|i IH]; intros [|c s] H; simpl in *; try lia; eauto.
  apply IH; lia.
Qed.

Lemma slice_from_empty i s :
  String.length s <= i -> Py.slice_from i s = EmptyString.
Proof.
  revert s; induction i as [|i IH]; intros [|c s] H; simpl in *; try lia; auto.
  apply IH; lia.
Qed.

Lemma substring_slice_from i n s :
  substring i n s = substring 0 n (Py.slice_from i s).
Proof.
  revert s; induction i as [|i IH]; intros s; [reflexivity|].
  destruct s as [|c s]; simpl; [destruct n; reflexivity | apply IH].
Qed.

Lemma slice_slice_from i n s :
  Py.slice i (i + n) s = substring 0 n (Py.slice_from i s).
Proof.
  unfold Py.slice. replace (i + n - i) with n by lia.
  apply substring_slice_from.
Qed.

Lemma substring_0_0 s : substring 0 0 s = EmptyString.
Proof. destruct s; reflexivity. Qed.

Lemma get_slice_from i s :
  String.get i s = String.get 0 (Py.slice_from i s).
Proof.
  revert s; induction i as [|i IH]; intros [|c s]; simpl; auto.
Qed.

Lemma substring_starts_with tok s :
  String.eqb (substring 0 (String.length tok) s) tok = starts_with tok s.
Proof.
  revert s; induction tok as [|a tok IH]; intros s; simpl.
  - rewrite substring_0_0. reflexivity.
  - destruct s as [|b s]; simpl; [reflexivity|].
    rewrite IH, Ascii.eqb_sym. destruct (Ascii.eqb a b); reflexivity.
Qed.

(** *** The loops of [tokenise] against the scanner *)


Lemma find_predefined_first line start toks :
  find_predefined line start toks =
  List.find (fun tok => starts_with tok (Py.slice_from start line)) toks.
Proof.
  induction toks as [|tok toks IH]; simpl; [reflexivity|].
  rewrite slice_slice_from, substring_starts_with, IH. reflexivity.
Qed.

Lemma number_end_run fuel line i :
  String.length line - i <= fuel ->
  number_end fuel line i = i + number_run (Py.slice_from i line).
Proof.
  revert i; induction fuel as [|fuel IH]; intros i Hf; cbn [number_end].
  - rewrite slice_from_empty by lia. simpl. lia.
  - rewrite get_slice_from.
    pose proof (slice_from_length i line) as Hlen.
    destruct (Py.slice_from i line) as [|c s'] eqn:E;
      cbn [String.get number_run]; [lia|].
    change (Py.str_in (Py.char_str c) number_chars) with (is_number_char c).
    destruct (is_number_char c); [|lia].
    cbn [String.length] in Hlen.
    rewrite IH by lia.
    replace (S i) with (i + 1) by lia.
    rewrite slice_from_add, E. cbn [Py.slice_from]. lia.
Qed.

Lemma first_predefined_length s tok :
  first_predefined s = Some tok -> 0 < String.length tok.
Proof.
  unfold first_predefined. intros H.
  apply List.find_some in H as [Hin _].
  simpl in Hin.
  repeat (destruct Hin as [<-|Hin]; [simpl; lia|]). destruct Hin.
Qed.

Lemma tokenise_loop_scan fuel line tokens start :
  tokenise_loop fuel line tokens start =
  (tokens ++ fst (scan fuel (Py.slice_from start line)),
   start + snd (scan fuel (Py.slice_from start line))).
Proof.
  revert tokens start; induction fuel as [|fuel IH]; intros tokens start.
  - simpl. rewrite app_nil_r, Nat.add_0_r. reflexivity.
  - cbn [tokenise_loop scan].
    destruct (Nat.ltb_spec start (String.length line)) as [Hlt|Hge].
    2:{ rewrite slice_from_empty by lia. simpl.
        rewrite app_nil_r, Nat.add_0_r. reflexivity. }
    destruct (slice_from_nonempty _ _ Hlt) as (c & s' & E).
    rewrite slice_slice_from, E. cbn [substring]. rewrite substring_0_0.
    change (Py.str_in (String c EmptyString) whitespace) with (is_whitespace c).
    destruct (is_whitespace c).
    { rewrite IH, slice_from_add, E. cbn [Py.slice_from].
      destruct (scan fuel s') as [ts k]. simpl. pair_eq. }
    rewrite find_predefined_first, E. fold (first_predefined (String c s')).
    destruct (first_predefined (String c s')) as [tok|] eqn:Ef.
    { rewrite IH, slice_from_add, E.
      destruct (scan fuel _) as [ts k]. simpl.
      rewrite <- app_assoc. simpl. pair_eq. }
    rewrite number_end_run by lia. rewrite E.
    set (n := number_run (String c s')).
    destruct (Nat.ltb_spec start (start + n)) as [Hn|Hn];
      destruct (Nat.ltb_spec 0 n) as [Hn'|Hn']; try lia.
    + rewrite IH, slice_from_add, E, slice_slice_from, E.
      destruct (scan fuel _) as [ts k]. simpl.
      rewrite <- app_assoc. simpl. pair_eq.
    + simpl. rewrite app_nil_r, Nat.add_0_r. reflexivity.
Qed.

(** *** Fuel *)

Lemma scan_fuel fuel fuel' s :
  String.length s <= fuel -> String.length s <= fuel' ->
  scan fuel s = scan fuel' s.
Proof.
  revert fuel' s; induction fuel as [|fuel IH]; intros fuel' s H H'.
  - destruct s; simpl in H; [|lia]. destruct fuel'; reflexivity.
  - destruct fuel' as [|fuel'].
    { destruct s; simpl in H'; [reflexivity | lia]. }
    destruct s as [|c s']; [reflexivity|]. cbn [scan]. simpl in H, H'.
    destruct (is_whitespace c).
    { rewrite (IH fuel' s') by lia. reflexivity. }
    destruct (first_predefined (String c s')) as [tok|] eqn:Ef.
    { apply first_predefined_length in Ef.
      rewrite (IH fuel') by (rewrite slice_from_length; cbn [String.length]; lia).
      reflexivity. }
    destruct (Nat.ltb_spec 0 (number_run (String c s'))); [|reflexivity].
    rewrite (IH fuel') by (rewrite slice_from_length; cbn [String.length]; lia).
    reflexivity.
Qed.

(** [tokenise] is the scanner run on the whole line. *)
Lemma tokenise_state_scan line : tokenise_state line = scan_all line.
Proof.
  unfold tokenise_state, scan_all. rewrite tokenise_loop_scan. simpl.
  destruct (scan _ line); reflexivity.
Qed.

(** More fuel than [len(line)] does not change what the loop computes. *)
Lemma tokenise_loop_fuel fuel line :
  String.length line <= fuel ->
  tokenise_loop fuel line [] 0 = tokenise_state line.
Proof.
  intros H. unfold tokenise_state. rewrite !tokenise_loop_scan. simpl.
  rewrite (scan_fuel fuel (String.length line)) by lia. reflexivity.
Qed.

(** *** The scanner with all the fuel it needs *)

Lemma starts_with_length tok s :
  starts_with tok s = true -> String.length tok <= String.length s.
Proof.
  revert s; induction tok as [|a tok IH]; intros [|b s]; simpl;
    try lia; try discriminate.
  intros [_ H]%andb_prop. apply IH in H. lia.
Qed.

Lemma first_predefined_starts s tok :
  first_predefined s = Some tok ->
  In tok Predefined_Tokens /\ starts_with tok s = true.
Proof. intros H. apply List.find_some in H. exact H. Qed.

Lemma number_run_le s : number_run s <= String.length s.
Proof.
  induction s as [|c s IH]; simpl; [lia|].
  destruct (is_number_char c); lia.
Qed.

Lemma scan_all_empty : scan_all EmptyString = ([], 0).
Proof. reflexivity. Qed.

Lemma scan_all_cons c s' :
  scan_all (String c s') =
  if is_whitespace c then
    let '(ts, k) := scan_all s' in (ts, 1 + k)
  else
    match first_predefined (String c s') with
    | Some tok =>
        let '(ts, k) :=
          scan_all (Py.slice_from (String.length tok) (String c s')) in
        (tok :: ts, String.length tok + k)
    | None =>
        let n := number_run (String c s') in
        if (0 <? n)%nat then
          let '(ts, k) := scan_all (Py.slice_from n (String c s')) in
          (substring 0 n (String c s') :: ts, n + k)
        else ([], 0)
    end.
Proof.
  unfold scan_all. cbn [String.length scan].
  destruct (is_whitespace c); [reflexivity|].
  destruct (first_predefined (String c s')) as [tok|] eqn:Ef.
  { rewrite (scan_fuel (String.length s') (String.length (Py.slice_from (String.length tok) (String c s'))));
      [reflexivity | | lia].
    apply first_predefined_length in Ef.
    rewrite slice_from_length. cbn [String.length]. lia. }
  cbv zeta.
  destruct (Nat.ltb_spec 0 (number_run (String c s'))) as [Hn|Hn]; [|reflexivity].
  rewrite (scan_fuel (String.length s') (String.length (Py.slice_from (number_run (String c s')) (String c s'))));
    [reflexivity | | lia].
  rewrite slice_from_length. cbn [String.length]. lia.
Qed.

(** The scan never runs past the end of the text. *)
Lemma scan_all_consumed s : snd (scan_all s) <= String.length s.
Proof.
  remember (String.length s) as n eqn:Hn.
  revert s Hn; induction n as [n IH] using lt_wf_ind; intros s Hn.
  destruct s as [|c s']; [simpl; lia|].
  rewrite scan_all_cons. cbn [String.length] in Hn.
  destruct (is_whitespace c).
  { specialize (IH (String.length s') ltac:(lia) s' eq_refl).
    destruct (scan_all s'); simpl in *. lia. }
  destruct (first_predefined (String c s')) as [tok|] eqn:Ef.
  { pose proof (first_predefined_length _ _ Ef).
    apply first_predefined_starts in Ef as [_ Hs%starts_with_length].
    cbn [String.length] in Hs.
    set (r := Py.slice_from (String.length tok) (String c s')).
    assert (Hr : String.length r = S (String.length s') - String.length tok)
      by (unfold r; rewrite slice_from_length; reflexivity).
    specialize (IH (String.length r) ltac:(lia) r eq_refl).
    destruct (scan_all r); simpl in *. lia. }
  cbv zeta. pose proof (number_run_le (String c s')) as Hle.
  cbn [String.length] in Hle.
  destruct (Nat.ltb_spec 0 (number_run (String c s'))) as [Hp|Hp]; [|simpl; lia].
  set (r := Py.slice_from (number_run (String c s')) (String c s')).
  assert (Hr : String.length r = S (String.length s') - number_run (String c s'))
    by (unfold r; rewrite slice_from_length; reflexivity).
  specialize (IH (String.length r) ltac:(lia) r eq_refl).
  destruct (scan_all r); simpl in *. lia.
Qed.

(** *** A character after the text *)

Lemma predefined_short tok :
  In tok Predefined_Tokens -> String.length tok <= 2.
Proof.
  simpl. intros H.
  repeat (destruct H as [<-|H]; [simpl; lia|]). destruct H.
Qed.

Lemma starts_with_app tok s c rest :
  In tok Predefined_Tokens -> second_of_predefined c = false ->
  s <> EmptyString ->
  starts_with tok (s +:+ String c rest) = starts_with tok s.
Proof.
  intros Hin Hc Hs.
  pose proof (predefined_short _ Hin) as Hlen.
  assert (Hsec : forall y, String.get 1 tok = Some y -> Ascii.eqb y c = false).
  { intros y Hy. unfold second_of_predefined in Hc.
    rewrite <- not_true_iff_false, existsb_exists in Hc.
    destruct (Ascii.eqb y c) eqn:E; [|reflexivity].
    exfalso. apply Hc. exists tok. split; [assumption|]. rewrite Hy.
    rewrite Ascii.eqb_sym. exact E. }
  destruct s as [|a s']; [congruence|].
  destruct tok as [|x [|y [|z tok]]]; simpl in Hlen; try lia; simpl.
  - reflexivity.
  - reflexivity.
  - destruct s' as [|b s'']; simpl.
    + rewrite (Hsec y eq_refl). simpl. rewrite !andb_false_r. reflexivity.
    + reflexivity.
Qed.

Lemma first_predefined_app s c rest :
  second_of_predefined c = false -> s <> EmptyString ->
  first_predefined (s +:+ String c rest) = first_predefined s.
Proof.
  intros Hc Hs. unfold first_predefined.
  assert (H : forall l, (forall tok, In tok l -> In tok Predefined_Tokens) ->
            List.find (fun tok => starts_with tok (s +:+ String c rest)) l =
            List.find (fun tok => starts_with tok s) l).
  { induction l as [|tok l IH]; intros Hl; [reflexivity|]. simpl.
    rewrite starts_with_app by (auto; apply Hl; left; reflexivity).
    rewrite IH by (intros; apply Hl; right; assumption). reflexivity. }
  apply H. auto.
Qed.

Lemma number_run_app s c rest :
  is_number_char c = false ->
  number_run (s +:+ String c rest) = number_run s.
Proof.
  intros Hc. induction s as [|a s IH]; simpl.
  - rewrite Hc. reflexivity.
  - rewrite IH. reflexivity.
Qed.

Lemma substring_app n s t :
  n <= String.length s -> substring 0 n (s +:+ t) = substring 0 n s.
Proof.
  revert s; induction n as [|n IH]; intros s H.
  - rewrite !substring_0_0. reflexivity.
  - destruct s as [|a s]; simpl in *; [lia|]. rewrite IH by lia. reflexivity.
Qed.

Lemma slice_from_app n s t :
  n <= String.length s -> Py.slice_from n (s +:+ t) = Py.slice_from n s +:+ t.
Proof.
  revert s; induction n as [|n IH]; intros s H; [reflexivity|].
  destruct s as [|a s]; simpl in *; [lia|]. apply IH. lia.
Qed.

Lemma append_length s t :
  String.length (s +:+ t) = String.length s + String.length t.
Proof. induction s as [|a s IH]; simpl; [reflexivity | rewrite IH; reflexivity]. Qed.

(** The scan of a text followed by a character [c] that is neither a
    number character nor the second character of a predefined token: the
    scan of the text and, if that reaches its end, the scan of what
    follows. *)
Lemma scan_all_app s c rest :
  is_number_char c = false ->
  second_of_predefined c = false ->
  scan_all (s +:+ String c rest) =
  let '(ts, k) := scan_all s in
  if (k =? String.length s)%nat then
    let '(ts', k') := scan_all (String c rest) in (ts ++ ts', k + k')
  else (ts, k).
Proof.
  intros Hn Hp.
  remember (scan_all (String c rest)) as after eqn:Hafter.
  remember (String.length s) as n eqn:Hlen.
  revert s Hlen; induction n as [n IH] using lt_wf_ind; intros s Hlen.
  destruct s as [|a s'].
  { simpl in Hlen; subst n.
    change (EmptyString +:+ String c rest) with (String c rest).
    rewrite scan_all_empty, <- Hafter.
    simpl Nat.eqb. cbv iota. destruct after; reflexivity. }
  cbn [String.length] in Hlen. subst n.
  change (String a s' +:+ String c rest) with (String a (s' +:+ String c rest)).
  rewrite !scan_all_cons.
  destruct (is_whitespace a).
  { rewrite (IH (String.length s') ltac:(lia) s' eq_refl).
    destruct (scan_all s') as [ts k].
    change (1 + k =? S (String.length s'))%nat with (k =? String.length s')%nat.
    destruct (k =? String.length s')%nat; [|reflexivity].
    destruct after; reflexivity. }
  change (String a (s' +:+ String c rest)) with (String a s' +:+ String c rest).
  rewrite first_predefined_app by (auto; discriminate).
  destruct (first_predefined (String a s')) as [tok|] eqn:Ef.
  { pose proof (first_predefined_length _ _ Ef) as Hpos.
    apply first_predefined_starts in Ef as [_ Hs%starts_with_length].
    cbn [String.length] in Hs.
    rewrite slice_from_app by (cbn [String.length]; lia).
    set (r := Py.slice_from (String.length tok) (String a s')).
    assert (Hr : String.length r = S (String.length s') - String.length tok)
      by (unfold r; rewrite slice_from_length; reflexivity).
    rewrite (IH (String.length r) ltac:(lia) r eq_refl).
    destruct (scan_all r) as [ts k]. rewrite Hr.
    replace (String.length tok + k =? S (String.length s'))%nat
      with (k =? S (String.length s') - String.length tok)%nat
      by (destruct (Nat.eqb_spec k (S (String.length s') - String.length tok));
          destruct (Nat.eqb_spec (String.length tok + k) (S (String.length s')));
          reflexivity || lia).
    destruct (k =? _)%nat; [|reflexivity].
    destruct after. simpl. pair_eq. }
  rewrite number_run_app by assumption. cbv zeta.
  pose proof (number_run_le (String a s')) as Hle. cbn [String.length] in Hle.
  destruct (Nat.ltb_spec 0 (number_run (String a s'))) as [Hpos|Hz].
  2:{ destruct (Nat.eqb_spec 0 (S (String.length s'))); [lia | reflexivity]. }
  rewrite slice_from_app, substring_app by (cbn [String.length]; lia).
  set (m := number_run (String a s')) in *.
  set (r := Py.slice_from m (String a s')).
  assert (Hr : String.length r = S (String.length s') - m)
    by (unfold r; rewrite slice_from_length; reflexivity).
  rewrite (IH (String.length r) ltac:(lia) r eq_refl).
  destruct (scan_all r) as [ts k]. rewrite Hr.
  replace (m + k =? S (String.length s'))%nat
    with (k =? S (String.length s') - m)%nat
    by (destruct (Nat.eqb_spec k (S (String.length s') - m));
        destruct (Nat.eqb_spec (m + k) (S (String.length s')));
        reflexivity || lia).
  destruct (k =? _)%nat; [|reflexivity].
  destruct after. simpl. pair_eq.
Qed.

(** ** The operator table *)

Lemma Op_Table_lookup key : Op_Table !! key = op_info key.
Proof.
  unfold Op_Table, build_Op_Table, op_info.
  cbn [Op_Sets fold_left add_ops snd].
  repeat (rewrite lookup_insert;
          match goal with
          | |- context [decide (?k = key)] =>
              destruct (decide (k = key)) as [<-|?];
              [vm_compute; reflexivity
              | rewrite (proj2 (String.eqb_neq key k)) by congruence]
          end).
  rewrite lookup_empty. reflexivity.
Qed.

Lemma in_Op_Table_info key :
  in_Op_Table key = match op_info key with Some _ => true | None => false end.
Proof. unfold in_Op_Table. rewrite Op_Table_lookup. reflexivity. Qed.

Lemma Op_Table_item_info key : 
  Op_Table_item (Some key) =
  match op_info key with Some d => Ok d | None => Raise KeyError end.
Proof. unfold Op_Table_item. rewrite Op_Table_lookup. reflexivity. Qed.

(** The keys of the unary operators are no tokens of the scanner. *)
Lemma scanned_token_binary t d :
  scanned_token t -> op_info t = Some d -> exists a n, d = (BINARYOP, a, n).
Proof.
  intros Ht. unfold op_info.
  repeat match goal with
  | |- context [String.eqb t ?k] =>
      destruct (String.eqb_spec t k) as [->|?]
  end; intros [= <-]; eauto.
  all: exfalso; destruct Ht as [Hin|[_ Hn]];
    [ simpl in Hin; repeat (destruct Hin as [Hin|Hin]; [discriminate|]);
      destruct Hin
    | vm_compute in Hn; discriminate ].
Qed.

(** *** Tokens of the scanner *)

Lemma substring_number_run s :
  all_number_chars (substring 0 (number_run s) s) = true.
Proof.
  induction s as [|c s IH]; [reflexivity|]. cbn [number_run].
  destruct (is_number_char c) eqn:E; [|reflexivity].
  cbn [substring all_number_chars]. rewrite E, IH. reflexivity.
Qed.

Lemma scan_all_tokens s t :
  In t (fst (scan_all s)) -> scanned_token t.
Proof.
  remember (String.length s) as n eqn:Hn.
  revert s Hn t; induction n as [n IH] using lt_wf_ind; intros s Hn t.
  destruct s as [|c s']; [intros []|].
  rewrite scan_all_cons. cbn [String.length] in Hn.
  destruct (is_whitespace c).
  { specialize (IH (String.length s') ltac:(lia) s' eq_refl t).
    destruct (scan_all s'). exact IH. }
  destruct (first_predefined (String c s')) as [tok|] eqn:Ef.
  { pose proof (first_predefined_length _ _ Ef) as Hpos.
    apply first_predefined_starts in Ef as [Hin _].
    set (r := Py.slice_from (String.length tok) (String c s')).
    assert (Hr : String.length r = S (String.length s') - String.length tok)
      by (unfold r; rewrite slice_from_length; reflexivity).
    specialize (IH (String.length r) ltac:(lia) r eq_refl t).
    destruct (scan_all r). cbn [fst]. intros H.
    destruct (in_inv H) as [<-|H']; [left; exact Hin | auto]. }
  cbv zeta.
  destruct (Nat.ltb_spec 0 (number_run (String c s'))) as [Hp|Hp]; [|intros []].
  set (r := Py.slice_from (number_run (String c s')) (String c s')).
  assert (Hr : String.length r = S (String.length s') - number_run (String c s'))
    by (unfold r; rewrite slice_from_length; reflexivity).
  specialize (IH (String.length r) ltac:(lia) r eq_refl t).
  destruct (scan_all r). cbn [fst]. intros H.
  destruct (in_inv H) as [<-|H']; [|auto].
  right. split; [|apply substring_number_run].
  destruct (number_run (String c s')); [lia | discriminate].
Qed.

Lemma tokenise_tokens line t :
  In t (tokenise line) -> scanned_token t.
Proof.
  unfold tokenise. rewrite tokenise_state_scan. apply scan_all_tokens.
Qed.

(** ** The parser: what every run keeps *)

Section Keeps.

Variable ts : list string.

Lemma keeps_ret {A} (a : A) (Q : A -> Prop) : Q a -> keeps ts (pret a) Q.
Proof.
  intros HQ p s Hp [= <-]. simpl. split; [intros op []|].
  split; [discriminate|]. intros a' p' [= <- <-]. auto.
Qed.

Lemma keeps_out_of_fuel {A} (Q : A -> Prop) : keeps ts out_of_fuel Q.
Proof. intros p s _ [=]. Qed.

Lemma keeps_weaken {A} (m : parsing A) (Q Q' : A -> Prop) :
  keeps ts m Q -> (forall a, Q a -> Q' a) -> keeps ts m Q'.
Proof.
  intros Hm HQ p s Hp Hs. destruct (Hm p s Hp Hs) as (H1 & H2 & H3).
  split; [exact H1|]. split; [exact H2|].
  intros a p' H. apply H3 in H as (? & ? & ?). auto.
Qed.

Lemma keeps_bind {A B} (m : parsing A) (k : A -> parsing B)
    (Q : A -> Prop) (R : B -> Prop) :
  keeps ts m Q -> (forall a, Q a -> keeps ts (k a) R) ->
  keeps ts (pbind m k) R.
Proof.
  intros Hm Hk p s Hp Hs. unfold pbind in Hs.
  destruct (m p) as [[out ops r]|] eqn:Em; [|discriminate].
  destruct (Hm p _ Hp Em) as (H1 & H2 & H3). simpl in H1, H2, H3.
  destruct r as [[a p1]| e |].
  - destruct (H3 a p1 eq_refl) as (Ht & Hi & HQ).
    destruct (k a p1) as [[out' ops' r']|] eqn:Ek; [|discriminate].
    injection Hs as <-. simpl.
    destruct (Hk a HQ p1 _ Ht Ek) as (K1 & K2 & K3). simpl in K1, K2, K3.
    split; [|split].
    + intros op H. apply in_app_or in H as [H|H]; [apply H1 | apply K1]; exact H.
    + exact K2.
    + intros b p' H. apply K3 in H as (? & ? & ?). repeat split; auto; lia.
  - injection Hs as <-. simpl. split; [exact H1|].
    split; [intros [= ->]; apply H2; reflexivity | discriminate].
  - injection Hs as <-. simpl. split; [exact H1|]. split; discriminate.
Qed.

Lemma keeps_parse_error msg : keeps ts (parse_error msg) (fun _ => True).
Proof.
  intros p s Hp [= <-]. simpl. split; [intros op []|].
  split; [discriminate|]. intros a p' [= <- <-]. auto.
Qed.

Lemma keeps_get_curr_token :
  keeps ts get_curr_token (fun tok => forall t, tok = Some t -> In t ts).
Proof.
  intros p s Hp [= <-]. simpl. split; [intros op []|].
  split; [discriminate|]. intros a p' [= <- <-].
  split; [assumption|]. split; [lia|].
  intros t Ht. unfold curr_token in Ht.
  destruct (current_index p <? length (current_tokens p))%nat; [|discriminate].
  rewrite Hp in Ht. apply list_elem_of_lookup_2, list_elem_of_In in Ht.
  exact Ht.
Qed.

Lemma keeps_get_next_token : keeps ts get_next_token (fun _ => True).
Proof.
  intros p s Hp [= <-]. simpl. split; [intros op []|].
  split; [discriminate|]. intros a p' [= <- <-]. simpl.
  repeat split; auto; lia.
Qed.

Lemma keeps_note_lookup op :
  In op ts -> in_Op_Table op = true ->
  keeps ts (note_lookup op) (fun _ => True).
Proof.
  intros Hin Hop p s Hp [= <-]. simpl.
  split; [intros op' [<-|[]]; auto|].
  split; [discriminate|]. intros a p' [= <- <-]. auto.
Qed.

Lemma keeps_plift {A} (r : result A) :
  r <> Raise TypeError -> keeps ts (plift r) (fun a => r = Ok a).
Proof.
  intros Hr p s Hp [= <-]. simpl. split; [intros op []|].
  split; [destruct r; simpl; congruence|].
  intros a p' H. destruct r; simpl in H; try discriminate.
  injection H as <- <-. auto.
Qed.

Lemma Op_Table_item_not_TypeError key :
  Op_Table_item key <> Raise TypeError.
Proof.
  unfold Op_Table_item. destruct key as [k|]; [|discriminate].
  destruct (Op_Table !! k); discriminate.
Qed.

Lemma fold_not_TypeError op kind a n lhs rhs :
  fold op kind a n lhs rhs <> Raise TypeError.
Proof.
  unfold fold. destruct (decide (kind = UNARYOP)) as [->|Hk]; [discriminate|].
  destruct lhs as [l|]; [|discriminate].
  destruct (is_token l); [discriminate|].
  destruct (is_parenth_expr l); [discriminate|].
  pose proof (Op_Table_item_not_TypeError (Expr_op l)) as Hi.
  destruct (Op_Table_item (Expr_op l)) as [[[pk pa] pn]| e |]; simpl;
    [|congruence|discriminate].
  destruct (_ && _); [discriminate|].
  destruct (decide (kind = BINARYOP)); discriminate.
Qed.

Lemma token_text_None_no_leaf e :
  token_text e = None -> no_operator_leaf e.
Proof. intros H t Ht. congruence. Qed.

Lemma fold_no_operator_leaf op kind a n lhs rhs e :
  fold op kind a n lhs rhs = Ok e -> no_operator_leaf e.
Proof.
  unfold fold. destruct (decide (kind = UNARYOP)).
  { intros [= <-]. apply token_text_None_no_leaf. reflexivity. }
  destruct lhs as [l|]; [|discriminate].
  destruct (is_token l) eqn:Et.
  { intros [= <-]. apply token_text_None_no_leaf. reflexivity. }
  destruct (is_parenth_expr l).
  { intros [= <-]. apply token_text_None_no_leaf. reflexivity. }
  destruct (Op_Table_item (Expr_op l)) as [[[pk pa] pn]| |]; simpl;
    try discriminate.
  destruct (_ && _).
  { intros [= <-]. apply token_text_None_no_leaf. reflexivity. }
  destruct (decide (kind = BINARYOP)); intros [= <-];
    apply token_text_None_no_leaf; [reflexivity|].
  unfold token_text. rewrite Et. reflexivity.
Qed.

Lemma keeps_candidate lhs :
  no_operator_leaf lhs ->
  keeps ts (candidate lhs)
        (fun found => forall op l, found = Some (op, l) ->
           In op ts /\ in_Op_Table op = true /\ l = Some lhs).
Proof.
  intros Hl. unfold candidate.
  assert (H : keeps ts
      (do tok <- get_curr_token;
       match tok with
       | None => pret None
       | Some tok =>
           if negb (in_Op_Table tok) then pret None
           else pret (Some (tok, Some lhs))
       end)%parsing
      (fun found => forall op l, found = Some (op, l) ->
           In op ts /\ in_Op_Table op = true /\ l = Some lhs)).
  { eapply keeps_bind; [apply keeps_get_curr_token|].
    intros [tok|] Htok; [|apply keeps_ret; discriminate].
    destruct (in_Op_Table tok) eqn:E; simpl;
      apply keeps_ret; [|discriminate].
    intros op l [= <- <-]. auto. }
  destruct (token_text lhs) as [t|] eqn:Et; [|exact H].
  rewrite (Hl t Et). exact H.
Qed.

Theorem parser_keeps fuel :
  (forall min_prec, keeps ts (parse_atom fuel min_prec) no_operator_leaf) /\
  (forall min_prec, keeps ts (parse_expr fuel min_prec) is_Some) /\
  (forall min_prec lhs, no_operator_leaf lhs ->
     keeps ts (fold_loop fuel min_prec lhs) is_Some).
Proof.
  induction fuel as [|fuel (IHa & IHe & IHl)].
  { split; [|split]; intros; apply keeps_out_of_fuel. }
  split; [|split].
  - intros min_prec. cbn [parse_atom].
    eapply keeps_bind; [apply keeps_get_curr_token|].
    intros [tok|] Htok.
    2:{ eapply keeps_bind; [apply keeps_parse_error|]. intros _ _.
        apply keeps_ret, token_text_None_no_leaf. reflexivity. }
    destruct (String.eqb tok "(").
    { eapply keeps_bind; [apply keeps_get_next_token|]. intros _ _.
      eapply keeps_bind; [apply IHe|]. intros subexpr _.
      eapply keeps_bind; [apply keeps_get_curr_token|]. intros closing _.
      eapply keeps_bind with (Q := fun _ => True).
      { destruct (bool_decide _);
          [apply keeps_ret; exact I | apply keeps_parse_error]. }
      intros _ _.
      eapply keeps_bind; [apply keeps_get_next_token|]. intros _ _.
      apply keeps_ret, token_text_None_no_leaf. reflexivity. }
    destruct (Py.list_in tok _).
    { eapply keeps_bind;
        [apply keeps_plift, Op_Table_item_not_TypeError|].
      intros [[kind a] n] _. cbv zeta.
      eapply keeps_bind; [apply keeps_get_next_token|]. intros _ _.
      eapply keeps_bind; [apply IHe|]. intros subexpr _.
      apply keeps_ret, token_text_None_no_leaf. reflexivity. }
    destruct (in_Op_Table tok) eqn:Eop.
    { eapply keeps_bind; [apply keeps_parse_error|]. intros _ _.
      apply keeps_ret, token_text_None_no_leaf. reflexivity. }
    eapply keeps_bind; [apply keeps_get_next_token|]. intros _ _.
    apply keeps_ret. intros t. unfold token_text, is_token. simpl.
    destruct (Py.str_truthy tok); [|discriminate]. intros [= <-]. exact Eop.
  - intros min_prec. cbn [parse_expr].
    eapply keeps_bind; [apply IHa|]. intros lhs Hlhs. apply IHl, Hlhs.
  - intros min_prec lhs Hlhs. cbn [fold_loop].
    eapply keeps_bind; [apply keeps_candidate, Hlhs|].
    intros [[op l]|] Hfound; [|apply keeps_ret; eauto].
    destruct (Hfound op l eq_refl) as (Hin & Hop & ->).
    eapply keeps_bind;
      [apply keeps_plift, Op_Table_item_not_TypeError|].
    intros [[kind a] n] _. cbv zeta.
    eapply keeps_bind; [apply keeps_note_lookup; assumption|]. intros _ _.
    destruct (n <? min_prec)%nat; [apply keeps_ret; eauto|].
    eapply keeps_bind; [apply keeps_get_next_token|]. intros _ _.
    eapply keeps_bind; [apply IHe|]. intros rhs _.
    eapply keeps_bind; [apply keeps_plift, fold_not_TypeError|].
    intros lhs' Hfold. apply IHl. eapply fold_no_operator_leaf, Hfold.
Qed.

End Keeps.

(** ** The parser: fuel *)

Lemma defined_ret {A} (a : A) p : defined (pret a) p.
Proof. eexists. reflexivity. Qed.

Lemma defined_bind {A B} (m : parsing A) (k : A -> parsing B) p :
  defined m p ->
  (forall s a p1, m p = Some s -> ended s = Ok (a, p1) -> defined (k a) p1) ->
  defined (pbind m k) p.
Proof.
  intros [[out ops r] Hm] Hk. unfold defined, pbind. rewrite Hm.
  destruct r as [[a p1]| e |]; eauto.
  destruct (Hk _ a p1 Hm eq_refl) as [[out' ops' r'] Hs]. rewrite Hs. eauto.
Qed.

Lemma defined_bind_step {A B} (m : parsing A) (k : A -> parsing B) p
    out ops a p1 :
  m p = Some (Steps out ops (Ok (a, p1))) -> defined (k a) p1 ->
  defined (pbind m k) p.
Proof.
  intros Hm Hk. apply defined_bind; [eexists; exact Hm|].
  intros s a' p1' Hs He. rewrite Hm in Hs. injection Hs as <-.
  injection He as <- <-. exact Hk.
Qed.

Lemma defined_plift {A B} (r : result A) (k : A -> parsing B) p :
  (forall a, r = Ok a -> defined (k a) p) -> defined (pbind (plift r) k) p.
Proof.
  intros Hk. apply defined_bind; [eexists; reflexivity|].
  intros s a p1 [= <-] He. destruct r; simpl in He; try discriminate.
  injection He as <- <-. apply Hk. reflexivity.
Qed.

Lemma remaining_advance p t :
  curr_token p = Some t ->
  remaining (advance p) = remaining p - 1 /\ 1 <= remaining p.
Proof.
  unfold curr_token, remaining. simpl.
  destruct (Nat.ltb_spec (current_index p) (length (current_tokens p)));
    [|discriminate].
  intros _. lia.
Qed.

Lemma keeps_state {A} (m : parsing A) Q p s a p1 :
  keeps (current_tokens p) m Q -> m p = Some s -> ended s = Ok (a, p1) ->
  current_tokens p1 = current_tokens p /\ remaining p1 <= remaining p /\ Q a.
Proof.
  intros Hk Hm He. destruct (Hk p s eq_refl Hm) as (_ & _ & H).
  destruct (H a p1 He) as (Ht & Hi & HQ). unfold remaining. rewrite Ht.
  repeat split; auto; lia.
Qed.

Ltac step_pure :=
  match goal with
  | |- defined (pbind (plift _) _) _ => apply defined_plift; intros ? ?
  | |- defined (pbind _ _) _ =>
      eapply defined_bind_step; [reflexivity|]
  | |- defined (pret _) _ => apply defined_ret
  end.

Theorem parser_defined fuel :
  (forall min_prec p,
     2 * remaining p + 1 <= fuel -> defined (parse_atom fuel min_prec) p) /\
  (forall min_prec p,
     2 * remaining p + 2 <= fuel -> defined (parse_expr fuel min_prec) p) /\
  (forall min_prec lhs p, no_operator_leaf lhs ->
     2 * remaining p + 1 <= fuel -> defined (fold_loop fuel min_prec lhs) p).
Proof.
  induction fuel as [|fuel (IHa & IHe & IHl)].
  { split; [|split]; intros; lia. }
  split; [|split].
  - intros min_prec p Hf. cbn [parse_atom]. step_pure.
    destruct (curr_token p) as [tok|] eqn:Etok; [|repeat step_pure].
    destruct (remaining_advance _ _ Etok) as [Hadv Hpos].
    destruct (String.eqb tok "(").
    { step_pure. apply defined_bind; [apply IHe; lia|].
      intros s subexpr p1 Hs He. step_pure.
      destruct (bool_decide _); repeat step_pure. }
    destruct (Py.list_in tok _).
    { step_pure. destruct a as [[kind a] n]. cbv zeta. step_pure.
      apply defined_bind; [apply IHe; lia|].
      intros s subexpr p1 Hs He. step_pure. }
    destruct (in_Op_Table tok); repeat step_pure.
  - intros min_prec p Hf. cbn [parse_expr].
    apply defined_bind; [apply IHa; lia|].
    intros s lhs p1 Hs He.
    destruct (parser_keeps (current_tokens p) fuel) as (Ka & _ & _).
    destruct (keeps_state _ _ _ _ _ _ (Ka min_prec) Hs He) as (_ & Hr & Hl).
    apply IHl; [exact Hl | lia].
  - intros min_prec lhs p Hl Hf. cbn [fold_loop].
    apply defined_bind.
    { unfold candidate. destruct (token_text lhs) as [t|] eqn:Et.
      - rewrite (Hl t Et). step_pure.
        destruct (curr_token p) as [tok|]; [|step_pure].
        destruct (negb _); step_pure.
      - step_pure. destruct (curr_token p) as [tok|]; [|step_pure].
        destruct (negb _); step_pure. }
    intros s found p1 Hs He.
    assert (Hc : p1 = p /\
              (found = None \/
               exists tok, curr_token p = Some tok /\
                           found = Some (tok, Some lhs))).
    { unfold candidate in Hs.
      assert (Hs' : (do tok <- get_curr_token;
                     match tok with
                     | None => pret None
                     | Some tok =>
                         if negb (in_Op_Table tok) then pret None
                         else pret (Some (tok, Some lhs))
                     end)%parsing p = Some s).
      { destruct (token_text lhs) as [t|] eqn:Et; [|exact Hs].
        rewrite (Hl t Et) in Hs. exact Hs. }
      clear Hs. unfold pbind, get_curr_token in Hs'.
      destruct (curr_token p) as [tok|] eqn:Etok.
      - destruct (negb (in_Op_Table tok)); injection Hs' as <-;
          injection He as <- <-; eauto.
      - injection Hs' as <-. injection He as <- <-. eauto. }
    destruct Hc as [-> [->|(tok & Etok & ->)]]; [step_pure|].
    destruct (remaining_advance _ _ Etok) as [Hadv Hpos].
    step_pure. destruct a as [[kind a] n]. cbv zeta. step_pure.
    destruct (n <? min_prec)%nat; [step_pure|]. step_pure.
    apply defined_bind; [apply IHe; lia|].
    intros s1 rhs p2 Hs1 He1.
    destruct (parser_keeps (current_tokens (advance p)) fuel) as (_ & Ke & _).
    destruct (keeps_state _ _ _ _ _ _ (Ke _) Hs1 He1) as (_ & Hr & _).
    step_pure. apply IHl; [eapply fold_no_operator_leaf; eassumption | lia].
Qed.

(** More fuel does not change a run that ended. *)
Theorem parser_fuel_mono fuel :
  (forall fuel' min_prec p s, fuel <= fuel' ->
     parse_atom fuel min_prec p = Some s ->
     parse_atom fuel' min_prec p = Some s) /\
  (forall fuel' min_prec p s, fuel <= fuel' ->
     parse_expr fuel min_prec p = Some s ->
     parse_expr fuel' min_prec p = Some s) /\
  (forall fuel' min_prec lhs p s, fuel <= fuel' ->
     fold_loop fuel min_prec lhs p = Some s ->
     fold_loop fuel' min_prec lhs p = Some s).
Proof.
  assert (Hbind : forall A B (m m' : parsing A) (k k' : A -> parsing B) p s,
            (forall s, m p = Some s -> m' p = Some s) ->
            (forall a p1 s, k a p1 = Some s -> k' a p1 = Some s) ->
            pbind m k p = Some s -> pbind m' k' p = Some s).
  { intros A B m m' k k' p s Hm Hk. unfold pbind.
    destruct (m p) as [[out ops r]|] eqn:Em; [|discriminate].
    rewrite (Hm _ eq_refl). destruct r as [[a p1]| |]; auto.
    destruct (k a p1) as [[out' ops' r']|] eqn:Ek; [|discriminate].
    rewrite (Hk _ _ _ Ek). auto. }
  induction fuel as [|fuel (IHa & IHe & IHl)].
  { split; [|split]; intros; discriminate. }
  split; [|split].
  - intros [|fuel'] min_prec p s Hle; [lia|]. cbn [parse_atom].
    apply Hbind; [auto|]. intros [tok|] p1 s1; [|auto].
    destruct (String.eqb tok "(").
    { apply Hbind; [auto|]. intros _ p2 s2.
      apply Hbind; [intros; apply IHe; [lia|assumption]|]. auto. }
    destruct (Py.list_in tok _); [|auto].
    apply Hbind; [auto|]. intros [[kind a] n] p2 s2. cbv zeta.
    apply Hbind; [auto|]. intros _ p3 s3.
    apply Hbind; [intros; apply IHe; [lia|assumption]|]. auto.
  - intros [|fuel'] min_prec p s Hle; [lia|]. cbn [parse_expr].
    apply Hbind; [intros; apply IHa; [lia|assumption]|].
    intros lhs p1 s1. apply IHl. lia.
  - intros [|fuel'] min_prec lhs p s Hle; [lia|]. cbn [fold_loop].
    apply Hbind; [auto|]. intros [[op l]|] p1 s1; [|auto].
    apply Hbind; [auto|]. intros [[kind a] n] p2 s2. cbv zeta.
    apply Hbind; [auto|]. intros _ p3 s3.
    destruct (n <? min_prec)%nat; [auto|].
    apply Hbind; [auto|]. intros _ p4 s4.
    apply Hbind; [intros; apply IHe; [lia|assumption]|].
    intros rhs p5 s5.
    apply Hbind; [auto|]. intros lhs' p6 s6. apply IHl. lia.
Qed.

(** [parse_expr] ends on every list of tokens with the fuel [parse] gives
    it. *)
Corollary parse_expr_fuel tokens :
  defined (parse_expr (parse_fuel tokens) 0) (Parser_init tokens).
Proof.
  apply parser_defined. unfold parse_fuel, remaining. simpl. lia.
Qed.

(** ** The parser inside a pair of parentheses *)

Section Embedding.

(** The tokens before the opening parenthesis and up to it. *)
Variable pre : list string.

Abbreviation sim m := (sim2 pre m m).

Lemma curr_token_embeds p q :
  embeds pre p q ->
  curr_token q = curr_token p \/
  (curr_token p = None /\ curr_token q = Some ")").
Proof.
  intros [Ht Hi]. unfold curr_token. rewrite Ht, Hi, !length_app. simpl.
  destruct (Nat.ltb_spec (current_index p) (length (current_tokens p)))
    as [Hlt|Hge].
  - left.
    destruct (Nat.ltb_spec (length pre + current_index p)
                (length pre + (length (current_tokens p) + 1))); [|lia].
    rewrite lookup_app_r by lia.
    replace (length pre + current_index p - length pre)
      with (current_index p) by lia.
    rewrite lookup_app_l by lia. reflexivity.
  - destruct (Nat.ltb_spec (length pre + current_index p)
                (length pre + (length (current_tokens p) + 1))); [|auto].
    right. split; [reflexivity|].
    rewrite lookup_app_r by lia. rewrite lookup_app_r by lia.
    replace (length pre + current_index p - length pre
             - length (current_tokens p)) with 0 by lia.
    reflexivity.
Qed.

Lemma embeds_advance p q : embeds pre p q -> embeds pre (advance p) (advance q).
Proof. intros [Ht Hi]. split; simpl; [exact Ht | lia]. Qed.

Lemma sim_ret {A} (a : A) : sim (pret a).
Proof.
  intros p q s a' p1 He [= <-] _ [= <- <-]. eexists. split; [reflexivity|].
  exact He.
Qed.

Lemma sim_out_of_fuel {A} : sim (@out_of_fuel A).
Proof. intros p q s a p1 _ [=]. Qed.

Lemma sim2_bind {A B} (m m' : parsing A) (k k' : A -> parsing B) :
  sim2 pre m m' -> (forall a, sim2 pre (k a) (k' a)) ->
  sim2 pre (pbind m k) (pbind m' k').
Proof.
  intros Hm Hk p q s b p2 He Hs Hout Hend. unfold pbind in Hs.
  destruct (m p) as [[out ops r]|] eqn:Em; [|discriminate].
  destruct r as [[a p1]| |]; try (injection Hs as <-; discriminate).
  destruct (k a p1) as [[out' ops' r']|] eqn:Ek; [|discriminate].
  injection Hs as <-. simpl in Hout, Hend.
  apply app_eq_nil in Hout as [-> ->]. subst r'.
  destruct (Hm p q _ a p1 He Em eq_refl eq_refl) as (q1 & Hq & He1).
  destruct (Hk a p1 q1 _ b p2 He1 Ek eq_refl eq_refl) as (q2 & Hq2 & He2).
  exists q2. split; [|exact He2]. unfold pbind. rewrite Hq, Hq2. reflexivity.
Qed.

Lemma sim2_printed {A} (m m' : parsing A) :
  (forall p s, m p = Some s -> printed s <> []) -> sim2 pre m m'.
Proof. intros H p q s a p1 _ Hs Hout. apply H in Hs. contradiction. Qed.

Lemma sim2_parse_error {B} msg (k : unit -> parsing B) (m' : parsing B) :
  sim2 pre (pbind (parse_error msg) k) m'.
Proof.
  apply sim2_printed. intros p s. unfold pbind, parse_error.
  destruct (k tt p) as [[out ops r]|]; [|discriminate].
  intros [= <-]. discriminate.
Qed.

Lemma sim_skip_token {B} (k : parsing B) :
  sim k -> sim (pbind get_next_token (fun _ => k)).
Proof.
  intros Hk p q s b p2 He Hs Hout Hend.
  unfold pbind, get_next_token in Hs |- *.
  destruct (k (advance p)) as [[out ops r]|] eqn:Ek; [|discriminate].
  injection Hs as <-. simpl in Hout, Hend. subst.
  destruct (Hk _ _ _ b p2 (embeds_advance _ _ He) Ek eq_refl eq_refl)
    as (q2 & Hq2 & He2).
  exists q2. rewrite Hq2. auto.
Qed.

Lemma sim_plift {A} (r : result A) : sim (plift r).
Proof.
  intros p q s a p1 He [= <-] _ Hend. simpl in Hend.
  destruct r; simpl in Hend; try discriminate. injection Hend as <- <-.
  eexists. split; [reflexivity | exact He].
Qed.

Lemma sim_note_lookup op : sim (note_lookup op).
Proof.
  intros p q s a p1 He [= <-] _ [= <- <-].
  eexists. split; [reflexivity | exact He].
Qed.

(** Reading the current token: the embedding state reads the same token,
    or the closing parenthesis where the embedded state is at its end. *)
Lemma sim_get_curr_token {B} (k : option string -> parsing B) :
  (forall tok, sim (k tok)) -> sim2 pre (k None) (k (Some ")")) ->
  sim (pbind get_curr_token k).
Proof.
  intros Hk Hend p q s b p2 He Hs Hout Hok.
  unfold pbind, get_curr_token in Hs |- *.
  destruct (k (curr_token p) p) as [[out ops r]|] eqn:Ek; [|discriminate].
  injection Hs as <-. simpl in Hout, Hok. subst.
  destruct (curr_token_embeds _ _ He) as [Hc|[Hn Hc]].
  - rewrite Hc.
    destruct (Hk _ _ _ _ b p2 He Ek eq_refl eq_refl) as (q2 & Hq2 & He2).
    exists q2. rewrite Hq2. auto.
  - rewrite Hc. rewrite Hn in Ek.
    destruct (Hend _ _ _ b p2 He Ek eq_refl eq_refl) as (q2 & Hq2 & He2).
    exists q2. rewrite Hq2. auto.
Qed.

Lemma sim_candidate lhs : sim (candidate lhs).
Proof.
  assert (H : sim (do tok <- get_curr_token;
                   match tok with
                   | None => pret None
                   | Some tok =>
                       if negb (in_Op_Table tok) then pret None
                       else pret (Some (tok, Some lhs))
                   end)%parsing).
  { apply sim_get_curr_token.
    - intros [tok|]; [|apply sim_ret].
      destruct (negb _); apply sim_ret.
    - replace (in_Op_Table ")") with false
        by (rewrite in_Op_Table_info; reflexivity).
      apply sim_ret. }
  unfold candidate. destruct (token_text lhs) as [t|]; [|exact H].
  destruct (in_Op_Table t); [apply sim_ret | exact H].
Qed.

Theorem parser_embeds fuel :
  (forall min_prec, sim (parse_atom fuel min_prec)) /\
  (forall min_prec, sim (parse_expr fuel min_prec)) /\
  (forall min_prec lhs, sim (fold_loop fuel min_prec lhs)).
Proof.
  induction fuel as [|fuel (IHa & IHe & IHl)].
  { split; [|split]; intros; apply sim_out_of_fuel. }
  split; [|split].
  - intros min_prec. cbn [parse_atom].
    assert (Hsome : forall tok, sim
      (if String.eqb tok "(" then
         run get_next_token;
         do subexpr <- parse_expr fuel 0;
         do closing <- get_curr_token;
         run (if bool_decide (closing = Some ")") then pret tt
              else parse_error ("unmatched " +:+ Py.dquote +:+ "("
                                +:+ Py.dquote));
         run get_next_token;
         pret (MkExpr None None None subexpr)
       else if Py.list_in tok ["-"; "+"; "~"; "not"] then
         let op := tok +:+ " x" in
         do '(kind, associativity, precedence)
            <- plift (Op_Table_item (Some op));
         run get_next_token;
         do subexpr <- parse_expr fuel precedence;
         pret (MkExpr None (Some op) None subexpr)
       else if in_Op_Table tok then
         run parse_error ("expected an atom, not an operator "
                          +:+ Py.dquote +:+ tok +:+ Py.dquote);
         pret (MkExpr None None None None)
       else
         run get_next_token;
         pret (MkExpr (Some tok) None None None))%parsing).
    { intros tok. destruct (String.eqb tok "(").
      { apply sim_skip_token. apply sim2_bind; [apply IHe|]. intros subexpr.
        apply sim_get_curr_token.
        - intros closing. destruct (bool_decide _).
          + apply sim2_bind; [apply sim_ret|]. intros _.
            apply sim_skip_token, sim_ret.
          + apply sim2_parse_error.
        - apply sim2_parse_error. }
      destruct (Py.list_in tok _).
      { apply sim2_bind; [apply sim_plift|]. intros [[kind a] n]. cbv zeta.
        apply sim_skip_token. apply sim2_bind; [apply IHe|]. intros subexpr.
        apply sim_ret. }
      destruct (in_Op_Table tok); [apply sim2_parse_error|].
      apply sim_skip_token, sim_ret. }
    apply sim_get_curr_token.
    + intros [tok|]; [apply Hsome | apply sim2_parse_error].
    + apply sim2_parse_error.
  - intros min_prec. cbn [parse_expr].
    apply sim2_bind; [apply IHa|]. intros lhs. apply IHl.
  - intros min_prec lhs. cbn [fold_loop].
    apply sim2_bind; [apply sim_candidate|].
    intros [[op l]|]; [|apply sim_ret].
    apply sim2_bind; [apply sim_plift|]. intros [[kind a] n]. cbv zeta.
    apply sim2_bind; [apply sim_note_lookup|]. intros _.
    destruct (n <? min_prec)%nat; [apply sim_ret|].
    apply sim_skip_token. apply sim2_bind; [apply IHe|]. intros rhs.
    apply sim2_bind; [apply sim_plift|]. intros lhs'. apply IHl.
Qed.

End Embedding.

(** ** Parentheses around a whole expression *)

Lemma evaluate_paren tree :
  evaluate (MkExpr None None None (Some tree)) = evaluate tree.
Proof. reflexivity. Qed.

Lemma tokenise_parens text :
  snd (tokenise_state text) = String.length text ->
  tokenise ("(" +:+ text +:+ ")") = "(" :: tokenise text ++ [")"].
Proof.
  intros Hend. unfold tokenise in *. rewrite !tokenise_state_scan in *.
  change ("(" +:+ text +:+ ")") with (String "(" (text +:+ String ")" "")).
  rewrite scan_all_cons.
  change (is_whitespace "(") with false. cbv iota.
  replace (first_predefined (String "(" (text +:+ String ")" "")))
    with (Some "(") by reflexivity.
  change (Py.slice_from (String.length "(") (String "(" (text +:+ String ")" "")))
    with (text +:+ String ")" "").
  rewrite scan_all_app by reflexivity.
  destruct (scan_all text) as [ts k]. simpl in Hend. subst k.
  rewrite Nat.eqb_refl. reflexivity.
Qed.

Lemma parse_expr_parens ts ops tree p :
  parse_expr (parse_fuel ts) 0 (Parser_init ts)
    = Some (Steps [] ops (Ok (Some tree, p))) ->
  current_index p = length ts ->
  let ts' := "(" :: ts ++ [")"] in
  parse_expr (parse_fuel ts') 0 (Parser_init ts')
    = Some (Steps [] ops
              (Ok (Some (MkExpr None None None (Some tree)),
                   {| current_tokens := ts';
                      current_index := length ts' |}))).
Proof.
  intros Hrun Hidx ts'.
  assert (Hts : current_tokens p = ts).
  { destruct (parser_keeps ts (parse_fuel ts)) as (_ & Ke & _).
    destruct (Ke 0 (Parser_init ts) _ eq_refl Hrun) as (_ & _ & H).
    destruct (H _ _ eq_refl) as (Ht & _). exact Ht. }
  set (q0 := advance (Parser_init ts')).
  assert (He : embeds ["("] (Parser_init ts) q0) by (split; reflexivity).
  assert (Hfuel : parse_fuel ts' = S (S (parse_fuel ts + 2))).
  { unfold parse_fuel, ts'. simpl. rewrite length_app. simpl. lia. }
  destruct (parser_fuel_mono (parse_fuel ts)) as (_ & Hmono & _).
  apply (Hmono (parse_fuel ts + 2)) in Hrun; [|lia].
  destruct (parser_embeds ["("] (parse_fuel ts + 2)) as (_ & Hsim & _).
  destruct (Hsim 0 _ _ _ _ _ He Hrun eq_refl eq_refl) as (q1 & Hq1 & [Ht Hi]).
  simpl in Hq1, Ht, Hi. rewrite Hts in Ht.
  assert (Hcur : curr_token q1 = Some ")").
  { unfold curr_token. rewrite Ht, Hi, Hidx. simpl. rewrite length_app. simpl.
    destruct (Nat.ltb_spec (S (length ts)) (S (length ts + 1))); [|lia].
    rewrite lookup_app_r by lia. rewrite Nat.sub_diag. reflexivity. }
  assert (Hend : curr_token (advance q1) = None).
  { unfold curr_token. simpl. rewrite Ht, Hi, Hidx. simpl.
    rewrite length_app. simpl.
    destruct (Nat.ltb_spec (S (length ts + 1)) (S (length ts + 1))); [lia|].
    reflexivity. }
  assert (Hq : advance q1 = {| current_tokens := ts';
                               current_index := length ts' |}).
  { unfold advance. rewrite Ht, Hi, Hidx. unfold ts'.
    f_equal. simpl. rewrite length_app. simpl. lia. }
  rewrite Hfuel. cbn [parse_expr parse_atom].
  unfold pbind at 1. unfold pbind at 1. unfold get_curr_token at 1.
  change (curr_token (Parser_init ts')) with (Some "(").
  cbv iota beta. change (String.eqb "(" "(") with true. cbv iota.
  unfold pbind at 1. unfold get_next_token at 1. cbv iota beta.
  unfold pbind at 1. fold q0. rewrite Hq1. cbv iota beta.
  unfold pbind at 1. unfold get_curr_token at 1. cbv iota beta.
  rewrite Hcur. rewrite bool_decide_eq_true_2 by reflexivity.
  unfold pbind at 1. unfold pret at 1. cbv iota beta.
  unfold pbind at 1. unfold get_next_token at 1. cbv iota beta.
  unfold pret at 1. cbv iota beta.
  cbn [fold_loop]. unfold candidate.
  change (token_text (MkExpr None None None (Some tree))) with (@None string).
  cbv iota. unfold pbind at 1. unfold pbind at 1.
  unfold get_curr_token at 1. rewrite Hend. cbv iota beta.
  unfold pret. rewrite Hq. rewrite !app_nil_r. reflexivity.
Qed.

(** ** Well-formed token lists are parsed without an error *)

Section Quiet.

Lemma quiet_ret {A} (P : Parser -> Prop) (a : A) (Q : A -> Parser -> Prop) :
  (forall p, P p -> Q a p) -> quiet P (pret a) Q.
Proof. intros H p s Hp [= <-]. eauto 6. Qed.

Lemma quiet_out_of_fuel {A} P (Q : A -> Parser -> Prop) :
  quiet P out_of_fuel Q.
Proof. intros p s _ [=]. Qed.

Lemma quiet_bind {A B} P (m : parsing A) (k : A -> parsing B) Q R :
  quiet P m Q -> (forall a, quiet (Q a) (k a) R) -> quiet P (pbind m k) R.
Proof.
  intros Hm Hk p s Hp Hs. unfold pbind in Hs.
  destruct (m p) as [s1|] eqn:Em; [|discriminate].
  destruct (Hm p s1 Hp Em) as (ops & a & p1 & -> & HQ).
  destruct (k a p1) as [s2|] eqn:Ek; [|discriminate].
  destruct (Hk a p1 s2 HQ Ek) as (ops' & b & p2 & -> & HR).
  injection Hs as <-. simpl. eauto 6.
Qed.

Lemma quiet_assume {A} (P : Parser -> Prop) (fact : Prop) (m : parsing A) Q :
  (forall p, P p -> fact) -> (fact -> quiet P m Q) -> quiet P m Q.
Proof. intros Hf Hm p s Hp. apply Hm; eauto. Qed.

Lemma quiet_pre {A} (P P' : Parser -> Prop) (m : parsing A) Q :
  (forall p, P p -> P' p) -> quiet P' m Q -> quiet P m Q.
Proof. intros HP Hm p s Hp. apply Hm, HP, Hp. Qed.

Lemma quiet_post {A} P (m : parsing A) (Q Q' : A -> Parser -> Prop) :
  quiet P m Q -> (forall a p, Q a p -> Q' a p) -> quiet P m Q'.
Proof.
  intros Hm HQ p s Hp Hs. destruct (Hm p s Hp Hs) as (ops & a & p' & -> & H).
  eauto 6.
Qed.

Lemma quiet_get_curr_token P :
  quiet P get_curr_token (fun tok p => P p /\ tok = curr_token p).
Proof. intros p s Hp [= <-]. eauto 6. Qed.

Lemma quiet_get_next_token (Q : Parser -> Prop) :
  quiet (fun p => Q (advance p)) get_next_token (fun _ p => Q p).
Proof. intros p s Hp [= <-]. eauto 6. Qed.

Lemma quiet_note_lookup P op :
  quiet P (note_lookup op) (fun _ p => P p).
Proof. intros p s Hp [= <-]. eauto 6. Qed.

Lemma quiet_plift {A} P (a : A) :
  quiet P (plift (Ok a)) (fun a' p => a' = a /\ P p).
Proof. intros p s Hp [= <-]. simpl. eauto 6. Qed.

End Quiet.

Lemma curr_token_drop p :
  curr_token p = head (drop (current_index p) (current_tokens p)).
Proof.
  unfold curr_token.
  destruct (Nat.ltb_spec (current_index p) (length (current_tokens p))).
  - rewrite head_lookup, lookup_drop. f_equal. lia.
  - rewrite drop_ge by lia. reflexivity.
Qed.

Lemma reading_cons ts b d p :
  reading ts b d p ->
  match curr_token p with
  | None => well_formed_from b d [] = true
  | Some t =>
      exists rest, drop (current_index p) ts = t :: rest /\
                   drop (current_index (advance p)) ts = rest /\
                   current_index (advance p) <= length ts
  end.
Proof.
  intros (Ht & Hi & Hw). rewrite curr_token_drop, Ht.
  destruct (drop (current_index p) ts) as [|t rest] eqn:E; simpl; [exact Hw|].
  exists rest. split; [reflexivity|]. simpl.
  assert (Hlt : current_index p < length ts).
  { destruct (Nat.lt_ge_cases (current_index p) (length ts)); [assumption|].
    rewrite drop_ge in E by lia. discriminate. }
  split; [|lia].
  replace (current_index p + 1) with (S (current_index p)) by lia.
  assert (Hl : ts !! current_index p = Some t).
  { pose proof (lookup_drop ts (current_index p) 0) as H0.
    rewrite E, Nat.add_0_r in H0. symmetry. exact H0. }
  rewrite (drop_S _ _ _ Hl) in E. injection E as <-. reflexivity.
Qed.

Lemma prefix_operator_key t :
  prefix_operator t = true ->
  Py.list_in t ["-"; "+"; "~"; "not"] = true /\
  Op_Table_item (Some (t +:+ " x")) = Ok (UNARYOP, RIGHT, 7).
Proof.
  unfold prefix_operator, Py.list_in. cbn [existsb].
  rewrite !orb_false_r, !orb_true_iff, !String.eqb_eq.
  intros [ -> | [ -> | -> ] ]; (split; [auto | vm_compute; reflexivity]).
Qed.

Lemma binary_operator_info t :
  binary_operator t = true ->
  in_Op_Table t = true /\
  exists a n, Op_Table_item (Some t) = Ok (BINARYOP, a, n) /\
              op_info t = Some (BINARYOP, a, n).
Proof.
  unfold binary_operator, in_Op_Table, Op_Table_item.
  rewrite <- Op_Table_lookup.
  destruct (Op_Table !! t) as [[[[| |] a] n]|]; try discriminate.
  intros _. eauto.
Qed.

Lemma fold_foldable op a n lhs rhs :
  in_Op_Table op = true -> foldable lhs ->
  exists e, fold op BINARYOP a n (Some lhs) rhs = Ok e /\ foldable e.
Proof.
  intros Hop (Hl & Hshape).
  assert (Hnew : forall l, foldable (MkExpr None (Some op) l rhs)).
  { intros l. split; [apply token_text_None_no_leaf; reflexivity|].
    right. right. unfold Op_Table_item, in_Op_Table in *. simpl.
    destruct (Op_Table !! op); [eauto | discriminate]. }
  unfold fold. cbn [decide]. destruct (decide (BINARYOP = UNARYOP)) as [?|_];
    [discriminate|].
  destruct (is_token lhs) eqn:Et; [eauto|].
  destruct (is_parenth_expr lhs) eqn:Ep; [eauto|].
  destruct Hshape as [?|[?|[[[pk pa] pn] ->]]]; try discriminate.
  cbn [rbind]. destruct (_ && _); [eauto|].
  destruct (decide (BINARYOP = UNARYOP)) as [?|_]; [discriminate|].
  destruct (decide (BINARYOP = BINARYOP)) as [_|?]; [eauto | contradiction].
Qed.

Theorem parser_quiet ts fuel :
  (forall min_prec d,
     quiet (reading ts true d) (parse_atom fuel min_prec)
           (fun e p => reading ts false d p /\ foldable e)) /\
  (forall min_prec d,
     quiet (reading ts true d) (parse_expr fuel min_prec)
           (fun r p => reading ts false d p /\ stops_at min_prec p /\
                       is_Some r)) /\
  (forall min_prec d lhs, foldable lhs ->
     quiet (reading ts false d) (fold_loop fuel min_prec lhs)
           (fun r p => reading ts false d p /\ stops_at min_prec p /\
                       is_Some r)).
Proof.
  induction fuel as [|fuel (IHa & IHe & IHl)].
  { split; [|split]; intros; apply quiet_out_of_fuel. }
  split; [|split].
  - (* parse_atom *)
    intros min_prec d. cbn [parse_atom].
    eapply quiet_bind; [apply quiet_get_curr_token|].
    intros tok. cbv beta.
    apply quiet_assume with
      (fact := exists t, tok = Some t /\
         (String.eqb t "(" = true \/
          String.eqb t "(" = false /\ prefix_operator t = true \/
          String.eqb t "(" = false /\ prefix_operator t = false /\
          literal_token t = true)).
    { intros p [Hr ->]. pose proof (reading_cons _ _ _ _ Hr) as Hc.
      destruct Hr as (_ & _ & Hw).
      destruct (curr_token p) as [t|]; [|discriminate].
      destruct Hc as (rest & E & _). rewrite E in Hw. cbn [well_formed_from] in Hw.
      exists t. split; [reflexivity|].
      destruct (String.eqb t "("); [auto|].
      destruct (prefix_operator t); [auto|].
      destruct (literal_token t); [auto | discriminate]. }
    intros (t & -> & Hcase).
    destruct Hcase as [Hopen|[(Hopen & Hpre)|(Hopen & Hpre & Hlit)]];
      rewrite Hopen.
    + (* an expression in parentheses *)
      eapply quiet_bind with (Q := fun _ p => reading ts true (S d) p).
      { eapply quiet_pre; [|apply quiet_get_next_token].
        intros p [Hr Ht]. pose proof (reading_cons _ _ _ _ Hr) as Hc.
        rewrite <- Ht in Hc. destruct Hc as (rest & E & E' & Hi).
        destruct Hr as (Htok & _ & Hw). rewrite E in Hw. cbn [well_formed_from] in Hw.
        rewrite Hopen in Hw.
        split; [exact Htok|]. split; [exact Hi|]. rewrite E'. exact Hw. }
      intros _. eapply quiet_bind; [apply IHe|]. intros subexpr. cbv beta.
      eapply quiet_bind; [apply quiet_get_curr_token|]. intros closing.
      cbv beta.
      apply quiet_assume with (fact := closing = Some ")" /\ is_Some subexpr).
      { intros p [(Hr & Hstop & Hsome) ->]. split; [|exact Hsome].
        pose proof (reading_cons _ _ _ _ Hr) as Hc. unfold stops_at in Hstop.
        destruct (curr_token p) as [c|]; [|discriminate].
        destruct Hstop as [->|(k & a & n & _ & Hn)]; [reflexivity | lia]. }
      intros [-> [inner ->]]. rewrite bool_decide_eq_true_2 by reflexivity.
      eapply quiet_bind with
        (Q := fun _ p => reading ts false (S d) p /\ Some ")" = curr_token p).
      { apply quiet_ret. intros p [(Hr & _) Ht]. auto. }
      intros _.
      eapply quiet_bind with (Q := fun _ p => reading ts false d p).
      { eapply quiet_pre; [|apply quiet_get_next_token].
        intros p [Hr Ht]. pose proof (reading_cons _ _ _ _ Hr) as Hc.
        rewrite <- Ht in Hc. destruct Hc as (rest & E & E' & Hi).
        destruct Hr as (Htok & _ & Hw). rewrite E in Hw. cbn [well_formed_from] in Hw.
        split; [exact Htok|]. split; [exact Hi|]. rewrite E'. exact Hw. }
      intros _. apply quiet_ret. intros p Hr. split; [exact Hr|].
      split; [apply token_text_None_no_leaf; reflexivity|].
      right. left. reflexivity.
    + (* a prefix operator *)
      destruct (prefix_operator_key _ Hpre) as [Hin Hkey].
      rewrite Hin, Hkey.
      eapply quiet_bind; [apply quiet_plift|]. intros [[kind a] n].
      cbv beta zeta.
      eapply quiet_bind with
        (Q := fun _ p => reading ts true d p /\ n = 7).
      { eapply quiet_pre; [|apply quiet_get_next_token].
        intros p [[= -> -> ->] [Hr Ht]]. split; [|reflexivity].
        pose proof (reading_cons _ _ _ _ Hr) as Hc.
        rewrite <- Ht in Hc. destruct Hc as (rest & E & E' & Hi).
        destruct Hr as (Htok & _ & Hw). rewrite E in Hw. cbn [well_formed_from] in Hw.
        rewrite Hopen, Hpre in Hw.
        split; [exact Htok|]. split; [exact Hi|]. rewrite E'. exact Hw. }
      intros _. eapply quiet_bind.
      { eapply quiet_pre; [|apply IHe]. intros p [Hr _]. exact Hr. }
      intros subexpr. cbv beta. apply quiet_ret.
      intros p (Hr & _ & _). split; [exact Hr|].
      split; [apply token_text_None_no_leaf; reflexivity|].
      right. right. cbn [Expr_op]. rewrite Hkey. eauto.
    + (* a literal *)
      assert (Hl := Hlit). unfold literal_token in Hl.
      rewrite !andb_true_iff, !negb_true_iff in Hl.
      destruct Hl as ((((Htruthy & _) & Hclose) & Hnot) & Htab).
      rewrite Hnot, Htab.
      eapply quiet_bind with (Q := fun _ p => reading ts false d p).
      { eapply quiet_pre; [|apply quiet_get_next_token].
        intros p [Hr Ht]. pose proof (reading_cons _ _ _ _ Hr) as Hc.
        rewrite <- Ht in Hc. destruct Hc as (rest & E & E' & Hi).
        destruct Hr as (Htok & _ & Hw). rewrite E in Hw. cbn [well_formed_from] in Hw.
        rewrite Hopen, Hpre, Hlit in Hw.
        split; [exact Htok|]. split; [exact Hi|]. rewrite E'. exact Hw. }
      intros _. apply quiet_ret. intros p Hr. split; [exact Hr|].
      assert (Htext : token_text (MkExpr (Some t) None None None) = Some t).
      { unfold token_text, is_token. simpl. rewrite Htruthy. reflexivity. }
      split.
      * intros t'. rewrite Htext. intros [= <-]. exact Htab.
      * left. unfold is_token. simpl. rewrite Htruthy. reflexivity.
  - (* parse_expr *)
    intros min_prec d. cbn [parse_expr].
    eapply quiet_bind; [apply IHa|]. intros lhs. cbv beta.
    apply quiet_assume with (fact := foldable lhs); [intros p [_ H]; exact H|].
    intros Hl. eapply quiet_pre; [|apply IHl, Hl]. intros p [Hr _]. exact Hr.
  - (* fold_loop *)
    intros min_prec d lhs Hl. cbn [fold_loop].
    eapply quiet_bind with
      (Q := fun found p =>
         reading ts false d p /\
         match found with
         | None => stops_at 0 p
         | Some (op, l) =>
             l = Some lhs /\ curr_token p = Some op /\
             binary_operator op = true
         end).
    { unfold candidate.
      assert (H : quiet (reading ts false d)
        (do tok <- get_curr_token;
         match tok with
         | None => pret None
         | Some tok =>
             if negb (in_Op_Table tok) then pret None
             else pret (Some (tok, Some lhs))
         end)%parsing
        (fun found p =>
           reading ts false d p /\
           match found with
           | None => stops_at 0 p
           | Some (op, l) =>
               l = Some lhs /\ curr_token p = Some op /\
               binary_operator op = true
           end)).
      { eapply quiet_bind; [apply quiet_get_curr_token|]. intros tok.
        cbv beta. destruct tok as [tok|].
        - apply quiet_assume with
            (fact := tok = ")" \/ binary_operator tok = true).
          { intros p [Hr Ht]. pose proof (reading_cons _ _ _ _ Hr) as Hc.
            rewrite <- Ht in Hc. destruct Hc as (rest & E & _).
            destruct Hr as (_ & _ & Hw). rewrite E in Hw. cbn [well_formed_from] in Hw.
            destruct (String.eqb_spec tok ")"); [auto|].
            destruct (binary_operator tok); [auto | discriminate]. }
          intros [->|Hbin].
          + replace (in_Op_Table ")") with false
              by (rewrite in_Op_Table_info; reflexivity).
            apply quiet_ret. intros p [Hr Ht]. split; [exact Hr|].
            unfold stops_at. rewrite <- Ht. auto.
          + destruct (binary_operator_info _ Hbin) as [Hin _]. rewrite Hin.
            apply quiet_ret. intros p [Hr Ht]. auto.
        - apply quiet_ret. intros p [Hr Ht]. split; [exact Hr|].
          unfold stops_at. rewrite <- Ht. exact I. }
      destruct Hl as [Hleaf _].
      destruct (token_text lhs) as [t|] eqn:Et; [|exact H].
      rewrite (Hleaf t Et). exact H. }
    intros [[op l]|]; cbv beta.
    2:{ apply quiet_ret. intros p [Hr Hstop]. split; [exact Hr|].
        split; [|eauto]. unfold stops_at in *.
        destruct (curr_token p); [|exact I].
        destruct Hstop as [?|(k & a & n & _ & Hn)]; [auto | lia]. }
    apply quiet_assume with (fact := l = Some lhs /\ binary_operator op = true).
    { intros p (_ & H1 & _ & H2). auto. }
    intros [-> Hbin].
    destruct (binary_operator_info _ Hbin) as (Hin & a & n & Hitem & Hinfo).
    rewrite Hitem.
    eapply quiet_bind; [apply quiet_plift|]. intros [[kind a'] n'].
    cbv beta zeta.
    apply quiet_assume with (fact := (kind, a', n') = (BINARYOP, a, n)).
    { intros p [H _]. exact H. }
    intros [= ? ? ?]. subst kind a' n'.
    eapply quiet_bind; [apply quiet_note_lookup|]. intros u. cbv beta.
    destruct (Nat.ltb_spec n min_prec) as [Hlt|Hge].
    { apply quiet_ret. intros p (_ & Hr & _ & Hcur & _). split; [exact Hr|].
      split; [|eauto]. unfold stops_at. rewrite Hcur. right. eauto 6. }
    eapply quiet_bind with (Q := fun _ p => reading ts true d p).
    { eapply quiet_pre; [|apply quiet_get_next_token].
      intros p (_ & Hr & _ & Hcur & _).
      pose proof (reading_cons _ _ _ _ Hr) as Hc.
      rewrite Hcur in Hc. destruct Hc as (rest & E & E' & Hi).
      destruct Hr as (Htok & _ & Hw). rewrite E in Hw. cbn [well_formed_from] in Hw.
      assert (Hne : String.eqb op ")" = false).
      { destruct (String.eqb_spec op ")") as [->|]; [|reflexivity].
        vm_compute in Hbin. discriminate. }
      rewrite Hne, Hbin in Hw.
      split; [exact Htok|]. split; [exact Hi|]. rewrite E'. exact Hw. }
    intros _. eapply quiet_bind; [apply IHe|]. intros rhs. cbv beta.
    destruct (fold_foldable op a n lhs rhs Hin Hl) as (e & -> & He).
    eapply quiet_bind; [apply quiet_plift|]. intros lhs'. cbv beta.
    apply quiet_assume with (fact := lhs' = e); [intros p [H _]; exact H|].
    intros ->. eapply quiet_pre; [|apply IHl, He].
    intros p (_ & Hr & _). exact Hr.
Qed.

(** A text that the tokeniser reads to its end and whose tokens follow the
    grammar is syntactically valid. *)
Theorem well_formed_valid text :
  snd (tokenise_state text) = String.length text ->
  well_formed (tokenise text) = true ->
  syntactically_valid text.
Proof.
  intros Hscan Hwf. split; [exact Hscan|].
  set (ts := tokenise text) in *.
  destruct (parse_expr_fuel ts) as [s Hs].
  destruct (parser_quiet ts (parse_fuel ts)) as (_ & He & _).
  destruct (He 0 0 (Parser_init ts) s) as (ops & r & p & -> & Hr & Hstop & Hsome).
  { split; [reflexivity|]. split; [simpl; lia|]. exact Hwf. }
  { exact Hs. }
  destruct Hsome as [tree ->]. exists ops, tree, p. split; [exact Hs|].
  pose proof (reading_cons _ _ _ _ Hr) as Hc. unfold stops_at in Hstop.
  destruct Hr as (Htok & Hi & Hw).
  destruct (curr_token p) as [t|] eqn:Et.
  - destruct Hc as (rest & E & _). rewrite E in Hw. cbn [well_formed_from] in Hw.
    destruct Hstop as [->|(k & a & n & _ & Hn)]; [discriminate | lia].
  - unfold curr_token in Et. rewrite Htok in Et.
    destruct (Nat.ltb_spec (current_index p) (length ts)) as [Hlt|Hge]; [|lia].
    apply lookup_lt_is_Some_2 in Hlt. rewrite Et in Hlt.
    destruct Hlt; discriminate.
Qed.

(** ** Where the tokeniser stops *)

Lemma find_none_all {A} (f : A -> bool) l :
  (forall x, In x l -> f x = false) -> List.find f l = None.
Proof.
  induction l as [|x l IH]; intros H; [reflexivity|]. simpl.
  rewrite (H x) by (left; reflexivity). apply IH. intros y Hy. apply H.
  right. exact Hy.
Qed.

Lemma stops_scan_parts c :
  stops_scan c = true ->
  is_whitespace c = false /\ starts_predefined c = false /\
  is_number_char c = false.
Proof.
  unfold stops_scan. intros H.
  apply andb_prop in H as [H H3]. apply andb_prop in H as [H1 H2].
  rewrite negb_true_iff in *. auto.
Qed.

Lemma starts_predefined_first c rest :
  starts_predefined c = false -> first_predefined (String c rest) = None.
Proof.
  intros H. unfold first_predefined. apply find_none_all. intros tok Hin.
  unfold starts_predefined in H.
  rewrite <- not_true_iff_false, existsb_exists in H.
  destruct (starts_with tok (String c rest)) eqn:E; [|reflexivity].
  exfalso. apply H. exists tok. split; [exact Hin|].
  destruct tok as [|x tok]; [simpl in Hin; intuition discriminate|].
  simpl in E |- *. apply andb_prop in E as [E _].
  rewrite Ascii.eqb_sym, E. reflexivity.
Qed.

Lemma starts_predefined_second c :
  starts_predefined c = false -> second_of_predefined c = false.
Proof.
  unfold starts_predefined, second_of_predefined. simpl.
  rewrite !orb_false_r, !orb_false_iff. intros H.
  repeat match goal with H : _ /\ _ |- _ => destruct H end.
  repeat match goal with
  | H : Ascii.eqb c ?x && true = false |- _ =>
      rewrite andb_true_r in H
  end.
  repeat split; assumption.
Qed.

Lemma scan_all_stops c rest :
  stops_scan c = true -> scan_all (String c rest) = ([], 0).
Proof.
  intros (Hw & Hp & Hn)%stops_scan_parts. rewrite scan_all_cons, Hw.
  rewrite (starts_predefined_first _ _ Hp). cbn [number_run]. rewrite Hn.
  reflexivity.
Qed.

(** ** Literals by format *)

Lemma str_in_char c s : Py.str_in (Py.char_str c) s = occurs c s.
Proof.
  induction s as [|c' s IH]; [reflexivity|]. cbn [Py.str_in occurs].
  rewrite IH. f_equal. unfold Py.char_str. cbn [String.prefix].
  destruct (ascii_dec c c') as [->|Hne].
  - rewrite Ascii.eqb_refl. destruct s; reflexivity.
  - symmetry. apply Ascii.eqb_neq. congruence.
Qed.

Lemma slice_prefix tok s :
  String.length tok = 2 ->
  String.eqb (Py.slice 0 2 s) tok = starts_with tok s.
Proof.
  intros H. unfold Py.slice. change (2 - 0) with 2. rewrite <- H.
  apply substring_starts_with.
Qed.

Lemma to_number_by_format tok : to_number tok = number_of_literal tok.
Proof.
  unfold to_number, number_of_literal, format_of.
  rewrite !slice_prefix by reflexivity.
  change "." with (Py.char_str "."). change "e" with (Py.char_str "e").
  change "E" with (Py.char_str "E"). rewrite !str_in_char.
  destruct (starts_with "0x" tok); [reflexivity|].
  destruct (starts_with "0X" tok); [reflexivity|].
  destruct (starts_with "0o" tok); [reflexivity|].
  destruct (starts_with "0b" tok); [reflexivity|].
  destruct (occurs "." tok); [reflexivity|].
  destruct (occurs "e" tok); [reflexivity|].
  destruct (occurs "E" tok); reflexivity.
Qed.

(** ** The evaluator on an empty child *)

Lemma evaluate_empty e : is_empty e = true -> evaluate e = ret VNone.
Proof.
  destruct e as [tok op l r]. unfold is_empty. simpl.
  destruct (Py.opt_truthy tok) eqn:Et; [discriminate|].
  destruct (Py.opt_truthy op) eqn:Eo; [discriminate|].
  destruct l; [discriminate|]. destruct r; [discriminate|]. intros _.
  unfold token_text, is_token. simpl. rewrite Et. reflexivity.
Qed.

(** The value [evaluate] takes for a child. *)
Lemma operand_value e :
  (if is_empty e then ret VNone else evaluate e) = evaluate e.
Proof.
  destruct (is_empty e) eqn:E; [|reflexivity].
  symmetry. apply evaluate_empty, E.
Qed.

Lemma to_number_zero : to_number "0" = Ok (VInt 0).
Proof. vm_compute. reflexivity. Qed.

(** ** Numerals and their value *)

Lemma digit_value_ascii c d :
  Text.digit_value c = Some d ->
  Text.ascii_view c = c /\ Text.is_space c = false /\
  c <> "+"%char /\ c <> "-"%char /\ c <> "_"%char /\ c <> "."%char /\
  (0 <= d)%Z /\
  ((c = "x" \/ c = "X")%char -> d = 33%Z) /\
  ((c = "o" \/ c = "O")%char -> d = 24%Z) /\
  ((c = "b" \/ c = "B")%char -> d = 11%Z) /\
  ((c = "e" \/ c = "E")%char -> d = 14%Z).
Proof.
  unfold Text.digit_value, Text.ascii_view, Text.is_space, Text.code.
  assert (Hc : c = ascii_of_nat (nat_of_ascii c))
    by (symmetry; apply ascii_nat_embedding).
  pose proof (nat_ascii_bounded c) as Hb.
  set (n := nat_of_ascii c) in *.
  assert (Hne : forall k, k < 256 -> n <> k -> c <> ascii_of_nat k).
  { intros k Hk Hnk ->. apply Hnk. unfold n.
    apply nat_ascii_embedding. exact Hk. }
  intros H.
  assert (Hrange : (48 <= n <= 57 \/ 97 <= n <= 122 \/ 65 <= n <= 90)%nat /\
                   (0 <= d)%Z /\
                   (n = 120 \/ n = 88 -> d = 33%Z) /\
                   (n = 111 \/ n = 79 -> d = 24%Z) /\
                   (n = 98 \/ n = 66 -> d = 11%Z) /\
                   (n = 101 \/ n = 69 -> d = 14%Z)).
  { destruct (Nat.leb_spec 48 n), (Nat.leb_spec n 57); cbn [andb] in H;
      try (injection H as <-; repeat split; lia);
    destruct (Nat.leb_spec 97 n), (Nat.leb_spec n 122); cbn [andb] in H;
      try (injection H as <-; repeat split; lia);
    destruct (Nat.leb_spec 65 n), (Nat.leb_spec n 90); cbn [andb] in H;
      try (injection H as <-; repeat split; lia); discriminate. }
  destruct Hrange as (Hr & Hd & Hx & Ho & Hbb & He).
  assert (Hn : forall k, k < 256 -> c = ascii_of_nat k -> n = k).
  { intros k Hk ->. unfold n. apply nat_ascii_embedding. exact Hk. }
  split. { destruct (Nat.ltb_spec n 127); [reflexivity | lia]. }
  split.
  { destruct (Nat.leb_spec 9 n), (Nat.leb_spec n 13), (Nat.eqb_spec n 32);
      cbn; try reflexivity; lia. }
  split; [apply (Hne 43); lia|]. split; [apply (Hne 45); lia|].
  split; [apply (Hne 95); lia|]. split; [apply (Hne 46); lia|].
  split; [exact Hd|].
  split; [intros [E|E]; apply Hx; [left; apply (Hn 120) | right; apply (Hn 88)];
          (lia || exact E)|].
  split; [intros [E|E]; apply Ho; [left; apply (Hn 111) | right; apply (Hn 79)];
          (lia || exact E)|].
  split; [intros [E|E]; apply Hbb; [left; apply (Hn 98) | right; apply (Hn 66)];
          (lia || exact E)|].
  intros [E|E]; apply He; [left; apply (Hn 101) | right; apply (Hn 69)];
    (lia || exact E).
Qed.

Lemma all_digits_view base s : all_digits base s = true -> Text.view s = s.
Proof.
  induction s as [|c s IH]; [reflexivity|]. cbn [all_digits Text.view].
  destruct (Text.digit_value c) as [d|] eqn:Ed; [|discriminate].
  intros [_ H]%andb_prop. rewrite (IH H).
  destruct (digit_value_ascii _ _ Ed) as (-> & _). reflexivity.
Qed.

Lemma int_digits_numeral base s acc n :
  all_digits base s = true ->
  Text.int_digits base s acc n false
  = Some (numeral base s acc, n + String.length s, EmptyString).
Proof.
  revert acc n; induction s as [|c s IH]; intros acc n.
  { intros _. cbn. rewrite Nat.add_0_r. reflexivity. }
  cbn [all_digits Text.int_digits numeral String.length].
  destruct (Text.digit_value c) as [d|] eqn:Ed; [|discriminate].
  intros [Hd H]%andb_prop. rewrite Hd.
  destruct (digit_value_ascii _ _ Ed) as (_ & _ & _ & _ & Hus & _).
  rewrite (proj2 (Ascii.eqb_neq c "_") Hus).
  rewrite (IH _ _ H).
  replace (n + S (String.length s)) with (S n + String.length s) by lia.
  reflexivity.
Qed.

(** [int(s, base)] on a numeral without sign, prefix or underscore. *)
Theorem py_int_str_numeral base s :
  In base [2; 8; 10; 16]%Z -> s <> EmptyString ->
  all_digits base s = true ->
  (base = 10%Z -> String.length s <= 640) ->
  py_int_str s base = Ok (numeral base s 0).
Proof.
  intros Hbase Hne Hs Hlen. unfold py_int_str.
  rewrite (all_digits_view _ _ Hs).
  destruct s as [|c s']; [congruence|].
  assert (Hc := Hs). cbn [all_digits] in Hc.
  destruct (Text.digit_value c) as [d|] eqn:Ed; [|discriminate].
  apply andb_prop in Hc as [Hd Hs'].
  destruct (digit_value_ascii _ _ Ed)
    as (_ & Hsp & Hplus & Hminus & Hus & _).
  cbn [Text.lstrip]. rewrite Hsp. unfold Text.sign.
  rewrite (proj2 (Ascii.eqb_neq c "+") Hplus).
  rewrite (proj2 (Ascii.eqb_neq c "-") Hminus).
  assert (Hskip : Text.skip_base_prefix base (String c s') = String c s').
  { unfold Text.skip_base_prefix.
    destruct s' as [|c2 s'']; [reflexivity|].
    cbn [all_digits] in Hs'.
    destruct (Text.digit_value c2) as [d2|] eqn:Ed2; [|discriminate].
    apply andb_prop in Hs' as [Hd2 _]. apply Z.ltb_lt in Hd2.
    destruct (digit_value_ascii _ _ Ed2)
      as (_ & _ & _ & _ & _ & _ & _ & Hx & Ho & Hb & _).
    replace ((base =? 16)%Z && (Ascii.eqb c2 "x" || Ascii.eqb c2 "X")
             || (base =? 8)%Z && (Ascii.eqb c2 "o" || Ascii.eqb c2 "O")
             || (base =? 2)%Z && (Ascii.eqb c2 "b" || Ascii.eqb c2 "B"))
      with false; [rewrite andb_false_r; reflexivity|].
    symmetry. rewrite !orb_false_iff, !andb_false_iff, !orb_false_iff.
    assert (Hb16 : (base =? 16)%Z = false \/ c2 <> "x"%char /\ c2 <> "X"%char).
    { destruct (Z.eqb_spec base 16%Z); [right|auto].
      split; intros ->; specialize (Hx ltac:(auto)); lia. }
    assert (Hb8 : (base =? 8)%Z = false \/ c2 <> "o"%char /\ c2 <> "O"%char).
    { destruct (Z.eqb_spec base 8%Z); [right|auto].
      split; intros ->; specialize (Ho ltac:(auto)); lia. }
    assert (Hb2 : (base =? 2)%Z = false \/ c2 <> "b"%char /\ c2 <> "B"%char).
    { destruct (Z.eqb_spec base 2%Z); [right|auto].
      split; intros ->; specialize (Hb ltac:(auto)); lia. }
    rewrite <- !Ascii.eqb_neq in Hb16, Hb8, Hb2. tauto. }
  rewrite Hskip. unfold Text.starts_with_underscore.
  rewrite (proj2 (Ascii.eqb_neq c "_") Hus).
  rewrite int_digits_numeral by exact Hs.
  cbn [String.length Nat.add Nat.eqb Text.lstrip String.eqb negb].
  replace (negb (Z.land base (base - 1) =? 0)%Z
           && (640 <? S (String.length s'))%nat) with false; [reflexivity|].
  symmetry. apply andb_false_iff.
  destruct (Z.eq_dec base 10%Z) as [->|Hn10].
  - right. specialize (Hlen eq_refl). cbn [String.length] in Hlen.
    apply Nat.ltb_ge. lia.
  - left. simpl in Hbase.
    destruct Hbase as [<-|[<-|[<-|[<-|[]]]]]; try reflexivity. congruence.
Qed.

Lemma all_digits_no_char base s c :
  all_digits base s = true ->
  (forall d, Text.digit_value c = Some d -> (base <= d)%Z) ->
  occurs c s = false.
Proof.
  intros Hs Hc. induction s as [|c' s IH]; [reflexivity|].
  cbn [all_digits occurs] in *.
  destruct (Text.digit_value c') as [d|] eqn:Ed; [|discriminate].
  apply andb_prop in Hs as [Hd Hs]. rewrite (IH Hs), orb_false_r.
  apply Ascii.eqb_neq. intros ->. specialize (Hc d Ed).
  apply Z.ltb_lt in Hd. lia.
Qed.

(** A literal with a base prefix followed by digits of the base stands
    for the number the digits write. *)
Theorem to_number_prefixed s :
  s <> EmptyString ->
  (all_digits 16 s = true ->
   to_number ("0x" +:+ s) = Ok (VInt (numeral 16 s 0)) /\
   to_number ("0X" +:+ s) = Ok (VInt (numeral 16 s 0))) /\
  (all_digits 8 s = true ->
   to_number ("0o" +:+ s) = Ok (VInt (numeral 8 s 0))) /\
  (all_digits 2 s = true ->
   to_number ("0b" +:+ s) = Ok (VInt (numeral 2 s 0))).
Proof.
  intros Hne.
  assert (H : forall base, In base [2; 8; 10; 16]%Z -> base <> 10%Z ->
            all_digits base s = true ->
            py_int_str s base = Ok (numeral base s 0)).
  { intros base Hb Hn Hs. apply py_int_str_numeral; auto. congruence. }
  assert (Hfmt : forall pre fmt,
            format_of (pre +:+ s) = fmt ->
            Py.slice_from 2 (pre +:+ s) = s ->
            number_of_literal (pre +:+ s)
            = match fmt with
              | Hexadecimal => rbind (py_int_str s 16) (fun z => Ok (VInt z))
              | Octal => rbind (py_int_str s 8) (fun z => Ok (VInt z))
              | Binary => rbind (py_int_str s 2) (fun z => Ok (VInt z))
              | _ => number_of_literal (pre +:+ s)
              end).
  { intros pre fmt Hf Hsl. unfold number_of_literal at 1.
    rewrite Hf, Hsl. destruct fmt; try reflexivity;
      unfold number_of_literal; rewrite Hf; reflexivity. }
  split; [|split]; intros Hs; rewrite ?to_number_by_format.
  - split.
    + rewrite (Hfmt "0x" Hexadecimal) by reflexivity.
      rewrite H by (cbn; auto 6; discriminate). reflexivity.
    + rewrite (Hfmt "0X" Hexadecimal) by reflexivity.
      rewrite H by (cbn; auto 6; discriminate). reflexivity.
  - rewrite (Hfmt "0o" Octal) by reflexivity.
    rewrite H by (cbn; auto 6; discriminate). reflexivity.
  - rewrite (Hfmt "0b" Binary) by reflexivity.
    rewrite H by (cbn; auto 6; discriminate). reflexivity.
Qed.

(** A literal of decimal digits, short enough for any limit on the length
    of integer literals, stands for the number the digits write. *)
Theorem to_number_decimal s :
  s <> EmptyString -> all_digits 10 s = true -> String.length s <= 640 ->
  to_number s = Ok (VInt (numeral 10 s 0)).
Proof.
  intros Hne Hs Hlen. rewrite to_number_by_format.
  unfold number_of_literal, format_of.
  assert (Hpre : forall c, (forall d, Text.digit_value c = Some d ->
                                      (10 <= d)%Z) ->
                 starts_with (String "0" (String c "")) s = false).
  { intros c Hc. destruct s as [|c1 [|c2 s']]; cbn;
      rewrite ?andb_false_r; try reflexivity.
    cbn [all_digits] in Hs.
    destruct (Text.digit_value c1); [|discriminate].
    apply andb_prop in Hs as [_ Hs].
    destruct (Text.digit_value c2) as [d2|] eqn:Ed2; [|discriminate].
    apply andb_prop in Hs as [Hd2 _]. apply Z.ltb_lt in Hd2.
    rewrite andb_true_r.
    destruct (Ascii.eqb_spec c c2) as [->|?];
      [|rewrite andb_false_r; reflexivity].
    specialize (Hc _ Ed2). lia. }
  rewrite !Hpre by (intros d [= <-]; lia). cbn [orb].
  rewrite !(all_digits_no_char 10 s) by (auto; intros d [= <-]; lia).
  cbn [orb]. rewrite py_int_str_numeral; cbn; auto.
Qed.

Example to_number_hex_7f :
  numeral 16 "7f" 0 = 127%Z /\ numeral 8 "7" 0 = 7%Z /\
  numeral 2 "101" 0 = 5%Z /\ numeral 10 "45" 0 = 45%Z.
Proof. repeat split. Qed.

(** ** Integers as floats *)

Lemma digits2_pos_size m : digits2_pos m = Pos.size m.
Proof. induction m; simpl; congruence. Qed.

Lemma digits2_pos_iter m d :
  Zpos (digits2_pos (Pos.iter xO m d)) = (Zpos (digits2_pos m) + Zpos d)%Z.
Proof.
  induction d as [|d IH] using Pos.peano_ind.
  - simpl. lia.
  - rewrite Pos.iter_succ. cbn [digits2_pos]. lia.
Qed.

Lemma Zpos_iter m d :
  Zpos (Pos.iter xO m d) = (Zpos m * 2 ^ Zpos d)%Z.
Proof.
  induction d as [|d IH] using Pos.peano_ind.
  - simpl. lia.
  - rewrite Pos.iter_succ, Pos2Z.inj_succ, Z.pow_succ_r by lia.
    rewrite Pos2Z.inj_xO, IH. lia.
Qed.

(** One step of [shr] takes one binary digit off a positive mantissa. *)
Lemma shr_1_digits mrs :
  (0 < shr_m mrs)%Z ->
  (0 <= shr_m (shr_1 mrs))%Z /\
  Zdigits2 (shr_m (shr_1 mrs)) = (Zdigits2 (shr_m mrs) - 1)%Z.
Proof.
  destruct mrs as [m r s]. simpl. destruct m as [|[p|p|]|p]; simpl; lia.
Qed.

Lemma Zdigits2_pos m : (0 <= m)%Z -> (0 < Zdigits2 m)%Z -> (0 < m)%Z.
Proof. destruct m; simpl; lia. Qed.

Lemma Zdigits2_nonneg m : (0 <= Zdigits2 m)%Z.
Proof. destruct m; simpl; lia. Qed.

Lemma iter_shr_1_digits p mrs :
  (0 <= shr_m mrs)%Z -> (Zpos p <= Zdigits2 (shr_m mrs))%Z ->
  (0 <= shr_m (SpecFloat.iter_pos shr_1 p mrs))%Z /\
  Zdigits2 (shr_m (SpecFloat.iter_pos shr_1 p mrs))
    = (Zdigits2 (shr_m mrs) - Zpos p)%Z.
Proof.
  revert mrs; induction p as [p IH|p IH|]; intros mrs Hm Hd; cbn [SpecFloat.iter_pos].
  - destruct (shr_1_digits mrs) as [H1 H1d]; [apply Zdigits2_pos; lia|].
    destruct (IH (shr_1 mrs)) as [H2 H2d]; [lia|lia|].
    destruct (IH (SpecFloat.iter_pos shr_1 p (shr_1 mrs))) as [H3 H3d]; [lia|lia|].
    split; [exact H3 | lia].
  - destruct (IH mrs) as [H2 H2d]; [lia|lia|].
    destruct (IH (SpecFloat.iter_pos shr_1 p mrs)) as [H3 H3d]; [lia|lia|].
    split; [exact H3 | lia].
  - destruct (shr_1_digits mrs) as [H1 H1d]; [apply Zdigits2_pos; lia|].
    split; [exact H1 | lia].
Qed.

Lemma shr_record_of_loc_m m l : shr_m (shr_record_of_loc m l) = m.
Proof. destruct l as [|[| |]]; reflexivity. Qed.

(** Rounding to the format keeps a positive mantissa positive and does
    not lower the exponent. *)
Lemma shr_fexp_pos m e l :
  (0 < m)%Z -> (-1074 <= e)%Z ->
  (0 < shr_m (fst (shr_fexp F64.prec F64.emax m e l)))%Z /\
  (e <= snd (shr_fexp F64.prec F64.emax m e l))%Z.
Proof.
  intros Hm He. unfold shr_fexp, shr.
  set (n := (fexp F64.prec F64.emax (Zdigits2 m + e) - e)%Z).
  assert (Hn : (n < Zdigits2 m)%Z).
  { unfold n, fexp, emin, F64.prec, F64.emax.
    pose proof (Zdigits2_nonneg m). destruct m; simpl in *; lia. }
  destruct n as [|p|p] eqn:En; cbn [fst snd];
    rewrite ?shr_record_of_loc_m; try lia.
  destruct (iter_shr_1_digits p (shr_record_of_loc m l)) as [H1 H2];
    rewrite ?shr_record_of_loc_m; try lia.
  rewrite shr_record_of_loc_m in H2.
  split; [apply Zdigits2_pos; lia | lia].
Qed.

Lemma round_nearest_even_pos m l :
  (0 < m)%Z -> (0 < round_nearest_even m l)%Z.
Proof.
  intros Hm. unfold round_nearest_even.
  destruct l as [|[| |]]; try lia. destruct (Z.even m); lia.
Qed.

Lemma binary_round_aux_shape s m e l :
  (0 < m)%Z -> (-1074 <= e)%Z ->
  binary_round_aux F64.prec F64.emax s m e l = S754_infinity s \/
  exists m' e',
    binary_round_aux F64.prec F64.emax s m e l = S754_finite s m' e' /\
    (e <= e')%Z.
Proof.
  intros Hm He. unfold binary_round_aux.
  destruct (shr_fexp_pos m e l Hm He) as [H1 H1e].
  destruct (shr_fexp F64.prec F64.emax m e l) as [mrs' e'].
  cbn [fst snd] in H1, H1e.
  pose proof (round_nearest_even_pos _ (loc_of_shr_record mrs') H1) as Hr.
  destruct (shr_fexp_pos _ e' loc_Exact Hr ltac:(lia)) as [H2 H2e].
  destruct (shr_fexp F64.prec F64.emax _ e' loc_Exact) as [mrs'' e''].
  cbn [fst snd] in H2, H2e.
  destruct (shr_m mrs'') as [|m''|m'']; try lia.
  destruct (e'' <=? F64.emax - F64.prec)%Z; [right|left; reflexivity].
  exists m'', e''. split; [reflexivity | lia].
Qed.

(** An exponent that is not negative makes a whole number. *)
Lemma is_integer_nonneg s m e :
  (0 <= e)%Z -> F64.is_integer (S754_finite s m e) = true.
Proof.
  intros He. unfold F64.is_integer. apply Z.eqb_eq.
  rewrite (Z.shiftl_mul_pow2 (Zpos m) e) by lia.
  rewrite Z.shiftl_div_pow2 by lia. rewrite Z.opp_involutive.
  apply Z.div_mul. apply Z.pow_nonzero; lia.
Qed.

Lemma is_integer_shifted s m d :
  F64.is_integer (S754_finite s (Pos.iter xO m d) (Zneg d)) = true.
Proof.
  unfold F64.is_integer. apply Z.eqb_eq.
  rewrite Zpos_iter.
  rewrite (Z.shiftl_div_pow2 _ (Zneg d)) by lia.
  change (- Zneg d)%Z with (Zpos d).
  rewrite Z.div_mul by (apply Z.pow_nonzero; lia).
  rewrite Z.shiftl_mul_pow2 by lia. reflexivity.
Qed.

(** A small integer is represented exactly, its mantissa shifted up to
    the precision of the format. *)
Lemma binary_round_small s m d :
  (Zpos (digits2_pos m) + Zpos d = 53)%Z ->
  binary_round_aux F64.prec F64.emax s (Zpos (Pos.iter xO m d)) (Zneg d)
                   loc_Exact
  = S754_finite s (Pos.iter xO m d) (Zneg d).
Proof.
  intros Hd. unfold binary_round_aux, shr_fexp.
  assert (Hn : (fexp F64.prec F64.emax
                  (Zdigits2 (Zpos (Pos.iter xO m d)) + Zneg d) - Zneg d = 0)%Z).
  { cbn [Zdigits2]. rewrite digits2_pos_iter.
    unfold fexp, emin, F64.prec, F64.emax. lia. }
  rewrite Hn. cbn [shr shr_record_of_loc shr_m loc_of_shr_record
                   round_nearest_even].
  rewrite Hn. cbn [shr shr_record_of_loc shr_m].
  replace (Zneg d <=? F64.emax - F64.prec)%Z with true; [reflexivity|].
  symmetry. apply Z.leb_le. unfold F64.emax, F64.prec. lia.
Qed.

(** The float of a non-zero integer: infinite or finite, of the sign of
    the integer, and a whole number. *)
Theorem of_Z_shape z :
  z <> 0%Z ->
  F64.of_Z z = S754_infinity (z <? 0)%Z \/
  exists m e, F64.of_Z z = S754_finite (z <? 0)%Z m e /\
              F64.is_integer (S754_finite (z <? 0)%Z m e) = true.
Proof.
  intros Hz. unfold F64.of_Z, binary_normalize.
  assert (H : forall s m,
    binary_round F64.prec F64.emax s m 0 = S754_infinity s \/
    exists m' e', binary_round F64.prec F64.emax s m 0 = S754_finite s m' e' /\
                  F64.is_integer (S754_finite s m' e') = true).
  { intros s m. unfold binary_round, shl_align.
    set (x := (fexp F64.prec F64.emax (Zpos (digits2_pos m) + 0) - 0)%Z).
    assert (Hx : (x = Zpos (digits2_pos m) - 53)%Z).
    { unfold x, fexp, emin, F64.prec, F64.emax. lia. }
    destruct x as [|p|d] eqn:Ex.
    - destruct (binary_round_aux_shape s (Zpos m) 0 loc_Exact)
        as [->|(m' & e' & -> & He)]; [lia|lia|auto|].
      right. exists m', e'. split; [reflexivity|].
      apply is_integer_nonneg, He.
    - destruct (binary_round_aux_shape s (Zpos m) 0 loc_Exact)
        as [->|(m' & e' & -> & He)]; [lia|lia|auto|].
      right. exists m', e'. split; [reflexivity|].
      apply is_integer_nonneg, He.
    - right. exists (Pos.iter xO m d), (Zneg d).
      replace (fexp F64.prec F64.emax (Zpos (digits2_pos m) + 0))
        with (Zneg d) by (unfold x in Ex; lia).
      split; [apply binary_round_small; lia | apply is_integer_shifted]. }
  destruct z as [|m|m]; [congruence| |]; apply H.
Qed.

(** * Lines of two integer literals *)

Lemma decimal_digit_char c d :
  Text.digit_value c = Some d -> (d < 10)%Z ->
  is_whitespace c = false /\ starts_predefined c = false /\
  is_number_char c = true /\ c <> "("%char /\ c <> ")"%char.
Proof.
  unfold Text.digit_value, Text.code. intros H Hd.
  assert (Hc : c = ascii_of_nat (nat_of_ascii c))
    by (symmetry; apply ascii_nat_embedding).
  set (n := nat_of_ascii c) in *.
  assert (Hn : 48 <= n <= 57).
  { destruct (Nat.leb_spec 48 n), (Nat.leb_spec n 57); cbn [andb] in H;
      try lia;
    destruct (Nat.leb_spec 97 n), (Nat.leb_spec n 122); cbn [andb] in H;
      try (injection H as <-; lia);
    destruct (Nat.leb_spec 65 n), (Nat.leb_spec n 90); cbn [andb] in H;
      try (injection H as <-; lia); discriminate. }
  assert (Hcases : n = 48 \/ n = 49 \/ n = 50 \/ n = 51 \/ n = 52 \/
                   n = 53 \/ n = 54 \/ n = 55 \/ n = 56 \/ n = 57) by lia.
  clearbody n. clear H Hn.
  repeat (destruct Hcases as [->|Hcases]; [subst c; repeat split; discriminate|]).
  subst n c. repeat split; discriminate.
Qed.

Lemma decimal_literal_parts s :
  decimal_literal s = true ->
  s <> EmptyString /\ all_digits 10 s = true /\ String.length s <= 640.
Proof.
  unfold decimal_literal. rewrite !andb_true_iff, Nat.leb_le.
  intros [[Ht Hd] Hl]. repeat split; auto. intros ->. discriminate.
Qed.

Lemma decimal_literal_head s :
  decimal_literal s = true ->
  exists c s' d, s = String c s' /\ Text.digit_value c = Some d /\ (d < 10)%Z.
Proof.
  intros (Hne & Hd & _)%decimal_literal_parts.
  destruct s as [|c s']; [congruence|]. cbn [all_digits] in Hd.
  destruct (Text.digit_value c) as [d|] eqn:Ed; [|discriminate].
  apply andb_prop in Hd as [Hd _]. apply Z.ltb_lt in Hd. eauto 6.
Qed.

Lemma decimal_number_run s :
  all_digits 10 s = true -> number_run s = String.length s.
Proof.
  induction s as [|c s IH]; [reflexivity|]. cbn [all_digits number_run].
  destruct (Text.digit_value c) as [d|] eqn:Ed; [|discriminate].
  intros [Hd Hs]%andb_prop. apply Z.ltb_lt in Hd.
  destruct (decimal_digit_char _ _ Ed Hd) as (_ & _ & -> & _).
  cbn [String.length]. rewrite (IH Hs). reflexivity.
Qed.

Lemma substring_all s : substring 0 (String.length s) s = s.
Proof. induction s as [|c s IH]; [reflexivity|]. cbn. rewrite IH. reflexivity. Qed.

Lemma slice_from_all s : Py.slice_from (String.length s) s = EmptyString.
Proof. apply slice_from_empty. lia. Qed.

(** A decimal literal is one token. *)
Lemma scan_all_decimal s :
  decimal_literal s = true -> scan_all s = ([s], String.length s).
Proof.
  intros Hs. destruct (decimal_literal_head _ Hs) as (c & s' & d & -> & Ed & Hd).
  destruct (decimal_literal_parts _ Hs) as (_ & Hall & _).
  destruct (decimal_digit_char _ _ Ed Hd) as (Hw & Hp & Hn & _).
  rewrite scan_all_cons, Hw, (starts_predefined_first _ _ Hp). cbv zeta.
  rewrite (decimal_number_run _ Hall), substring_all, slice_from_all.
  cbn [String.length Nat.ltb Nat.leb]. rewrite scan_all_empty.
  pair_eq.
Qed.

Lemma binary_operator_cases op :
  binary_operator op = true ->
  In op ["**"; "%"; "/"; "*"; "-"; "+"; ">>"; "<<"; "&"; "^"; "|"].
Proof.
  unfold binary_operator. rewrite Op_Table_lookup. unfold op_info.
  repeat match goal with
  | |- context [String.eqb op ?k] =>
      destruct (String.eqb_spec op k) as [->|?]
  end; try discriminate; intros _; simpl; auto 12.
Qed.

Lemma scan_all_operator op rest :
  binary_operator op = true ->
  scan_all (op +:+ String " " rest)
  = (op :: fst (scan_all rest), String.length op + 1 + snd (scan_all rest)).
Proof.
  intros Hop%binary_operator_cases. simpl in Hop.
  assert (Hsp : scan_all (String " " rest)
                = (fst (scan_all rest), 1 + snd (scan_all rest))).
  { rewrite scan_all_cons. change (is_whitespace " ") with true.
    destruct (scan_all rest); reflexivity. }
  repeat (destruct Hop as [<-|Hop];
    [ cbv [String.append]; rewrite scan_all_cons;
      match goal with
      | |- context [is_whitespace ?c] => change (is_whitespace c) with false
      end; cbv iota;
      match goal with
      | |- context [first_predefined ?s] =>
          let r := eval cbn in (first_predefined s) in
          change (first_predefined s) with r
      end; cbv iota; cbn [String.length Py.slice_from];
      rewrite Hsp; cbn [fst snd]; f_equal; lia |]).
  destruct Hop.
Qed.

(** The tokens of the line [a op b]. *)
Lemma tokenise_binary_line a op b :
  decimal_literal a = true -> binary_operator op = true ->
  decimal_literal b = true ->
  tokenise (binary_line a op b) = [a; op; b].
Proof.
  intros Ha Hop Hb. unfold tokenise, binary_line.
  rewrite tokenise_state_scan.
  change (a +:+ " " +:+ op +:+ " " +:+ b)
    with (a +:+ String " " (op +:+ String " " b)).
  rewrite scan_all_app by reflexivity.
  rewrite (scan_all_decimal _ Ha), Nat.eqb_refl.
  rewrite scan_all_cons. change (is_whitespace " ") with true. cbv iota.
  rewrite (scan_all_operator _ _ Hop), (scan_all_decimal _ Hb).
  reflexivity.
Qed.

Lemma all_digits_differs s k :
  all_digits 10 s = true -> all_digits 10 k = false -> String.eqb s k = false.
Proof.
  intros Hs Hk. destruct (String.eqb_spec s k) as [->|]; congruence.
Qed.

Lemma decimal_literal_token s :
  decimal_literal s = true -> literal_token s = true.
Proof.
  intros Hs. destruct (decimal_literal_parts _ Hs) as (Hne & Hall & _).
  pose proof (fun k => all_digits_differs s k Hall) as Hk.
  unfold literal_token, Py.list_in. cbn [existsb].
  rewrite in_Op_Table_info. unfold op_info.
  rewrite !Hk by reflexivity.
  destruct s; [congruence|]. reflexivity.
Qed.

Lemma literal_token_parts t :
  literal_token t = true ->
  Py.str_truthy t = true /\ String.eqb t "(" = false /\
  Py.list_in t ["-"; "+"; "~"; "not"] = false /\ in_Op_Table t = false.
Proof.
  unfold literal_token. rewrite !andb_true_iff, !negb_true_iff. tauto.
Qed.

Lemma token_text_Leaf t : Py.str_truthy t = true -> token_text (Leaf t) = Some t.
Proof. unfold token_text, is_token. simpl. intros ->. reflexivity. Qed.

Lemma no_operator_leaf_Leaf t :
  literal_token t = true -> no_operator_leaf (Leaf t).
Proof.
  intros (Ht & _ & _ & Hop)%literal_token_parts t'.
  rewrite (token_text_Leaf _ Ht). intros [= <-]. exact Hop.
Qed.

(** A literal is an atom. *)
Lemma parse_atom_literal fuel min_prec p t :
  curr_token p = Some t -> literal_token t = true ->
  parse_atom (S fuel) min_prec p = Some (Steps [] [] (Ok (Leaf t, advance p))).
Proof.
  intros Hp (_ & H1 & H2 & H3)%literal_token_parts.
  cbn [parse_atom]. unfold pbind at 1, get_curr_token. rewrite Hp, H1, H2, H3.
  reflexivity.
Qed.

Lemma parse_expr_S fuel min_prec :
  parse_expr (S fuel) min_prec
  = pbind (parse_atom fuel min_prec) (fold_loop fuel min_prec).
Proof. reflexivity. Qed.

Lemma fold_loop_S fuel min_prec lhs :
  fold_loop (S fuel) min_prec lhs
  = (do found <- candidate lhs;
     match found with
     | None => pret (Some lhs)
     | Some (op, lhs) =>
         do '(kind, associativity, precedence)
            <- plift (Op_Table_item (Some op));
         run note_lookup op;
         if (precedence <? min_prec)%nat then pret lhs
         else
           let next_min_prec :=
             if decide (associativity = LEFT) then precedence + 1
             else precedence in
           run get_next_token;
           do rhs <- parse_expr fuel next_min_prec;
           do lhs <- plift (fold op kind associativity precedence lhs rhs);
           fold_loop fuel min_prec lhs
     end)%parsing.
Proof. reflexivity. Qed.

(** The fold loop is left at the end of the tokens. *)
Lemma candidate_end lhs p :
  no_operator_leaf lhs -> curr_token p = None ->
  candidate lhs p = Some (Steps [] [] (Ok (None, p))).
Proof.
  intros Hl Hp. unfold candidate.
  destruct (token_text lhs) as [t|] eqn:Et;
    [rewrite (Hl t Et)|];
    unfold pbind, get_curr_token; rewrite Hp; reflexivity.
Qed.

(** The fold loop takes the operator under the cursor. *)
Lemma candidate_operator lhs op p :
  no_operator_leaf lhs -> curr_token p = Some op -> in_Op_Table op = true ->
  candidate lhs p = Some (Steps [] [] (Ok (Some (op, Some lhs), p))).
Proof.
  intros Hl Hp Hop. unfold candidate.
  destruct (token_text lhs) as [t|] eqn:Et;
    [rewrite (Hl t Et)|];
    unfold pbind, get_curr_token; rewrite Hp, Hop; reflexivity.
Qed.

Lemma fold_loop_end fuel min_prec lhs p :
  no_operator_leaf lhs -> curr_token p = None ->
  fold_loop (S fuel) min_prec lhs p = Some (Steps [] [] (Ok (Some lhs, p))).
Proof.
  intros Hl Hp. rewrite fold_loop_S. unfold pbind at 1.
  rewrite (candidate_end _ _ Hl Hp). reflexivity.
Qed.

(** The tree of the tokens [a op b]. *)
Lemma parse_expr_binary a op b :
  literal_token a = true -> binary_operator op = true ->
  literal_token b = true ->
  parse_expr (parse_fuel [a; op; b]) 0 (Parser_init [a; op; b])
  = Some (Steps [] [op]
            (Ok (Some (BinaryNode op (Leaf a) (Leaf b)),
                 {| current_tokens := [a; op; b]; current_index := 3 |}))).
Proof.
  intros Ha Hop Hb.
  destruct (binary_operator_info _ Hop) as (Hin & assoc & n & Hitem & _).
  set (ts := [a; op; b]).
  change (parse_fuel ts) with 8.
  rewrite parse_expr_S. unfold pbind at 1.
  rewrite (parse_atom_literal _ _ _ a) by (reflexivity || assumption).
  rewrite fold_loop_S. unfold pbind at 1.
  rewrite (candidate_operator _ op)
    by (apply no_operator_leaf_Leaf, Ha || reflexivity || assumption).
  unfold pbind at 1. unfold plift at 1. rewrite Hitem. cbn [rbind].
  unfold pbind at 1, note_lookup at 1.
  cbn [Nat.ltb Nat.leb]. unfold pbind at 1, get_next_token at 1.
  unfold pbind at 1.
  rewrite parse_expr_S. unfold pbind at 1.
  rewrite (parse_atom_literal _ _ _ b) by (reflexivity || assumption).
  rewrite fold_loop_end
    by (apply no_operator_leaf_Leaf, Hb || reflexivity).
  unfold pbind at 1, plift at 1, fold.
  destruct (decide (BINARYOP = UNARYOP)) as [?|_]; [discriminate|].
  destruct (literal_token_parts _ Ha) as (Hta & _).
  unfold is_token. cbn [Leaf Expr_tok Py.opt_truthy]. rewrite Hta. cbn [rbind].
  rewrite fold_loop_end; [reflexivity| |reflexivity].
  apply token_text_None_no_leaf. reflexivity.
Qed.

(** The value of a tree of two decimal literals. *)
Lemma evaluate_binary a op b :
  decimal_literal a = true -> binary_operator op = true ->
  decimal_literal b = true ->
  evaluate (BinaryNode op (Leaf a) (Leaf b))
  = apply_op op (VInt (decimal_value a)) (VInt (decimal_value b)).
Proof.
  intros Ha Hop Hb.
  assert (Hleaf : forall s, decimal_literal s = true ->
            evaluate (Leaf s) = ([], Ok (VInt (decimal_value s)))).
  { intros s Hs. destruct (decimal_literal_parts _ Hs) as (Hne & Hall & Hlen).
    unfold Leaf. cbn [evaluate]. fold (Leaf s).
    rewrite token_text_Leaf by (destruct s; [congruence|reflexivity]).
    rewrite (to_number_decimal _ Hne Hall Hlen). reflexivity. }
  assert (Ho : Py.str_truthy op = true).
  { apply binary_operator_cases in Hop. simpl in Hop.
    repeat (destruct Hop as [<-|Hop]; [reflexivity|]). destruct Hop. }
  unfold BinaryNode. cbn [evaluate]. unfold is_parenth_expr.
  cbn [Expr_op Py.opt_truthy]. rewrite Ho. cbn [negb andb].
  rewrite !operand_value, (Hleaf _ Ha), (Hleaf _ Hb).
  unfold bind at 1 2. cbn [app].
  destruct (apply_op op _ _) as [out r]. reflexivity.
Qed.

(** [parse] on the line [a op b], for decimal literals [a] and [b] and a
    binary operator [op], is the operator dispatch of [evaluate] on the
    integers they stand for. *)
Theorem parse_binary_line a op b :
  decimal_literal a = true -> binary_operator op = true ->
  decimal_literal b = true ->
  parse (binary_line a op b)
  = Some (apply_op op (VInt (decimal_value a)) (VInt (decimal_value b))).
Proof.
  intros Ha Hop Hb. unfold parse.
  rewrite (tokenise_binary_line _ _ _ Ha Hop Hb).
  rewrite (parse_expr_binary a op b)
    by auto using decimal_literal_token.
  rewrite (evaluate_binary _ _ _ Ha Hop Hb).
  destruct (apply_op op _ _) as [out r]. reflexivity.
Qed.

Example parse_binary_line_example :
  parse "12 * 3" = Some ([], Ok (VInt 36)) /\
  parse "7 + 2" = Some ([], Ok (VInt 5)).
Proof.
  split.
  - apply (parse_binary_line "12" "*" "3"); reflexivity.
  - apply (parse_binary_line "7" "+" "2"); reflexivity.
Qed.

(** * The claims of the specification *)

(** C1. The specification wants [Binary('+', x, y)] to evaluate to the
    sum [x + y], and ["1 + 2 * 3"] to 7. The evaluator computes the
    difference instead: on integers [x] and [y] the node evaluates to
    [x - y], the line [a + b] of two decimal literals to the difference
    of the integers they write, and ["1 + 2 * 3"] to [-5]. *)
Theorem C1_plus_subtracts :
  (forall x y : Z, apply_op "+" (VInt x) (VInt y) = ([], Ok (VInt (x - y)))) /\
  (forall a b : string,
     decimal_literal a = true -> decimal_literal b = true ->
     parse (binary_line a "+" b)
     = Some ([], Ok (VInt (decimal_value a - decimal_value b)))) /\
  parse_tree "1 + 2 * 3"
    = Some (BinaryNode "+" (Leaf "1") (BinaryNode "*" (Leaf "2") (Leaf "3"))) /\
  parse "1 + 2 * 3" = Some ([], Ok (VInt (-5))).
Proof.
  split; [|split; [|split]]; [intros x y; reflexivity | | |];
    [|vm_compute; reflexivity..].
  intros a b Ha Hb. rewrite parse_binary_line by (assumption || reflexivity).
  reflexivity.
Qed.

(** C2. Whatever the left operand [x] evaluates to, the expressions
    [x / 0] and [x % 0] report the error (["division by zero"],
    ["modulo by zero"]) after the output of [x], return no number, and
    raise nothing; so do the lines [a / 0] and [a % 0] for every decimal
    literal [a]. *)
Theorem C2_zero_divisor (x : Expr) (out : list string) (vx : value) :
  evaluate x = (out, Ok vx) ->
  evaluate (BinaryNode "/" x (Leaf "0"))
    = (out ++ ["Error: division by zero."], Ok VNone) /\
  evaluate (BinaryNode "%" x (Leaf "0"))
    = (out ++ ["Error: modulo by zero."], Ok VNone) /\
  (forall a : string, decimal_literal a = true ->
     parse (binary_line a "/" "0")
       = Some (["Error: division by zero."], Ok VNone) /\
     parse (binary_line a "%" "0")
       = Some (["Error: modulo by zero."], Ok VNone)).
Proof.
  intros Hx. split; [|split].
  3: { intros a Ha.
       rewrite !parse_binary_line by (assumption || reflexivity).
       split; reflexivity. }
  all: unfold BinaryNode, Leaf; cbn [evaluate].
  all: change (token_text (MkExpr None (Some "/") _ _)) with (@None string).
  all: change (token_text (MkExpr None (Some "%") _ _)) with (@None string).
  all: change (is_parenth_expr (MkExpr None (Some "/") _ _)) with false.
  all: change (is_parenth_expr (MkExpr None (Some "%") _ _)) with false.
  all: change (is_empty (MkExpr (Some "0") None None None)) with false.
  all: change (token_text (MkExpr (Some "0") None None None)) with (Some "0").
  all: cbv iota; rewrite operand_value, Hx, to_number_zero; reflexivity.
Qed.

(** C6. For every syntactically valid expression text, [parse] returns
    for the text in parentheses what it returns for the text itself: the
    same output and the same value. *)
Theorem C6_parentheses (text : string) :
  syntactically_valid text ->
  exists r, parse text = Some r /\ parse ("(" +:+ text +:+ ")") = Some r.
Proof.
  intros (Hscan & ops & tree & p & Hrun & Hidx).
  pose proof (parse_expr_parens _ _ _ _ Hrun Hidx) as Hpar. cbv zeta in Hpar.
  exists (evaluate tree). split.
  - unfold parse. destruct (tokenise text) as [|t ts] eqn:Etok.
    { vm_compute in Hrun. discriminate. }
    rewrite Hrun. unfold bind. destruct (evaluate tree). reflexivity.
  - unfold parse. rewrite (tokenise_parens _ Hscan), Hpar. unfold bind.
    rewrite evaluate_paren. destruct (evaluate tree). reflexivity.
Qed.

(** C8. [to_number] reads a literal by its format: hexadecimal after [0x]
    or [0X], octal after [0o], binary after [0b], a float when the text
    has a [.], an [e] or an [E], a decimal integer otherwise; digits
    after a prefix, and decimal digits alone, stand for the integer they
    write in that base. *)
Theorem C8_literal_formats :
  (forall tok, to_number tok = number_of_literal tok) /\
  (forall digits, digits <> EmptyString ->
     (all_digits 16 digits = true ->
      to_number ("0x" +:+ digits) = Ok (VInt (numeral 16 digits 0)) /\
      to_number ("0X" +:+ digits) = Ok (VInt (numeral 16 digits 0))) /\
     (all_digits 8 digits = true ->
      to_number ("0o" +:+ digits) = Ok (VInt (numeral 8 digits 0))) /\
     (all_digits 2 digits = true ->
      to_number ("0b" +:+ digits) = Ok (VInt (numeral 2 digits 0))) /\
     (all_digits 10 digits = true -> String.length digits <= 640 ->
      to_number digits = Ok (VInt (numeral 10 digits 0)))) /\
  to_number "0x7f" = Ok (VInt 127) /\
  to_number "0o7" = Ok (VInt 7) /\
  to_number "0b101" = Ok (VInt 5) /\
  to_number "5.0" = Ok (VFloat (F64.of_Z 5)).
Proof.
  split; [exact to_number_by_format|]. split.
  { intros digits Hne.
    destruct (to_number_prefixed _ Hne) as (H16 & H8 & H2).
    repeat (split; [assumption|]). apply to_number_decimal, Hne. }
  repeat split; vm_compute; reflexivity.
Qed.

(** C9. Where the text has a character that is no whitespace, does not
    start a predefined token and is no number character, [tokenise]
    stops: the tokens and the place it stops at are those of the text
    before that character, and nothing is raised. *)
Theorem C9_tokenise_stops (before : string) (c : ascii) (after : string) :
  stops_scan c = true ->
  tokenise_state (before +:+ String c after) = tokenise_state before /\
  tokenise (before +:+ String c after) = tokenise before.
Proof.
  intros Hc.
  assert (H : tokenise_state (before +:+ String c after)
              = tokenise_state before).
  { rewrite !tokenise_state_scan.
    destruct (stops_scan_parts _ Hc) as (Hw & Hp & Hn).
    rewrite scan_all_app by auto using starts_predefined_second.
    rewrite (scan_all_stops _ _ Hc).
    destruct (scan_all before) as [ts k].
    destruct (k =? String.length before)%nat; [|reflexivity].
    rewrite app_nil_r, Nat.add_0_r. reflexivity. }
  split; [exact H|]. unfold tokenise. rewrite H. reflexivity.
Qed.

(** C10. On the tokens of any line, [parse_expr] ends, every operator its
    fold loop looks up in [Op_Table] is there with the kind [BINARYOP],
    and no [TypeError] is raised: no token is the key of a unary
    operator. *)
Theorem C10_fold_binary_only (line : string) :
  (forall tok, In tok (tokenise line) -> ~ In tok ["+ x"; "- x"; "~ x"]) /\
  exists s,
    parse_expr (parse_fuel (tokenise line)) 0 (Parser_init (tokenise line))
      = Some s /\
    (forall op, In op (looked_up s) ->
       exists a n, Op_Table !! op = Some (BINARYOP, a, n)) /\
    ended s <> Raise TypeError.
Proof.
  split.
  { intros tok Hin%tokenise_tokens Hun.
    assert (Hd : exists d, op_info tok = Some d /\ fst (fst d) = UNARYOP).
    { simpl in Hun. destruct Hun as [<-|[<-|[<-|[]]]]; eexists; split;
        reflexivity. }
    destruct Hd as (d & Hd & Hk).
    destruct (scanned_token_binary _ _ Hin Hd) as (a & n & ->).
    discriminate. }
  destruct (parse_expr_fuel (tokenise line)) as [s Hs].
  exists s. split; [exact Hs|].
  destruct (parser_keeps (tokenise line) (parse_fuel (tokenise line)))
    as (_ & Ke & _).
  destruct (Ke 0 (Parser_init (tokenise line)) s eq_refl Hs) as (Hops & Hte & _).
  split; [|exact Hte].
  intros op Hop. destruct (Hops op Hop) as [Hin Htab].
  rewrite in_Op_Table_info in Htab. rewrite Op_Table_lookup.
  destruct (op_info op) as [d|] eqn:Ed; [|discriminate].
  destruct (scanned_token_binary _ _ (tokenise_tokens _ _ Hin) Ed)
    as (a & n & ->).
  eauto.
Qed.

(** ** Division and power of integers *)

Lemma py_float_int z f :
  py_float (VInt z) = Ok f ->
  f = F64.of_Z z /\
  (z = 0%Z /\ f = S754_zero false \/
   z <> 0%Z /\ exists m e, f = S754_finite (z <? 0)%Z m e /\
                           F64.is_integer f = true).
Proof.
  unfold py_float. intros H.
  destruct (Z.eq_dec z 0%Z) as [->|Hz].
  { injection H as <-. split; [reflexivity|]. left. split; reflexivity. }
  destruct (of_Z_shape z Hz) as [E|(m & e & E & Hi)]; rewrite E in H.
  - discriminate.
  - injection H as <-. split; [symmetry; exact E|]. right. split; [exact Hz|]. eauto.
Qed.




(** ** Modulo *)

(** C3, as the code has it. For numbers [x] and [y] where [int(y)] is
    defined and is zero only if [y] is (and converts to float if [x] is a
    float): the node reports ["modulo by zero"] and returns nothing
    exactly when [y] is zero, and returns [x mod int(y)] otherwise. *)
Theorem C3_modulo (x y : value) (n : Z) :
  x <> VNone -> py_int y = Ok n ->
  (n = 0%Z -> is_zero_number y = true) ->
  ((exists a, x = VInt a) \/ py_float (VInt n) = Ok (F64.of_Z n)) ->
  apply_op "%" x y
    = (if is_zero_number y then (["Error: modulo by zero."], Ok VNone)
       else ([], Ok (modulo_number x n))).
Proof.
  intros Hx Hy Hn Hconv. unfold apply_op.
  cbn [String.eqb Ascii.eqb Bool.eqb].
  assert (Ht : truthy y = negb (is_zero_number y)).
  { destruct y; try reflexivity. discriminate. }
  rewrite Ht. destruct (is_zero_number y) eqn:Ez; [reflexivity|].
  cbn [negb]. rewrite Hy. cbn [rbind lift].
  assert (Hnz : n <> 0%Z) by (intros ->; specialize (Hn eq_refl); discriminate).
  destruct x as [|a|f]; [contradiction| |].
  - unfold py_mod. rewrite (proj2 (Z.eqb_neq n 0) Hnz). reflexivity.
  - destruct Hconv as [[a [=]]|Hconv]. unfold py_mod. rewrite Hconv.
    cbn [rbind]. unfold float_rem.
    destruct (py_float_int _ _ Hconv) as (_ & [[? _]|(_ & m & e & E & _)]);
      [contradiction|].
    replace (F64.is_zero (F64.of_Z n)) with false by (rewrite E; reflexivity).
    reflexivity.
Qed.

(** A half is not zero, and the node neither reports an error nor
    returns: it raises, whatever the platform. *)
Lemma modulo_half_raises :
  is_zero_number (VFloat one_half) = false /\
  apply_op "%" (VInt 5) (VFloat one_half) = ([], Raise ZeroDivisionError).
Proof. split; vm_compute; reflexivity. Qed.

(** * More of the program: properties *)

(** ** The tokeniser: tokens and the text they come from *)

Lemma number_char_facts c :
  is_number_char c = true ->
  is_whitespace c = false /\ starts_predefined c = false /\
  second_of_predefined c = false.
Proof.
  destruct c as [[|] [|] [|] [|] [|] [|] [|] [|]];
    (intros H; vm_compute in H |- *; (discriminate H || (repeat split))).
Qed.

Lemma all_number_chars_run t :
  all_number_chars t = true -> number_run t = String.length t.
Proof.
  induction t as [|c t IH]; [reflexivity|]. cbn [all_number_chars number_run].
  intros [-> Ht]%andb_prop. cbn [String.length]. rewrite (IH Ht). reflexivity.
Qed.

Lemma without_whitespace_app s t :
  without_whitespace (s +:+ t) = without_whitespace s +:+ without_whitespace t.
Proof.
  induction s as [|c s IH]; [reflexivity|].
  change (String c s +:+ t) with (String c (s +:+ t)).
  cbn [without_whitespace]. destruct (is_whitespace c); [exact IH|].
  rewrite IH. reflexivity.
Qed.

Lemma without_whitespace_number t :
  all_number_chars t = true -> without_whitespace t = t.
Proof.
  induction t as [|c t IH]; [reflexivity|]. cbn [all_number_chars].
  intros [Hc Ht]%andb_prop. cbn [without_whitespace].
  destruct (number_char_facts _ Hc) as (-> & _). rewrite (IH Ht). reflexivity.
Qed.

Lemma without_whitespace_token t :
  scanned_token t -> without_whitespace t = t.
Proof.
  intros [Hin|[_ Hn]]; [|apply without_whitespace_number, Hn].
  simpl in Hin. repeat (destruct Hin as [<-|Hin]; [reflexivity|]). destruct Hin.
Qed.

(** A text is what it starts with and what is left. *)
Lemma substring_split n s :
  substring 0 n s +:+ Py.slice_from n s = s.
Proof.
  revert s; induction n as [|n IH]; intros s.
  - rewrite substring_0_0. reflexivity.
  - destruct s as [|c s]; [reflexivity|].
    change (String c (substring 0 n s +:+ Py.slice_from n s) = String c s).
    rewrite IH. reflexivity.
Qed.

Lemma substring_add n k s :
  n <= String.length s ->
  substring 0 (n + k) s = substring 0 n s +:+ substring 0 k (Py.slice_from n s).
Proof.
  revert s; induction n as [|n IH]; intros s H.
  - rewrite substring_0_0. reflexivity.
  - destruct s as [|c s]; [simpl in H; lia|]. cbn [String.length] in H.
    change (String c (substring 0 (n + k) s)
            = String c (substring 0 n s +:+ substring 0 k (Py.slice_from n s))).
    rewrite IH by lia. reflexivity.
Qed.

Lemma starts_with_substring tok s :
  starts_with tok s = true -> substring 0 (String.length tok) s = tok.
Proof.
  intros H. rewrite <- substring_starts_with in H. apply String.eqb_eq, H.
Qed.

(** The tokens, written one after the other, are the text that was read
    without its whitespace. *)
Lemma scan_all_concat s :
  concat_tokens (fst (scan_all s))
  = without_whitespace (substring 0 (snd (scan_all s)) s).
Proof.
  remember (String.length s) as n eqn:Hn.
  revert s Hn; induction n as [n IH] using lt_wf_ind; intros s Hn.
  destruct s as [|c s']; [reflexivity|].
  rewrite scan_all_cons. cbn [String.length] in Hn.
  destruct (is_whitespace c) eqn:Ew.
  { specialize (IH (String.length s') ltac:(lia) s' eq_refl).
    destruct (scan_all s') as [ts k]. cbn [fst snd] in *.
    cbn [Nat.add substring without_whitespace]. rewrite Ew. exact IH. }
  destruct (first_predefined (String c s')) as [tok|] eqn:Ef.
  { pose proof (first_predefined_length _ _ Ef) as Hpos.
    apply first_predefined_starts in Ef as [Hin Hs].
    pose proof (starts_with_length _ _ Hs) as Hlen. cbn [String.length] in Hlen.
    set (r := Py.slice_from (String.length tok) (String c s')) in *.
    assert (Hr : String.length r < n)
      by (unfold r; rewrite slice_from_length; cbn [String.length]; lia).
    specialize (IH _ Hr r eq_refl).
    destruct (scan_all r) as [ts k]. cbn [fst snd concat_tokens] in *.
    rewrite substring_add by (cbn [String.length]; lia).
    rewrite (starts_with_substring _ _ Hs), without_whitespace_app.
    rewrite without_whitespace_token by (left; exact Hin).
    fold r. rewrite IH. reflexivity. }
  cbv zeta. pose proof (number_run_le (String c s')) as Hle.
  cbn [String.length] in Hle.
  destruct (Nat.ltb_spec 0 (number_run (String c s'))) as [Hp|Hp];
    [|reflexivity].
  set (m := number_run (String c s')) in *.
  set (r := Py.slice_from m (String c s')) in *.
  assert (Hr : String.length r < n)
    by (unfold r; rewrite slice_from_length; cbn [String.length]; lia).
  specialize (IH _ Hr r eq_refl).
  destruct (scan_all r) as [ts k]. cbn [fst snd concat_tokens] in *.
  rewrite substring_add by (cbn [String.length]; lia).
  rewrite without_whitespace_app. fold r. rewrite IH.
  rewrite (without_whitespace_number (substring 0 m (String c s')))
    by apply substring_number_run.
  reflexivity.
Qed.

(** A token alone is read as itself, to its end. *)
Lemma scan_all_token t :
  scanned_token t -> scan_all t = ([t], String.length t).
Proof.
  intros [Hin|[Hne Hn]].
  { simpl in Hin.
    repeat (destruct Hin as [<-|Hin]; [vm_compute; reflexivity|]).
    destruct Hin. }
  destruct t as [|c t']; [congruence|].
  assert (Hc : is_number_char c = true).
  { cbn [all_number_chars] in Hn. apply andb_prop in Hn as [Hc _]. exact Hc. }
  destruct (number_char_facts _ Hc) as (Hw & Hp & _).
  rewrite scan_all_cons, Hw, (starts_predefined_first _ _ Hp). cbv zeta.
  rewrite (all_number_chars_run _ Hn), substring_all, slice_from_all.
  cbn [String.length Nat.ltb Nat.leb]. rewrite scan_all_empty.
  pair_eq.
Qed.

(** Tokens written with blanks between them are read back. *)
Lemma scan_all_joined ts :
  Forall scanned_token ts ->
  scan_all (joined ts) = (ts, String.length (joined ts)).
Proof.
  induction 1 as [|t ts Ht Hts IH]; [reflexivity|].
  destruct ts as [|t' ts]; [apply scan_all_token, Ht|].
  change (joined (t :: t' :: ts)) with (t +:+ String " " (joined (t' :: ts))).
  rewrite scan_all_app by reflexivity.
  rewrite (scan_all_token _ Ht), Nat.eqb_refl.
  rewrite scan_all_cons. change (is_whitespace " ") with true. cbv iota.
  rewrite IH. rewrite append_length. cbn [String.length app]. pair_eq.
Qed.

(** The predefined token the tokeniser takes is the longest one the text
    starts with. *)
Lemma first_predefined_longest s tok tok' :
  first_predefined s = Some tok ->
  In tok' Predefined_Tokens -> starts_with tok' s = true ->
  String.length tok' <= String.length tok.
Proof.
  unfold first_predefined, Predefined_Tokens. cbn [List.find].
  intros Hf Hin Hs.
  destruct (starts_with "**" s) eqn:E1;
    [injection Hf as <-; apply (predefined_short _ Hin)|].
  destruct (starts_with "<<" s) eqn:E2;
    [injection Hf as <-; apply (predefined_short _ Hin)|].
  destruct (starts_with ">>" s) eqn:E3;
    [injection Hf as <-; apply (predefined_short _ Hin)|].
  assert (Hone : String.length tok' = 1).
  { simpl in Hin.
    destruct Hin as [<-|[<-|[<-|Hin]]]; try congruence.
    repeat (destruct Hin as [<-|Hin]; [reflexivity|]). destruct Hin. }
  rewrite Hone.
  repeat match type of Hf with
  | (if ?b then _ else _) = _ =>
      destruct b; [injection Hf as <-; simpl; lia|]
  end.
  discriminate.
Qed.

(** ** The parser: trees, messages and exceptions *)

Section Outcome.

Variable ts : list string.

Hypothesis scanned : forall t, In t ts -> scanned_token t.

Lemma outcome_ret {A} given (a : A) (Q G : A -> Prop) :
  Q a -> (given -> G a) -> outcome ts given (pret a) Q G.
Proof.
  intros HQ HG p s Hp [= <-]. simpl. split; [constructor|]. auto.
Qed.

Lemma outcome_out_of_fuel {A} given (Q G : A -> Prop) :
  outcome ts given out_of_fuel Q G.
Proof. intros p s _ [=]. Qed.

Lemma outcome_bind {A B} given (m : parsing A) (k : A -> parsing B)
    (Q G : A -> Prop) (R H : B -> Prop) :
  outcome ts given m Q G ->
  (forall a, Q a -> outcome ts (given /\ G a) (k a) R H) ->
  outcome ts given (pbind m k) R H.
Proof.
  intros Hm Hk p s Hp Hs. unfold pbind in Hs.
  destruct (m p) as [[out ops r]|] eqn:Em; [|discriminate].
  destruct (Hm p _ Hp Em) as [HL Hr]. simpl in HL, Hr.
  destruct r as [[a p1]| e |]; [|injection Hs as <-; simpl; auto|destruct Hr].
  destruct Hr as (Ht & HQ & HG).
  destruct (k a p1) as [[out' ops' r']|] eqn:Ek; [|discriminate].
  injection Hs as <-. simpl.
  destruct (Hk a HQ p1 _ Ht Ek) as [KL Kr]. simpl in KL, Kr.
  split; [apply Forall_app; auto|].
  destruct r' as [[b p2]| e |]; [| |exact Kr].
  - destruct Kr as (Kt & KR & KH). split; [exact Kt|]. split; [exact KR|].
    intros Hg [-> ->]%app_eq_nil. apply KH; auto.
  - destruct Kr as [-> Kp]. split; [reflexivity|].
    intros Hg. destruct out as [|l out]; [|discriminate].
    simpl. apply Kp. auto.
Qed.

Lemma outcome_given {A} (given given' : Prop) (m : parsing A) Q G :
  (given -> given') -> outcome ts given' m Q G -> outcome ts given m Q G.
Proof.
  intros Hg Hm p s Hp Hs. destruct (Hm p s Hp Hs) as [HL Hr].
  split; [exact HL|].
  destruct (ended s) as [[a p']| e |]; [|destruct Hr; split; auto|exact Hr].
  destruct Hr as (? & ? & ?). auto.
Qed.

Lemma outcome_post {A} given (m : parsing A) (Q G Q' G' : A -> Prop) :
  outcome ts given m Q G ->
  (forall a, Q a -> Q' a) -> (forall a, Q a -> G a -> G' a) ->
  outcome ts given m Q' G'.
Proof.
  intros Hm HQ HG p s Hp Hs. destruct (Hm p s Hp Hs) as [HL Hr].
  split; [exact HL|].
  destruct (ended s) as [[a p']| e |]; [|exact Hr..].
  destruct Hr as (? & ? & ?). auto.
Qed.

Lemma outcome_parse_error given msg (G : unit -> Prop) :
  parser_message ts ("Parse error: " +:+ msg) ->
  outcome ts given (parse_error msg) (fun _ => True) G.
Proof.
  intros Hmsg p s Hp [= <-]. simpl.
  split; [constructor; [exact Hmsg | constructor]|].
  split; [exact Hp|]. split; [exact I|]. discriminate.
Qed.

Lemma outcome_get_curr_token given :
  outcome ts given get_curr_token
          (fun tok => forall t, tok = Some t -> In t ts) (fun _ => True).
Proof.
  intros p s Hp [= <-]. simpl. split; [constructor|].
  split; [exact Hp|]. split; [|auto].
  intros t Ht. unfold curr_token in Ht.
  destruct (current_index p <? length (current_tokens p))%nat; [|discriminate].
  rewrite Hp in Ht. apply list_elem_of_lookup_2, list_elem_of_In in Ht.
  exact Ht.
Qed.

Lemma outcome_get_next_token given :
  outcome ts given get_next_token (fun _ => True) (fun _ => True).
Proof.
  intros p s Hp [= <-]. simpl. split; [constructor|]. auto.
Qed.

Lemma outcome_note_lookup given op :
  outcome ts given (note_lookup op) (fun _ => True) (fun _ => True).
Proof.
  intros p s Hp [= <-]. simpl. split; [constructor|]. auto.
Qed.

Lemma outcome_plift {A} given (r : result A) (Q : A -> Prop) :
  match r with
  | Ok a => Q a
  | Raise e => e = KeyError /\ ~ given
  | Outside => False
  end ->
  outcome ts given (plift r) Q (fun _ => True).
Proof.
  intros Hr p s Hp [= <-]. simpl. split; [constructor|].
  destruct r as [a| e |]; simpl; [auto| |exact Hr].
  destruct Hr as [-> Hn]. split; [reflexivity|]. intros Hg. contradiction.
Qed.

Lemma scanned_token_nonempty t : scanned_token t -> Py.str_truthy t = true.
Proof.
  intros [Hin|[Hne _]]; [|destruct t; [congruence | reflexivity]].
  simpl in Hin. repeat (destruct Hin as [<-|Hin]; [reflexivity|]). destruct Hin.
Qed.

Lemma scanned_token_prefix tok :
  scanned_token tok -> Py.list_in tok ["-"; "+"; "~"; "not"] = true ->
  Op_Table_item (Some (tok +:+ " x")) = Ok (UNARYOP, RIGHT, 7) /\
  unary_key (tok +:+ " x") = true.
Proof.
  intros Hs. unfold Py.list_in. cbn [existsb].
  rewrite !orb_false_r, !orb_true_iff, !String.eqb_eq.
  intros [ -> | [ -> | [ -> | -> ] ] ];
    try (split; vm_compute; reflexivity).
  exfalso. destruct Hs as [Hin|[_ Hn]]; [|discriminate Hn].
  simpl in Hin. repeat (destruct Hin as [Hin|Hin]; [discriminate|]).
  destruct Hin.
Qed.

Lemma scanned_token_operator op :
  scanned_token op -> in_Op_Table op = true ->
  binary_operator op = true /\
  exists a n, Op_Table_item (Some op) = Ok (BINARYOP, a, n).
Proof.
  intros Hs Hin. rewrite in_Op_Table_info in Hin.
  destruct (op_info op) as [d|] eqn:Ed; [|discriminate].
  destruct (scanned_token_binary _ _ Hs Ed) as (a & n & ->).
  unfold binary_operator. rewrite Op_Table_item_info, Op_Table_lookup, Ed.
  eauto.
Qed.

Lemma parsed_no_operator_leaf e : parsed ts e -> no_operator_leaf e.
Proof.
  intros He t. destruct He; unfold token_text, is_token; simpl;
    try discriminate.
  destruct (Py.str_truthy tok); [|discriminate]. intros [= <-]. assumption.
Qed.

Lemma unary_key_nonempty op : unary_key op = true -> Py.str_truthy op = true.
Proof. destruct op; [vm_compute; discriminate | reflexivity]. Qed.

Lemma binary_operator_nonempty op :
  binary_operator op = true -> Py.str_truthy op = true.
Proof. destruct op; [vm_compute; discriminate | reflexivity]. Qed.

Lemma unary_key_item op :
  unary_key op = true -> exists d, Op_Table_item (Some op) = Ok d.
Proof.
  unfold unary_key, Op_Table_item. destruct (Op_Table !! op); [eauto|].
  discriminate.
Qed.

(** The update of the left-hand side at the end of an iteration. *)
Lemma fold_outcome op a n lhs r :
  binary_operator op = true -> In op ts -> parsed ts lhs -> parsed ts r ->
  match fold op BINARYOP a n (Some lhs) (Some r) with
  | Ok e => parsed ts e /\ has_shape e
  | Raise ex => ex = KeyError /\ ~ has_shape lhs
  | Outside => False
  end.
Proof.
  intros Hop Hin Hl Hr.
  assert (Hnew : forall l, parsed ts l ->
            parsed ts (MkExpr None (Some op) (Some l) (Some r)) /\
            has_shape (MkExpr None (Some op) (Some l) (Some r))).
  { intros l Hpl. split; [constructor; assumption|].
    right. right. cbn [Expr_op].
    destruct (binary_operator_info _ Hop) as (_ & a' & n' & -> & _). eauto. }
  unfold fold. destruct (decide (BINARYOP = UNARYOP)) as [?|_]; [discriminate|].
  destruct Hl as [|tok Htok Hnop|e He|uop e Hu He|bop l r' Hb Hbin Hl' Hr'].
  - cbn. split; [reflexivity|].
    intros [H|[H|[d H]]]; discriminate.
  - unfold is_token. cbn [Expr_tok Py.opt_truthy].
    rewrite (scanned_token_nonempty _ (scanned _ Htok)).
    apply Hnew. constructor; assumption.
  - cbn. split; [constructor; assumption|].
    right. right. cbn [Expr_op].
    destruct (binary_operator_info _ Hop) as (_ & a' & n' & -> & _). eauto.
  - unfold is_token, is_parenth_expr. cbn [Expr_tok Expr_op Py.opt_truthy].
    rewrite (unary_key_nonempty _ Hu). cbn [negb andb].
    cbn [Expr_op]. destruct (unary_key_item _ Hu) as [[[pk pa] pn] ->].
    cbn [rbind]. destruct (_ && _); [apply Hnew; constructor; assumption|].
    destruct (decide (BINARYOP = UNARYOP)) as [?|_]; [discriminate|].
    destruct (decide (BINARYOP = BINARYOP)) as [_|?]; [|contradiction].
    apply Hnew. constructor; assumption.
  - unfold is_token, is_parenth_expr. cbn [Expr_tok Expr_op Py.opt_truthy].
    rewrite (binary_operator_nonempty _ Hb). cbn [negb andb].
    cbn [Expr_op].
    destruct (binary_operator_info _ Hb) as (_ & pa & pn & -> & _).
    cbn [rbind]. destruct (_ && _); [apply Hnew; constructor; assumption|].
    destruct (decide (BINARYOP = UNARYOP)) as [?|_]; [discriminate|].
    destruct (decide (BINARYOP = BINARYOP)) as [_|?]; [|contradiction].
    apply Hnew. constructor; assumption.
Qed.

Lemma outcome_candidate given lhs :
  parsed ts lhs ->
  outcome ts given (candidate lhs)
    (fun found => forall op l, found = Some (op, l) ->
       In op ts /\ in_Op_Table op = true /\ l = Some lhs)
    (fun _ => True).
Proof.
  intros Hl%parsed_no_operator_leaf.
  assert (H : outcome ts given
      (pbind get_curr_token (fun tok =>
         match tok with
         | None => pret None
         | Some tok =>
             if negb (in_Op_Table tok) then pret None
             else pret (Some (tok, Some lhs))
         end))
      (fun found => forall op l, found = Some (op, l) ->
         In op ts /\ in_Op_Table op = true /\ l = Some lhs)
      (fun _ => True)).
  { eapply outcome_bind; [apply outcome_get_curr_token|].
    intros [tok|] Htok; [|apply outcome_ret; [discriminate | auto]].
    destruct (in_Op_Table tok) eqn:E; simpl;
      (apply outcome_ret; [|auto]); [|discriminate].
    intros op l [= <- <-]. auto. }
  unfold candidate. destruct (token_text lhs) as [t|] eqn:Et; [|exact H].
  rewrite (Hl t Et). exact H.
Qed.

(** Every run of the parser on scanned tokens: the tree it returns, the
    lines it prints and the exception it may raise. *)
Theorem parser_outcome fuel :
  (forall min_prec,
     outcome ts True (parse_atom fuel min_prec) (parsed ts) has_shape) /\
  (forall min_prec,
     outcome ts True (parse_expr fuel min_prec)
             (fun r => exists e, r = Some e /\ parsed ts e)
             (fun _ => True)) /\
  (forall min_prec lhs, parsed ts lhs ->
     outcome ts (has_shape lhs) (fold_loop fuel min_prec lhs)
             (fun r => exists e, r = Some e /\ parsed ts e)
             (fun _ => True)).
Proof.
  induction fuel as [|fuel (IHa & IHe & IHl)].
  { split; [|split]; intros; apply outcome_out_of_fuel. }
  split; [|split].
  - intros min_prec. cbn [parse_atom].
    eapply outcome_bind; [apply outcome_get_curr_token|].
    intros [tok|] Htok.
    2:{ eapply outcome_bind;
          [apply outcome_parse_error with (G := fun _ => False); left;
           reflexivity|].
        intros ? _. apply outcome_ret; [constructor|]. intros (_ & []). }
    specialize (Htok tok eq_refl). pose proof (scanned _ Htok) as Hs.
    destruct (String.eqb tok "(").
    { eapply outcome_bind; [apply outcome_get_next_token|]. intros ? _.
      eapply outcome_bind; [eapply outcome_given; [|apply IHe]; auto|].
      intros subexpr (e & -> & He).
      eapply outcome_bind; [apply outcome_get_curr_token|]. intros closing _.
      eapply outcome_bind with (Q := fun _ => True) (G := fun _ => True).
      { destruct (bool_decide _); [apply outcome_ret; auto|].
        apply outcome_parse_error. right. left. reflexivity. }
      intros ? _.
      eapply outcome_bind; [apply outcome_get_next_token|]. intros ? _.
      apply outcome_ret; [constructor; exact He|].
      intros _. right. left. reflexivity. }
    destruct (Py.list_in tok _) eqn:Epre.
    { destruct (scanned_token_prefix _ Hs Epre) as [Hitem Hkey].
      rewrite Hitem.
      eapply outcome_bind with (Q := fun d => d = (UNARYOP, RIGHT, 7));
        [apply outcome_plift; reflexivity|].
      intros d ->. cbv zeta beta iota.
      eapply outcome_bind; [apply outcome_get_next_token|]. intros ? _.
      eapply outcome_bind; [eapply outcome_given; [|apply IHe]; auto|].
      intros subexpr (e & -> & He).
      apply outcome_ret; [constructor; assumption|].
      intros _. right. right. cbn [Expr_op]. rewrite Hitem. eauto. }
    destruct (in_Op_Table tok) eqn:Eop.
    { eapply outcome_bind;
        [apply outcome_parse_error with (G := fun _ => False); right; right;
         exists tok; auto|].
      intros ? _. apply outcome_ret; [constructor|]. intros (_ & []). }
    eapply outcome_bind; [apply outcome_get_next_token|]. intros ? _.
    apply outcome_ret; [constructor; assumption|].
    intros _. left. unfold is_token. cbn [Expr_tok Py.opt_truthy].
    rewrite (scanned_token_nonempty _ Hs). reflexivity.
  - intros min_prec. cbn [parse_expr].
    eapply outcome_bind; [apply IHa|]. intros lhs Hlhs.
    eapply outcome_given; [|apply IHl, Hlhs]. tauto.
  - intros min_prec lhs Hlhs. cbn [fold_loop].
    eapply outcome_bind; [apply outcome_candidate, Hlhs|].
    intros [[op l]|] Hfound; [|apply outcome_ret; eauto].
    destruct (Hfound op l eq_refl) as (Hin & Hop & ->).
    destruct (scanned_token_operator _ (scanned _ Hin) Hop)
      as (Hbin & a & n & Hitem).
    rewrite Hitem.
    eapply outcome_bind with (Q := fun d => d = (BINARYOP, a, n));
      [apply outcome_plift; reflexivity|].
    intros d ->. cbv zeta beta iota.
    eapply outcome_bind; [apply outcome_note_lookup|]. intros ? _.
    destruct (n <? min_prec)%nat; [apply outcome_ret; eauto|].
    eapply outcome_bind; [apply outcome_get_next_token|]. intros ? _.
    eapply outcome_bind; [eapply outcome_given; [|apply IHe]; auto|].
    intros rhs (r & -> & Hr).
    pose proof (fold_outcome op a n lhs r Hbin Hin Hlhs Hr) as Hfold.
    eapply outcome_bind with (Q := fun e => parsed ts e /\ has_shape e).
    { apply outcome_plift.
      destruct (fold op BINARYOP a n (Some lhs) (Some r)) as [e|ex|];
        [exact Hfold| |exact Hfold].
      destruct Hfold as [-> Hn]. split; [reflexivity|]. tauto. }
    intros lhs' [Hp Hsh].
    eapply outcome_given; [|apply IHl, Hp]. intros _. exact Hsh.
Qed.

End Outcome.

(** ** The parser: steps of the fold loop *)

Lemma fold_loop_break fuel min_prec lhs p op kind a n :
  no_operator_leaf lhs -> curr_token p = Some op -> in_Op_Table op = true ->
  Op_Table_item (Some op) = Ok (kind, a, n) -> n < min_prec ->
  fold_loop (S fuel) min_prec lhs p = Some (Steps [] [op] (Ok (Some lhs, p))).
Proof.
  intros Hl Hp Hin Hitem Hn. rewrite fold_loop_S. unfold pbind at 1.
  rewrite (candidate_operator _ op _ Hl Hp Hin).
  unfold pbind at 1, plift at 1. rewrite Hitem. cbn [rbind].
  unfold pbind at 1, note_lookup at 1.
  destruct (Nat.ltb_spec n min_prec); [reflexivity | lia].
Qed.

Lemma fold_loop_step fuel min_prec lhs p op a n out ops rhs p2 lhs' :
  no_operator_leaf lhs -> curr_token p = Some op -> in_Op_Table op = true ->
  Op_Table_item (Some op) = Ok (BINARYOP, a, n) -> min_prec <= n ->
  parse_expr fuel (if decide (a = LEFT) then n + 1 else n) (advance p)
    = Some (Steps out ops (Ok (rhs, p2))) ->
  fold op BINARYOP a n (Some lhs) rhs = Ok lhs' ->
  fold_loop (S fuel) min_prec lhs p
  = match fold_loop fuel min_prec lhs' p2 with
    | Some (Steps o l r) => Some (Steps (out ++ o) (op :: ops ++ l) r)
    | None => None
    end.
Proof.
  intros Hl Hp Hin Hitem Hn Hrhs Hfold. rewrite fold_loop_S. unfold pbind at 1.
  rewrite (candidate_operator _ op _ Hl Hp Hin).
  unfold pbind at 1, plift at 1. rewrite Hitem. cbn [rbind].
  unfold pbind at 1, note_lookup at 1.
  destruct (Nat.ltb_spec n min_prec); [lia|].
  unfold pbind at 1, get_next_token at 1.
  unfold pbind at 1. rewrite Hrhs.
  unfold pbind at 1, plift at 1. rewrite Hfold. cbn [rbind].
  destruct (fold_loop fuel min_prec lhs' p2) as [[o l r]|]; reflexivity.
Qed.

Lemma fold_token op a n l rhs :
  is_token l = true ->
  fold op BINARYOP a n (Some l) rhs = Ok (MkExpr None (Some op) (Some l) rhs).
Proof.
  intros Hl. unfold fold.
  destruct (decide (BINARYOP = UNARYOP)) as [?|_]; [discriminate|].
  rewrite Hl. reflexivity.
Qed.

Lemma fold_binary op a n o1 x y rhs :
  binary_operator o1 = true ->
  fold op BINARYOP a n (Some (BinaryNode o1 x y)) rhs
  = Ok (MkExpr None (Some op) (Some (BinaryNode o1 x y)) rhs).
Proof.
  intros H1. unfold fold.
  destruct (decide (BINARYOP = UNARYOP)) as [?|_]; [discriminate|].
  unfold is_token, is_parenth_expr, BinaryNode.
  cbn [Expr_tok Expr_op Py.opt_truthy].
  replace (Py.str_truthy o1) with true
    by (destruct o1; [vm_compute in H1; discriminate | reflexivity]).
  cbn [negb andb Expr_op].
  destruct (binary_operator_info _ H1) as (_ & pa & pn & -> & _).
  cbn [rbind]. destruct (_ && _); [reflexivity|].
  destruct (decide (BINARYOP = UNARYOP)) as [?|_]; [discriminate|].
  destruct (decide (BINARYOP = BINARYOP)) as [_|?]; [reflexivity|contradiction].
Qed.

Lemma number_token_parts t :
  number_token t = true -> scanned_token t /\ literal_token t = true.
Proof.
  unfold number_token. intros [Ht Hn]%andb_prop.
  assert (Hs : scanned_token t).
  { right. split; [intros ->; discriminate | exact Hn]. }
  split; [exact Hs|].
  destruct t as [|c t']; [discriminate|].
  cbn [all_number_chars] in Hn. apply andb_prop in Hn as [Hc _].
  destruct (number_char_facts _ Hc) as (_ & Hp & _).
  assert (Hk : forall c' k, starts_predefined c' = true \/ c' = "n"%char ->
            String.eqb (String c t') (String c' k) = false).
  { intros c' k Hc'. destruct (String.eqb_spec (String c t') (String c' k))
      as [[= -> _]|]; [|reflexivity].
    destruct Hc' as [Hc'| ->]; [congruence | discriminate Hc]. }
  unfold literal_token, Py.list_in. cbn [existsb Py.str_truthy].
  rewrite in_Op_Table_info. unfold op_info.
  rewrite !Hk by ((left; reflexivity) || (right; reflexivity)). reflexivity.
Qed.

Lemma binary_operator_scanned op :
  binary_operator op = true -> scanned_token op.
Proof.
  intros H%binary_operator_cases. left. simpl in H |- *.
  repeat (destruct H as [<-|H]; [auto 20|]). destruct H.
Qed.

(** The tokens of a line of literals and operators. *)
Lemma tokenise_joined ts :
  Forall scanned_token ts -> tokenise (joined ts) = ts.
Proof.
  intros H. unfold tokenise. rewrite tokenise_state_scan, (scan_all_joined _ H).
  reflexivity.
Qed.

(** How two operators between three literals group. *)
Lemma parse_expr_three a o1 b o2 c :
  literal_token a = true -> literal_token b = true ->
  literal_token c = true ->
  binary_operator o1 = true -> binary_operator o2 = true ->
  let ts := [a; o1; b; o2; c] in
  exists ops,
    parse_expr (parse_fuel ts) 0 (Parser_init ts)
    = Some (Steps [] ops
        (Ok (Some (if groups_left o1 o2
                   then BinaryNode o2 (BinaryNode o1 (Leaf a) (Leaf b)) (Leaf c)
                   else BinaryNode o1 (Leaf a) (BinaryNode o2 (Leaf b) (Leaf c))),
             {| current_tokens := ts; current_index := 5 |}))).
Proof.
  intros Ha Hb Hc H1 H2 ts.
  destruct (binary_operator_info _ H1) as (Hin1 & a1 & n1 & Hitem1 & Hinfo1).
  destruct (binary_operator_info _ H2) as (Hin2 & a2 & n2 & Hitem2 & Hinfo2).
  pose proof (no_operator_leaf_Leaf _ Ha) as La.
  pose proof (no_operator_leaf_Leaf _ Hb) as Lb.
  pose proof (no_operator_leaf_Leaf _ Hc) as Lc.
  assert (Ta : is_token (Leaf a) = true).
  { unfold is_token. cbn. destruct (literal_token_parts _ Ha) as (-> & _).
    reflexivity. }
  assert (Tb : is_token (Leaf b) = true).
  { unfold is_token. cbn. destruct (literal_token_parts _ Hb) as (-> & _).
    reflexivity. }
  assert (Hg : groups_left o1 o2
               = (n2 <? (if decide (a1 = LEFT) then n1 + 1 else n1))%nat).
  { unfold groups_left. rewrite !Op_Table_lookup, Hinfo1, Hinfo2.
    destruct (decide (a1 = LEFT)) as [Hl|Hl].
    - rewrite bool_decide_eq_true_2 by exact Hl.
      destruct (Nat.ltb_spec n2 n1), (Nat.eqb_spec n2 n1),
        (Nat.ltb_spec n2 (n1 + 1)); simpl; try reflexivity; lia.
    - rewrite bool_decide_eq_false_2 by exact Hl.
      rewrite andb_false_r, orb_false_r. reflexivity. }
  set (p0 := Parser_init ts).
  set (p1 := advance p0). set (p2 := advance p1). set (p3 := advance p2).
  set (p4 := advance p3). set (p5 := advance p4).
  assert (Hlast : forall fuel nm,
            parse_expr (S (S fuel)) nm p4
            = Some (Steps [] [] (Ok (Some (Leaf c), p5)))).
  { intros fuel nm. rewrite parse_expr_S. unfold pbind at 1.
    rewrite (parse_atom_literal _ _ _ c) by (reflexivity || assumption).
    rewrite fold_loop_end by (assumption || reflexivity). reflexivity. }
  change (parse_fuel ts) with 12. rewrite parse_expr_S. unfold pbind at 1.
  rewrite (parse_atom_literal _ _ _ a) by (reflexivity || assumption).
  fold p1. rewrite Hg.
  destruct (Nat.ltb_spec n2 (if decide (a1 = LEFT) then n1 + 1 else n1))
    as [Hlt|Hge].
  - (* the second operator is left to the caller *)
    erewrite (fold_loop_step 10 0 (Leaf a) p1 o1 a1 n1);
      [|assumption|reflexivity|assumption|exact Hitem1|lia| |apply fold_token, Ta].
    2:{ fold p2. rewrite parse_expr_S. unfold pbind at 1.
        rewrite (parse_atom_literal _ _ _ b) by (reflexivity || assumption).
        fold p3.
        rewrite (fold_loop_break _ _ _ p3 o2 BINARYOP a2 n2)
          by (assumption || reflexivity). reflexivity. }
    erewrite (fold_loop_step 9 0 _ p3 o2 a2 n2);
      [|apply token_text_None_no_leaf; reflexivity|reflexivity|assumption
       |exact Hitem2|lia|apply Hlast|apply (fold_binary _ _ _ _ _ _ _ H1)].
    rewrite fold_loop_end;
      [|apply token_text_None_no_leaf; reflexivity|reflexivity].
    eexists. reflexivity.
  - (* the second operator is taken by the inner call *)
    erewrite (fold_loop_step 10 0 (Leaf a) p1 o1 a1 n1);
      [|assumption|reflexivity|assumption|exact Hitem1|lia| |apply fold_token, Ta].
    2:{ fold p2. rewrite parse_expr_S. unfold pbind at 1.
        rewrite (parse_atom_literal _ _ _ b) by (reflexivity || assumption).
        fold p3.
        erewrite (fold_loop_step 8 _ (Leaf b) p3 o2 a2 n2);
          [|assumption|reflexivity|assumption|exact Hitem2|exact Hge
           |apply Hlast|apply fold_token, Tb].
        rewrite fold_loop_end;
          [|apply token_text_None_no_leaf; reflexivity|reflexivity].
        reflexivity. }
    rewrite fold_loop_end;
      [|apply token_text_None_no_leaf; reflexivity|reflexivity].
    eexists. reflexivity.
Qed.

(** ** The parser on a part of the tokens *)

Section Within.

Variables pre suf : list string.

(** What follows the part does not start with an operator. *)
Hypothesis suf_head : forall t, head suf = Some t -> in_Op_Table t = false.

Abbreviation anywhere := (fun _ : Parser => True).

Lemma curr_token_within p q :
  within pre suf p q ->
  curr_token q = curr_token p \/
  (curr_token p = None /\ curr_token q = head suf).
Proof.
  intros (Ht & Hi & Hle). unfold curr_token. rewrite Ht, Hi, !length_app.
  destruct (Nat.ltb_spec (current_index p) (length (current_tokens p)))
    as [Hlt|Hge].
  - left.
    destruct (Nat.ltb_spec (length pre + current_index p)
                (length pre + (length (current_tokens p) + length suf)));
      [|lia].
    rewrite lookup_app_r by lia.
    replace (length pre + current_index p - length pre)
      with (current_index p) by lia.
    rewrite lookup_app_l by lia. reflexivity.
  - right. split; [reflexivity|].
    destruct (Nat.ltb_spec (length pre + current_index p)
                (length pre + (length (current_tokens p) + length suf)))
      as [Hlt|Hge'].
    + rewrite lookup_app_r by lia. rewrite lookup_app_r by lia.
      replace (length pre + current_index p - length pre
               - length (current_tokens p)) with 0 by lia.
      destruct suf; reflexivity.
    + destruct suf as [|t suf']; [reflexivity|]. simpl in Hge'. lia.
Qed.

Lemma within_advance p q :
  curr_token p <> None ->
  within pre suf p q -> within pre suf (advance p) (advance q).
Proof.
  intros Hc (Ht & Hi & Hle). unfold curr_token in Hc.
  destruct (Nat.ltb_spec (current_index p) (length (current_tokens p)));
    [|contradiction].
  split; [exact Ht|]. simpl. lia.
Qed.

Lemma follows_ret {A} P (a : A) : follows pre suf P (pret a) (pret a).
Proof.
  intros p q s a' p1 _ He [= <-] _ [= <- <-]. eexists.
  split; [reflexivity | exact He].
Qed.

Lemma follows_out_of_fuel {A} P (m' : parsing A) :
  follows pre suf P out_of_fuel m'.
Proof. intros p q s a p1 _ _ [=]. Qed.

Lemma follows_pre {A} (P P' : Parser -> Prop) (m m' : parsing A) :
  (forall p, P p -> P' p) -> follows pre suf P' m m' -> follows pre suf P m m'.
Proof. intros HP Hm p q s a p1 Hp. apply Hm, HP, Hp. Qed.

Lemma follows_bind {A B} P (Q : A -> Prop) (m m' : parsing A)
    (k k' : A -> parsing B) :
  follows pre suf P m m' ->
  (forall p s a p1, m p = Some s -> ended s = Ok (a, p1) -> Q a) ->
  (forall a, Q a -> follows pre suf anywhere (k a) (k' a)) ->
  follows pre suf P (pbind m k) (pbind m' k').
Proof.
  intros Hm HQ Hk p q s b p2 Hp He Hs Hout Hend. unfold pbind in Hs.
  destruct (m p) as [[out ops r]|] eqn:Em; [|discriminate].
  destruct r as [[a p1]| |]; try (injection Hs as <-; discriminate).
  destruct (k a p1) as [[out' ops' r']|] eqn:Ek; [|discriminate].
  injection Hs as <-. simpl in Hout, Hend.
  apply app_eq_nil in Hout as [-> ->]. subst r'.
  destruct (Hm p q _ a p1 Hp He Em eq_refl eq_refl) as (q1 & Hq & He1).
  pose proof (HQ _ _ _ _ Em eq_refl) as Ha.
  destruct (Hk a Ha p1 q1 _ b p2 I He1 Ek eq_refl eq_refl) as (q2 & Hq2 & He2).
  exists q2. split; [|exact He2]. unfold pbind. rewrite Hq, Hq2. reflexivity.
Qed.

Lemma follows_printed {A} P (m m' : parsing A) :
  (forall p s, m p = Some s -> printed s <> []) -> follows pre suf P m m'.
Proof. intros H p q s a p1 _ _ Hs Hout. apply H in Hs. contradiction. Qed.

Lemma follows_parse_error {B} P msg (k : unit -> parsing B) (m' : parsing B) :
  follows pre suf P (pbind (parse_error msg) k) m'.
Proof.
  apply follows_printed. intros p s. unfold pbind, parse_error.
  destruct (k tt p) as [[out ops r]|]; [|discriminate].
  intros [= <-]. discriminate.
Qed.

(** A step that does not look at the state and does not change it. *)
Lemma follows_const {A B} P out ops (a : A) (m : parsing A)
    (k : A -> parsing B) :
  (forall p, m p = Some (Steps out ops (Ok (a, p)))) ->
  follows pre suf P (k a) (k a) ->
  follows pre suf P (pbind m k) (pbind m k).
Proof.
  intros Hm Hk p q s b p2 Hp He Hs Hout Hend. unfold pbind in Hs |- *.
  rewrite Hm in Hs |- *.
  destruct (k a p) as [[out' ops' r']|] eqn:Ek; [|discriminate].
  injection Hs as <-. simpl in Hout, Hend.
  apply app_eq_nil in Hout as [-> ->]. subst r'.
  destruct (Hk p q _ b p2 Hp He Ek eq_refl eq_refl) as (q2 & Hq2 & He2).
  exists q2. rewrite Hq2. auto.
Qed.

Lemma follows_plift {A B} P (r : result A) (k : A -> parsing B) :
  (forall a, r = Ok a -> follows pre suf P (k a) (k a)) ->
  follows pre suf P (pbind (plift r) k) (pbind (plift r) k).
Proof.
  intros Hk. destruct r as [a| e |].
  - apply follows_const with (out := []) (ops := []) (a := a);
      [reflexivity | apply Hk; reflexivity].
  - intros p q s b p2 _ _ [= <-] _ [=].
  - intros p q s b p2 _ _ [= <-] _ [=].
Qed.

Lemma follows_note_lookup {B} P op (k : unit -> parsing B) :
  follows pre suf P (k tt) (k tt) ->
  follows pre suf P (pbind (note_lookup op) k) (pbind (note_lookup op) k).
Proof.
  intros Hk. apply follows_const with (out := []) (ops := [op]) (a := tt);
    [reflexivity | exact Hk].
Qed.

Lemma follows_skip_token {B} (k : parsing B) :
  follows pre suf anywhere k k ->
  follows pre suf (fun p => curr_token p <> None)
          (pbind get_next_token (fun _ => k))
          (pbind get_next_token (fun _ => k)).
Proof.
  intros Hk p q s b p2 Hp He Hs Hout Hend.
  unfold pbind, get_next_token in Hs |- *.
  destruct (k (advance p)) as [[out ops r]|] eqn:Ek; [|discriminate].
  injection Hs as <-. simpl in Hout, Hend. subst.
  destruct (Hk _ _ _ b p2 I (within_advance _ _ Hp He) Ek eq_refl eq_refl)
    as (q2 & Hq2 & He2).
  exists q2. rewrite Hq2. auto.
Qed.

(** Reading the current token: the same token, or the first token after
    the part where the part is at its end. *)
Lemma follows_get_curr_token {B} P (k : option string -> parsing B) :
  (forall tok,
     follows pre suf (fun p => P p /\ curr_token p = tok) (k tok) (k tok)) ->
  follows pre suf (fun p => P p /\ curr_token p = None)
          (k None) (k (head suf)) ->
  follows pre suf P (pbind get_curr_token k) (pbind get_curr_token k).
Proof.
  intros Hk Hend p q s b p2 Hp He Hs Hout Hok.
  unfold pbind, get_curr_token in Hs |- *.
  destruct (k (curr_token p) p) as [[out ops r]|] eqn:Ek; [|discriminate].
  injection Hs as <-. simpl in Hout, Hok. subst.
  destruct (curr_token_within _ _ He) as [Hc|[Hn Hc]].
  - rewrite Hc.
    destruct (Hk _ _ _ _ b p2 (conj Hp eq_refl) He Ek eq_refl eq_refl)
      as (q2 & Hq2 & He2).
    exists q2. rewrite Hq2. auto.
  - rewrite Hc. rewrite Hn in Ek.
    destruct (Hend _ _ _ b p2 (conj Hp Hn) He Ek eq_refl eq_refl)
      as (q2 & Hq2 & He2).
    exists q2. rewrite Hq2. auto.
Qed.

(** The fold loop looks for its operator. *)
Lemma follows_candidate {B} lhs
    (k : option (string * option Expr) -> parsing B) :
  no_operator_leaf lhs ->
  follows pre suf anywhere (k None) (k None) ->
  (forall op, in_Op_Table op = true ->
     follows pre suf (fun p => curr_token p = Some op)
             (k (Some (op, Some lhs))) (k (Some (op, Some lhs)))) ->
  follows pre suf anywhere (pbind (candidate lhs) k) (pbind (candidate lhs) k).
Proof.
  intros Hl Hnone Hsome p q s b p2 _ He Hs Hout Hok.
  assert (Hc : forall r, candidate lhs r
            = Some (Steps [] []
                (Ok (match curr_token r with
                     | None => None
                     | Some tok => if negb (in_Op_Table tok) then None
                                   else Some (tok, Some lhs)
                     end, r)))).
  { intros r. unfold candidate.
    assert (H : pbind get_curr_token (fun tok =>
                  match tok with
                  | None => pret None
                  | Some tok =>
                      if negb (in_Op_Table tok) then pret None
                      else pret (Some (tok, Some lhs))
                  end) r
                = Some (Steps [] []
                    (Ok (match curr_token r with
                         | None => None
                         | Some tok => if negb (in_Op_Table tok) then None
                                       else Some (tok, Some lhs)
                         end, r)))).
    { unfold pbind, get_curr_token.
      destruct (curr_token r) as [tok|]; [|reflexivity].
      destruct (negb (in_Op_Table tok)); reflexivity. }
    destruct (token_text lhs) as [t|] eqn:Et; [|exact H].
    rewrite (Hl t Et). exact H. }
  unfold pbind in Hs |- *. rewrite Hc in Hs |- *.
  assert (Hrun : forall found,
            (found = None \/
             exists op, found = Some (op, Some lhs) /\ in_Op_Table op = true /\
                        curr_token p = Some op) ->
            match k found p with
            | Some (Steps out' ops' r) => Some (Steps ([] ++ out') ([] ++ ops') r)
            | None => None
            end = Some s ->
            exists q1,
              match k found q with
              | Some (Steps out' ops' r) =>
                  Some (Steps ([] ++ out') ([] ++ ops') r)
              | None => None
              end = Some (Steps [] (looked_up s) (Ok (b, q1))) /\
              within pre suf p2 q1).
  { intros found Hfound Hrun.
    destruct (k found p) as [[out' ops' r']|] eqn:Ek; [|discriminate].
    injection Hrun as <-. simpl in Hout, Hok |- *. subst.
    destruct Hfound as [->|(op & -> & Hop & Hcur)].
    - destruct (Hnone _ _ _ b p2 I He Ek eq_refl eq_refl) as (q2 & -> & He2).
      eauto.
    - destruct (Hsome op Hop _ _ _ b p2 Hcur He Ek eq_refl eq_refl)
        as (q2 & -> & He2).
      eauto. }
  destruct (curr_token_within _ _ He) as [Hq|[Hn Hq]]; rewrite Hq.
  - apply Hrun; [|exact Hs].
    destruct (curr_token p) as [tok|]; [|auto].
    destruct (in_Op_Table tok) eqn:E; simpl; eauto 6.
  - rewrite Hn in Hs.
    replace (match head suf with
             | Some tok => if negb (in_Op_Table tok) then None
                           else Some (tok, Some lhs)
             | None => None
             end) with (@None (string * option Expr)).
    + apply Hrun; auto.
    + destruct (head suf) as [t|] eqn:Eh; [|reflexivity].
      rewrite (suf_head t eq_refl). reflexivity.
Qed.

Theorem parser_follows fuel :
  (forall min_prec,
     follows pre suf anywhere (parse_atom fuel min_prec)
             (parse_atom fuel min_prec)) /\
  (forall min_prec,
     follows pre suf anywhere (parse_expr fuel min_prec)
             (parse_expr fuel min_prec)) /\
  (forall min_prec lhs, no_operator_leaf lhs ->
     follows pre suf anywhere (fold_loop fuel min_prec lhs)
             (fold_loop fuel min_prec lhs)).
Proof.
  induction fuel as [|fuel (IHa & IHe & IHl)].
  { split; [|split]; intros; apply follows_out_of_fuel. }
  split; [|split].
  - intros min_prec. cbn [parse_atom].
    apply follows_get_curr_token; [|apply follows_parse_error].
    intros [tok|]; [|apply follows_parse_error].
    apply follows_pre with (P' := fun p => curr_token p <> None);
      [intros p [_ ->]; discriminate|].
    destruct (String.eqb tok "(").
    { apply follows_skip_token.
      apply follows_bind with (Q := fun _ => True); [apply IHe | auto |].
      intros subexpr _. apply follows_get_curr_token.
      - intros closing. destruct (bool_decide (closing = Some ")")) eqn:Ec.
        + apply bool_decide_eq_true_1 in Ec as ->.
          apply follows_const with (out := []) (ops := []) (a := tt);
            [reflexivity|].
          apply follows_pre with (P' := fun p => curr_token p <> None);
            [intros p [_ ->]; discriminate|].
          apply follows_skip_token, follows_ret.
        + apply follows_parse_error.
      - apply follows_parse_error. }
    destruct (Py.list_in tok _).
    { apply follows_plift. intros [[kind a] n] _. cbv zeta.
      apply follows_skip_token.
      apply follows_bind with (Q := fun _ => True); [apply IHe | auto |].
      intros subexpr _. apply follows_ret. }
    destruct (in_Op_Table tok); [apply follows_parse_error|].
    apply follows_skip_token, follows_ret.
  - intros min_prec. cbn [parse_expr].
    apply follows_bind with (Q := no_operator_leaf); [apply IHa| |].
    + intros p s a p1 Hs He.
      destruct (parser_keeps (current_tokens p) fuel) as (Ka & _ & _).
      destruct (Ka min_prec p s eq_refl Hs) as (_ & _ & H).
      destruct (H a p1 He) as (_ & _ & Hl). exact Hl.
    + intros lhs Hl. apply IHl, Hl.
  - intros min_prec lhs Hl. cbn [fold_loop].
    apply follows_candidate; [exact Hl | apply follows_ret |].
    intros op Hop. apply follows_plift. intros [[kind a] n] _. cbv zeta.
    apply follows_note_lookup.
    destruct (n <? min_prec)%nat; [apply follows_ret|].
    apply follows_pre with (P' := fun p => curr_token p <> None);
      [intros p ->; discriminate|].
    apply follows_skip_token.
    apply follows_bind with (Q := fun _ => True); [apply IHe | auto |].
    intros rhs _. apply follows_plift. intros lhs' Hfold.
    apply IHl. eapply fold_no_operator_leaf, Hfold.
Qed.

End Within.

(** ** A line that starts with an operator *)

Lemma parse_atom_operator fuel min_prec p op :
  curr_token p = Some op -> String.eqb op "(" = false ->
  Py.list_in op ["-"; "+"; "~"; "not"] = false -> in_Op_Table op = true ->
  parse_atom (S fuel) min_prec p
  = Some (Steps ["Parse error: expected an atom, not an operator "
                 +:+ Py.dquote +:+ op +:+ Py.dquote] []
            (Ok (MkExpr None None None None, p))).
Proof.
  intros Hp H1 H2 H3. cbn [parse_atom].
  unfold pbind at 1, get_curr_token. rewrite Hp, H1, H2, H3. reflexivity.
Qed.

Lemma fold_loop_rhs_raises fuel min_prec lhs p op a n out ops e :
  no_operator_leaf lhs -> curr_token p = Some op -> in_Op_Table op = true ->
  Op_Table_item (Some op) = Ok (BINARYOP, a, n) -> min_prec <= n ->
  parse_expr fuel (if decide (a = LEFT) then n + 1 else n) (advance p)
    = Some (Steps out ops (Raise e)) ->
  fold_loop (S fuel) min_prec lhs p = Some (Steps out (op :: ops) (Raise e)).
Proof.
  intros Hl Hp Hin Hitem Hn Hrhs. rewrite fold_loop_S. unfold pbind at 1.
  rewrite (candidate_operator _ op _ Hl Hp Hin).
  unfold pbind at 1, plift at 1. rewrite Hitem. cbn [rbind].
  unfold pbind at 1, note_lookup at 1.
  destruct (Nat.ltb_spec n min_prec); [lia|].
  unfold pbind at 1, get_next_token at 1.
  unfold pbind at 1. rewrite Hrhs. reflexivity.
Qed.

Lemma fold_loop_fold_raises fuel min_prec lhs p op a n out ops rhs p2 e :
  no_operator_leaf lhs -> curr_token p = Some op -> in_Op_Table op = true ->
  Op_Table_item (Some op) = Ok (BINARYOP, a, n) -> min_prec <= n ->
  parse_expr fuel (if decide (a = LEFT) then n + 1 else n) (advance p)
    = Some (Steps out ops (Ok (rhs, p2))) ->
  fold op BINARYOP a n (Some lhs) rhs = Raise e ->
  fold_loop (S fuel) min_prec lhs p
  = Some (Steps (out ++ []) (op :: ops ++ []) (Raise e)).
Proof.
  intros Hl Hp Hin Hitem Hn Hrhs Hfold. rewrite fold_loop_S. unfold pbind at 1.
  rewrite (candidate_operator _ op _ Hl Hp Hin).
  unfold pbind at 1, plift at 1. rewrite Hitem. cbn [rbind].
  unfold pbind at 1, note_lookup at 1.
  destruct (Nat.ltb_spec n min_prec); [lia|].
  unfold pbind at 1, get_next_token at 1.
  unfold pbind at 1. rewrite Hrhs.
  unfold pbind at 1, plift at 1. rewrite Hfold. reflexivity.
Qed.

Lemma parse_expr_leading_operator op rest :
  (forall t, In t (op :: rest) -> scanned_token t) ->
  binary_operator op = true ->
  Py.list_in op ["-"; "+"; "~"; "not"] = false ->
  exists out ops,
    parse_expr (parse_fuel (op :: rest)) 0 (Parser_init (op :: rest))
    = Some (Steps (("Parse error: expected an atom, not an operator "
                    +:+ Py.dquote +:+ op +:+ Py.dquote) :: out) ops
              (Raise KeyError)).
Proof.
  intros Hts Hop Hpre. set (ts := op :: rest) in *.
  destruct (binary_operator_info _ Hop) as (Hin & a & n & Hitem & _).
  assert (Hopen : String.eqb op "(" = false).
  { destruct (String.eqb_spec op "(") as [->|]; [|reflexivity].
    vm_compute in Hop. discriminate. }
  assert (Hempty : no_operator_leaf (MkExpr None None None None))
    by (apply token_text_None_no_leaf; reflexivity).
  set (p0 := Parser_init ts).
  set (fuel := 2 * length rest + 2).
  assert (Hf : parse_fuel ts = S (S fuel))
    by (unfold parse_fuel, fuel, ts; simpl; lia).
  rewrite Hf, parse_expr_S. unfold pbind at 1.
  rewrite (parse_atom_operator _ _ _ op) by (reflexivity || assumption).
  destruct (parser_defined fuel) as (_ & Hdef & _).
  destruct (Hdef (if decide (a = LEFT) then n + 1 else n) (advance p0))
    as [[out ops r] Hrhs].
  { unfold remaining, fuel. simpl. lia. }
  destruct (parser_outcome ts Hts fuel) as (_ & Ho & _).
  destruct (Ho _ (advance p0) _ eq_refl Hrhs) as [_ Hr]. simpl in Hr.
  destruct r as [[rhs p2]| e |]; [| |destruct Hr].
  - erewrite fold_loop_fold_raises;
      [|exact Hempty|reflexivity|exact Hin|exact Hitem|lia|exact Hrhs|].
    + eauto.
    + unfold fold.
      destruct (decide (BINARYOP = UNARYOP)) as [?|_]; [discriminate|].
      reflexivity.
  - destruct Hr as [-> _].
    erewrite fold_loop_rhs_raises;
      [|exact Hempty|reflexivity|exact Hin|exact Hitem|lia|exact Hrhs].
    eauto.
Qed.

(** A run of [parse_expr] that prints nothing and returns, repeated
    between other tokens. *)
Lemma parse_expr_within pre suf ts min_prec ops tree p fuel :
  (forall t, head suf = Some t -> in_Op_Table t = false) ->
  parse_expr (parse_fuel ts) min_prec (Parser_init ts)
    = Some (Steps [] ops (Ok (tree, p))) ->
  parse_fuel ts <= fuel ->
  parse_expr fuel min_prec
    {| current_tokens := pre ++ ts ++ suf; current_index := length pre |}
  = Some (Steps [] ops
            (Ok (tree, {| current_tokens := pre ++ ts ++ suf;
                          current_index := length pre + current_index p |})))
  /\ current_index p <= length ts.
Proof.
  intros Hsuf Hrun Hfuel.
  assert (Hts : current_tokens p = ts).
  { destruct (parser_keeps ts (parse_fuel ts)) as (_ & Ke & _).
    destruct (Ke min_prec (Parser_init ts) _ eq_refl Hrun) as (_ & _ & H).
    destruct (H _ _ eq_refl) as (Ht & _). exact Ht. }
  destruct (parser_fuel_mono (parse_fuel ts)) as (_ & Hmono & _).
  apply (Hmono fuel) in Hrun; [|exact Hfuel].
  destruct (parser_follows pre suf Hsuf fuel) as (_ & Hsim & _).
  set (q0 := {| current_tokens := pre ++ ts ++ suf;
                current_index := length pre |}).
  assert (He : within pre suf (Parser_init ts) q0).
  { split; [reflexivity|]. split; simpl; lia. }
  destruct (Hsim min_prec _ _ _ _ _ I He Hrun eq_refl eq_refl)
    as (q1 & Hq1 & Ht & Hi & Hle).
  simpl in Hq1. rewrite Hts in Ht, Hle. split; [|exact Hle].
  rewrite Hq1. destruct q1 as [qt qi]. simpl in Ht, Hi. subst qt qi.
  reflexivity.
Qed.

(** Tokens after an expression that do not start with an operator are
    not read. *)
Lemma parse_expr_trailing ts js ops tree p :
  (forall t, head js = Some t -> in_Op_Table t = false) ->
  parse_expr (parse_fuel ts) 0 (Parser_init ts)
    = Some (Steps [] ops (Ok (tree, p))) ->
  parse_expr (parse_fuel (ts ++ js)) 0 (Parser_init (ts ++ js))
  = Some (Steps [] ops
            (Ok (tree, {| current_tokens := ts ++ js;
                          current_index := current_index p |}))).
Proof.
  intros Hjs Hrun.
  destruct (parse_expr_within [] js ts 0 ops tree p (parse_fuel (ts ++ js))
              Hjs Hrun) as [H _].
  { unfold parse_fuel. rewrite length_app. lia. }
  exact H.
Qed.

(** An opening parenthesis that is not closed is reported, and the
    expression after it is the tree. *)
Lemma parse_expr_unmatched ts ops tree p :
  parse_expr (parse_fuel ts) 0 (Parser_init ts)
    = Some (Steps [] ops (Ok (Some tree, p))) ->
  current_index p = length ts ->
  exists q,
    parse_expr (parse_fuel ("(" :: ts)) 0 (Parser_init ("(" :: ts))
    = Some (Steps ["Parse error: unmatched " +:+ Py.dquote +:+ "("
                   +:+ Py.dquote] ops
              (Ok (Some (MkExpr None None None (Some tree)), q))).
Proof.
  intros Hrun Hidx.
  destruct (parse_expr_within ["("] [] ts 0 ops (Some tree) p
              (parse_fuel ts)) as [Hq _];
    [discriminate | exact Hrun | lia |].
  rewrite app_nil_r in Hq. cbn [app length] in Hq.
  set (q1 := {| current_tokens := "(" :: ts;
                current_index := 1 + current_index p |}) in *.
  assert (Hcur : curr_token q1 = None).
  { unfold curr_token, q1. simpl. rewrite Hidx.
    destruct (Nat.ltb_spec (S (length ts)) (S (length ts))); [lia|].
    reflexivity. }
  assert (Hend : curr_token (advance q1) = None).
  { unfold curr_token, q1. simpl. rewrite Hidx.
    destruct (Nat.ltb_spec (S (length ts + 1)) (S (length ts))); [lia|].
    reflexivity. }
  assert (Hfuel : parse_fuel ("(" :: ts) = S (S (parse_fuel ts)))
    by (unfold parse_fuel; simpl; lia).
  rewrite Hfuel, parse_expr_S. unfold pbind at 1.
  cbn [parse_atom]. unfold pbind at 1. unfold get_curr_token at 1.
  change (curr_token (Parser_init ("(" :: ts))) with (Some "(").
  cbv iota beta. change (String.eqb "(" "(") with true. cbv iota.
  unfold pbind at 1. unfold get_next_token at 1. cbv iota beta.
  unfold pbind at 1.
  change (advance (Parser_init ("(" :: ts)))
    with {| current_tokens := "(" :: ts; current_index := 1 |}.
  rewrite Hq. cbv iota beta.
  unfold pbind at 1. unfold get_curr_token at 1. cbv iota beta.
  rewrite Hcur. rewrite bool_decide_eq_false_2 by discriminate.
  unfold pbind at 1. unfold parse_error at 1. cbv iota beta.
  unfold pbind at 1. unfold get_next_token at 1. cbv iota beta.
  unfold pret at 1. cbv iota beta.
  rewrite fold_loop_end;
    [|apply token_text_None_no_leaf; reflexivity|exact Hend].
  rewrite !app_nil_r. eexists. reflexivity.
Qed.

(** ** Lines with a prefix operator, and lines that end too early *)

Lemma parse_atom_prefix fuel min_prec p u out ops sub p2 :
  curr_token p = Some u -> prefix_operator u = true ->
  parse_expr fuel 7 (advance p) = Some (Steps out ops (Ok (sub, p2))) ->
  parse_atom (S fuel) min_prec p
  = Some (Steps (out ++ []) (ops ++ [])
            (Ok (MkExpr None (Some (u +:+ " x")) None sub, p2))).
Proof.
  intros Hp Hu Hsub. destruct (prefix_operator_key _ Hu) as [Hin Hkey].
  assert (Hopen : String.eqb u "(" = false).
  { destruct (String.eqb_spec u "(") as [->|]; [discriminate | reflexivity]. }
  cbn [parse_atom]. unfold pbind at 1, get_curr_token.
  rewrite Hp, Hopen, Hin.
  unfold pbind at 1, plift at 1. rewrite Hkey. cbn [rbind].
  unfold pbind at 1, get_next_token at 1.
  unfold pbind at 1. rewrite Hsub. reflexivity.
Qed.

Lemma parse_atom_end fuel min_prec p :
  curr_token p = None ->
  parse_atom (S fuel) min_prec p
  = Some (Steps ["Parse error: source ended unexpectedly"] []
            (Ok (Empty, p))).
Proof.
  intros Hp. cbn [parse_atom]. unfold pbind at 1, get_curr_token.
  rewrite Hp. reflexivity.
Qed.

Lemma parse_expr_literal fuel min_prec p t :
  curr_token p = Some t -> literal_token t = true ->
  curr_token (advance p) = None ->
  parse_expr (S (S fuel)) min_prec p
  = Some (Steps [] [] (Ok (Some (Leaf t), advance p))).
Proof.
  intros Hp Ht Hend. rewrite parse_expr_S. unfold pbind at 1.
  rewrite (parse_atom_literal _ _ _ t Hp Ht).
  rewrite fold_loop_end; [reflexivity| |exact Hend].
  apply no_operator_leaf_Leaf, Ht.
Qed.

(** The tree of a prefix operator before a literal. *)
Lemma parse_expr_unary u a :
  prefix_operator u = true -> literal_token a = true ->
  parse_expr (parse_fuel [u; a]) 0 (Parser_init [u; a])
  = Some (Steps [] []
            (Ok (Some (Unary (u +:+ " x") (Leaf a)),
                 {| current_tokens := [u; a]; current_index := 2 |}))).
Proof.
  intros Hu Ha. change (parse_fuel [u; a]) with 6.
  rewrite parse_expr_S. unfold pbind at 1.
  erewrite parse_atom_prefix; [|reflexivity|exact Hu|].
  2:{ apply parse_expr_literal; [reflexivity | exact Ha | reflexivity]. }
  rewrite fold_loop_end;
    [reflexivity | apply token_text_None_no_leaf; reflexivity | reflexivity].
Qed.

(** The tree of a literal and an operator with nothing after it. *)
Lemma parse_expr_missing a op :
  literal_token a = true -> binary_operator op = true ->
  parse_expr (parse_fuel [a; op]) 0 (Parser_init [a; op])
  = Some (Steps ["Parse error: source ended unexpectedly"] [op]
            (Ok (Some (BinaryNode op (Leaf a) Empty),
                 {| current_tokens := [a; op]; current_index := 2 |}))).
Proof.
  intros Ha Hop.
  destruct (binary_operator_info _ Hop) as (Hin & assoc & n & Hitem & _).
  change (parse_fuel [a; op]) with 6.
  rewrite parse_expr_S. unfold pbind at 1.
  rewrite (parse_atom_literal _ _ _ a) by (reflexivity || assumption).
  erewrite (fold_loop_step 4 0 (Leaf a) _ op assoc n);
    [|apply no_operator_leaf_Leaf, Ha|reflexivity|exact Hin|exact Hitem|lia
     | |apply fold_token].
  3:{ unfold is_token. cbn. destruct (literal_token_parts _ Ha) as (-> & _).
      reflexivity. }
  2:{ rewrite parse_expr_S. unfold pbind at 1.
      rewrite parse_atom_end by reflexivity.
      rewrite fold_loop_end;
        [reflexivity | apply token_text_None_no_leaf; reflexivity
         | reflexivity]. }
  rewrite fold_loop_end;
    [reflexivity | apply token_text_None_no_leaf; reflexivity | reflexivity].
Qed.

(** ** Parentheses inside a line *)

Lemma candidate_stop lhs p t :
  no_operator_leaf lhs -> curr_token p = Some t -> in_Op_Table t = false ->
  candidate lhs p = Some (Steps [] [] (Ok (None, p))).
Proof.
  intros Hl Hp Ht. unfold candidate.
  destruct (token_text lhs) as [t'|] eqn:Et;
    [rewrite (Hl t' Et)|];
    unfold pbind, get_curr_token; rewrite Hp, Ht; reflexivity.
Qed.

Lemma fold_loop_stop fuel min_prec lhs p t :
  no_operator_leaf lhs -> curr_token p = Some t -> in_Op_Table t = false ->
  fold_loop (S fuel) min_prec lhs p = Some (Steps [] [] (Ok (Some lhs, p))).
Proof.
  intros Hl Hp Ht. rewrite fold_loop_S. unfold pbind at 1.
  rewrite (candidate_stop _ _ _ Hl Hp Ht). reflexivity.
Qed.

Lemma parse_atom_parenth fuel min_prec p out ops sub p2 :
  curr_token p = Some "(" ->
  parse_expr fuel 0 (advance p) = Some (Steps out ops (Ok (sub, p2))) ->
  curr_token p2 = Some ")" ->
  parse_atom (S fuel) min_prec p
  = Some (Steps (out ++ []) (ops ++ [])
            (Ok (MkExpr None None None sub, advance p2))).
Proof.
  intros Hp Hsub Hclose. cbn [parse_atom].
  unfold pbind at 1, get_curr_token at 1. rewrite Hp.
  change (String.eqb "(" "(") with true. cbv iota.
  unfold pbind at 1, get_next_token at 1.
  unfold pbind at 1. rewrite Hsub.
  unfold pbind at 1, get_curr_token at 1. rewrite Hclose.
  rewrite bool_decide_eq_true_2 by reflexivity.
  unfold pbind at 1, pret at 1.
  unfold pbind at 1, get_next_token at 1. reflexivity.
Qed.

Lemma fold_parenth op a n inner rhs :
  fold op BINARYOP a n (Some (MkExpr None None None (Some inner))) rhs
  = Ok (MkExpr None (Some op) (Some inner) rhs).
Proof.
  unfold fold. destruct (decide (BINARYOP = UNARYOP)) as [?|_]; [discriminate|].
  reflexivity.
Qed.

(** The tree of two literals and an operator, up to a token that is no
    operator. *)
Lemma parse_expr_pair fuel p a op b t :
  literal_token a = true -> binary_operator op = true ->
  literal_token b = true ->
  curr_token p = Some a -> curr_token (advance p) = Some op ->
  curr_token (advance (advance p)) = Some b ->
  curr_token (advance (advance (advance p))) = t ->
  (forall t', t = Some t' -> in_Op_Table t' = false) ->
  parse_expr (S (S (S (S (S fuel))))) 0 p
  = Some (Steps [] [op]
            (Ok (Some (BinaryNode op (Leaf a) (Leaf b)),
                 advance (advance (advance p))))).
Proof.
  intros Ha Hop Hb Ca Co Cb Ct Ht.
  destruct (binary_operator_info _ Hop) as (Hin & assoc & n & Hitem & _).
  assert (Hstop : forall fuel' mp lhs, no_operator_leaf lhs ->
            fold_loop (S fuel') mp lhs (advance (advance (advance p)))
            = Some (Steps [] [] (Ok (Some lhs, advance (advance (advance p)))))).
  { intros fuel' mp lhs Hl. destruct t as [t'|].
    - apply (fold_loop_stop _ _ _ _ t' Hl Ct). apply Ht. reflexivity.
    - apply (fold_loop_end _ _ _ _ Hl Ct). }
  rewrite parse_expr_S. unfold pbind at 1.
  rewrite (parse_atom_literal _ _ _ a Ca Ha).
  erewrite (fold_loop_step _ 0 (Leaf a) _ op assoc n);
    [|apply no_operator_leaf_Leaf, Ha|exact Co|exact Hin|exact Hitem|lia
     | |apply fold_token].
  3:{ unfold is_token. cbn. destruct (literal_token_parts _ Ha) as (-> & _).
      reflexivity. }
  2:{ rewrite parse_expr_S. unfold pbind at 1.
      rewrite (parse_atom_literal _ _ _ b Cb Hb).
      rewrite Hstop by (apply no_operator_leaf_Leaf, Hb). reflexivity. }
  rewrite Hstop by (apply token_text_None_no_leaf; reflexivity).
  reflexivity.
Qed.

(** Parentheses on the left: the tree of the tokens [( a o1 b ) o2 c]. *)
Lemma parse_expr_parenth_left a o1 b o2 c :
  literal_token a = true -> literal_token b = true ->
  literal_token c = true ->
  binary_operator o1 = true -> binary_operator o2 = true ->
  let ts := ["("; a; o1; b; ")"; o2; c] in
  exists ops p,
    parse_expr (parse_fuel ts) 0 (Parser_init ts)
    = Some (Steps [] ops
        (Ok (Some (BinaryNode o2 (BinaryNode o1 (Leaf a) (Leaf b)) (Leaf c)),
             p))).
Proof.
  intros Ha Hb Hc H1 H2 ts.
  destruct (binary_operator_info _ H2) as (Hin2 & a2 & n2 & Hitem2 & _).
  set (p0 := Parser_init ts).
  change (parse_fuel ts) with 16. rewrite parse_expr_S. unfold pbind at 1.
  erewrite (parse_atom_parenth 14 0 p0); [|reflexivity| |].
  2:{ apply (parse_expr_pair 9 (advance p0) a o1 b (Some ")"));
        try assumption; try reflexivity.
      intros t' [= <-]. rewrite in_Op_Table_info. reflexivity. }
  2:{ reflexivity. }
  erewrite (fold_loop_step 14 0 _ _ o2 a2 n2);
    [|apply token_text_None_no_leaf; reflexivity|reflexivity|exact Hin2
     |exact Hitem2|lia| |apply fold_parenth].
  2:{ apply (parse_expr_literal _ _ _ c); [reflexivity|exact Hc|reflexivity]. }
  rewrite fold_loop_end;
    [|apply token_text_None_no_leaf; reflexivity|reflexivity].
  eexists. eexists. reflexivity.
Qed.

(** Parentheses on the right: the tree of the tokens [a o1 ( b o2 c )]. *)
Lemma parse_expr_parenth_right a o1 b o2 c :
  literal_token a = true -> literal_token b = true ->
  literal_token c = true ->
  binary_operator o1 = true -> binary_operator o2 = true ->
  let ts := [a; o1; "("; b; o2; c; ")"] in
  exists ops p,
    parse_expr (parse_fuel ts) 0 (Parser_init ts)
    = Some (Steps [] ops
        (Ok (Some (BinaryNode o1 (Leaf a)
                     (Paren (BinaryNode o2 (Leaf b) (Leaf c)))),
             p))).
Proof.
  intros Ha Hb Hc H1 H2 ts.
  destruct (binary_operator_info _ H1) as (Hin1 & a1 & n1 & Hitem1 & _).
  set (p0 := Parser_init ts).
  change (parse_fuel ts) with 16. rewrite parse_expr_S. unfold pbind at 1.
  rewrite (parse_atom_literal _ _ _ a) by (reflexivity || assumption).
  erewrite (fold_loop_step 14 0 (Leaf a) _ o1 a1 n1);
    [|apply no_operator_leaf_Leaf, Ha|reflexivity|exact Hin1|exact Hitem1|lia
     | |apply fold_token].
  3:{ unfold is_token. cbn. destruct (literal_token_parts _ Ha) as (-> & _).
      reflexivity. }
  2:{ rewrite parse_expr_S. unfold pbind at 1.
      erewrite (parse_atom_parenth 12 _ (advance (advance p0)));
        [|reflexivity| |].
      2:{ apply (parse_expr_pair 7 _ b o2 c (Some ")"));
            try assumption; try reflexivity.
          intros t' [= <-]. rewrite in_Op_Table_info. reflexivity. }
      2:{ reflexivity. }
      rewrite fold_loop_end;
        [|apply token_text_None_no_leaf; reflexivity|reflexivity].
      reflexivity. }
  rewrite fold_loop_end;
    [|apply token_text_None_no_leaf; reflexivity|reflexivity].
  eexists. eexists. reflexivity.
Qed.

(** ** The text of an expression *)

Lemma drop_last_blank s : Py.drop_last (s +:+ " ") = s.
Proof.
  induction s as [|c s IH]; [reflexivity|].
  change (String c s +:+ " ") with (String c (s +:+ " ")).
  cbn [Py.drop_last]. rewrite IH.
  destruct s; reflexivity.
Qed.

Lemma append_assoc s t u : (s +:+ t) +:+ u = s +:+ (t +:+ u).
Proof.
  induction s as [|c s IH]; [reflexivity|].
  change (String c ((s +:+ t) +:+ u) = String c (s +:+ (t +:+ u))).
  rewrite IH. reflexivity.
Qed.

Lemma Expr_str_parts e :
  Expr_str e = Py.drop_last ("(" +:+ str_parts e) +:+ ")".
Proof.
  destruct e as [tok op l r]. cbn [Expr_str str_parts].
  f_equal. f_equal.
  destruct tok as [t|]; [destruct (Py.str_truthy t)|];
    destruct l as [el|]; (destruct op as [o|]; [destruct (Py.str_truthy o)|]);
    destruct r as [er|];
    rewrite ?append_assoc; cbn [String.append]; rewrite ?append_assoc;
    reflexivity.
Qed.

Lemma append_empty_r s : s +:+ "" = s.
Proof.
  induction s as [|c s IH]; [reflexivity|].
  change (String c (s +:+ "") = String c s). rewrite IH. reflexivity.
Qed.

Lemma str_parts_blank e :
  is_empty e = false -> exists w, str_parts e = w +:+ " ".
Proof.
  destruct e as [tok op l r]. unfold is_empty.
  cbn [Expr_tok Expr_op Expr_left Expr_right str_parts Py.opt_truthy present].
  intros He.
  destruct r as [er|].
  { eexists. rewrite <- !append_assoc. reflexivity. }
  rewrite append_empty_r.
  assert (Hop : forall A : string,
            Py.opt_truthy op = true ->
            exists w, A +:+ match op with
                            | Some o => if Py.str_truthy o
                                        then "Op: " +:+ o +:+ " " else ""
                            | None => ""
                            end = w +:+ " ").
  { intros A H. destruct op as [o|]; [|discriminate]. simpl in H. rewrite H.
    eexists. rewrite <- !append_assoc. reflexivity. }
  destruct (Py.opt_truthy op) eqn:Eo.
  { rewrite <- append_assoc. apply Hop. reflexivity. }
  replace (match op with
           | Some o => if Py.str_truthy o then "Op: " +:+ o +:+ " " else ""
           | None => ""
           end) with "".
  2:{ destruct op as [o|]; [|reflexivity]. simpl in Eo. rewrite Eo.
      reflexivity. }
  rewrite append_empty_r.
  destruct l as [el|].
  { eexists. rewrite <- !append_assoc. reflexivity. }
  rewrite append_empty_r.
  destruct tok as [t|]; [|discriminate]. cbn [Py.opt_truthy] in He.
  destruct (Py.str_truthy t); [|discriminate].
  eexists. rewrite <- !append_assoc. reflexivity.
Qed.

Lemma str_parts_empty e : is_empty e = true -> str_parts e = "".
Proof.
  destruct e as [[t|] [o|] [el|] [er|]]; unfold is_empty;
    cbn [Expr_tok Expr_op Expr_left Expr_right str_parts Py.opt_truthy present];
    try destruct (Py.str_truthy t); try destruct (Py.str_truthy o);
    try discriminate; reflexivity.
Qed.

Lemma Expr_str_blank e w :
  str_parts e = w +:+ " " -> Expr_str e = "(" +:+ w +:+ ")".
Proof.
  intros H. rewrite Expr_str_parts, H.
  change ("(" +:+ w +:+ " ") with (String "(" w +:+ " ").
  rewrite drop_last_blank. reflexivity.
Qed.

(** ** Building the operator table *)

(** [build_Op_Table] on any table: the fourteen operator keys get their
    entries, every other key keeps what it had. *)
Lemma build_Op_Table_lookup table key :
  build_Op_Table table !! key
  = match op_info key with
    | Some d => Some d
    | None => table !! key
    end.
Proof.
  unfold build_Op_Table, op_info.
  cbn [Op_Sets fold_left add_ops snd].
  repeat (rewrite lookup_insert;
          match goal with
          | |- context [decide (?k = key)] =>
              destruct (decide (k = key)) as [<-|?];
              [vm_compute; reflexivity
              | rewrite (proj2 (String.eqb_neq key k)) by congruence]
          end).
  reflexivity.
Qed.

Lemma build_Op_Table_twice table :
  build_Op_Table (build_Op_Table table) = build_Op_Table table.
Proof.
  apply map_eq. intros key. rewrite !build_Op_Table_lookup.
  destruct (op_info key); reflexivity.
Qed.

(** ** The evaluator: reports and exceptions *)

Lemma py_int_str_raises s base e :
  py_int_str s base = Raise e -> e = ValueError.
Proof.
  unfold py_int_str.
  destruct (Text.sign _) as [neg s1].
  destruct (Text.starts_with_underscore _); [congruence|].
  destruct (Text.int_digits _ _ _ _ _) as [[[v n] rest]|]; [|congruence].
  destruct (n =? 0)%nat; [congruence|].
  destruct (negb _); [congruence|].
  destruct (_ && _); [congruence | discriminate].
Qed.

Lemma py_int_str_inside s base : py_int_str s base <> Outside.
Proof.
  unfold py_int_str.
  destruct (Text.sign _) as [neg s1].
  destruct (Text.starts_with_underscore _); [discriminate|].
  destruct (Text.int_digits _ _ _ _ _) as [[[v n] rest]|]; [|discriminate].
  destruct (n =? 0)%nat; [discriminate|].
  destruct (negb _); [discriminate|].
  destruct (_ && _); discriminate.
Qed.

Lemma py_float_str_raises s :
  match py_float_str s with
  | Ok _ => True
  | Raise e => e = ValueError
  | Outside => False
  end.
Proof.
  unfold py_float_str.
  destruct (Text.drop_underscores _ _) as [s2|]; [|reflexivity].
  destruct (Text.sign s2) as [neg s3].
  destruct (_ || _); [exact I|].
  destruct (String.eqb _ _); [exact I|].
  destruct (Text.decimal s3) as [[[m e10] [|c rest]]|];
    (exact I || reflexivity).
Qed.

(** [to_number] returns an [int] or a [float], or raises [ValueError]. *)
Lemma to_number_outcome tok :
  match to_number tok with
  | Ok (VInt _) | Ok (VFloat _) => True
  | Ok VNone => False
  | Raise e => e = ValueError
  | Outside => False
  end.
Proof.
  assert (Hint : forall s base,
            match rbind (py_int_str s base) (fun z => Ok (VInt z)) with
            | Ok (VInt _) | Ok (VFloat _) => True
            | Ok VNone => False
            | Raise e => e = ValueError
            | Outside => False
            end).
  { intros s base. pose proof (py_int_str_raises s base) as Hr.
    pose proof (py_int_str_inside s base) as Hi.
    destruct (py_int_str s base); simpl; auto. }
  assert (Hfloat : forall s,
            match rbind (py_float_str s) (fun f => Ok (VFloat f)) with
            | Ok (VInt _) | Ok (VFloat _) => True
            | Ok VNone => False
            | Raise e => e = ValueError
            | Outside => False
            end).
  { intros s. pose proof (py_float_str_raises s) as Hr.
    destruct (py_float_str s); simpl; auto. }
  unfold to_number.
  repeat match goal with
  | |- context [if ?b then _ else _] => destruct b
  end; first [apply Hint | apply Hfloat].
Qed.

Ltac exn_cases H :=
  repeat match type of H with
  | context [match ?x with _ => _ end] => destruct x
  | context [if ?b then _ else _] => destruct b
  end;
  try discriminate H; injection H as <-; unfold arithmetic_exn; simpl; auto.

Lemma py_float_exn x e : py_float x = Raise e -> arithmetic_exn e.
Proof. unfold py_float. intros H. exn_cases H. Qed.

Lemma py_int_exn x e : py_int x = Raise e -> arithmetic_exn e.
Proof. unfold py_int. intros H. exn_cases H. Qed.

Lemma rbind_exn {A B} (r : result A) (k : A -> result B) e :
  (forall e, r = Raise e -> arithmetic_exn e) ->
  (forall a e, k a = Raise e -> arithmetic_exn e) ->
  rbind r k = Raise e -> arithmetic_exn e.
Proof.
  intros Hr Hk. destruct r as [a|e0|]; simpl;
    [eauto | intros [= <-]; eauto | discriminate].
Qed.

Ltac raised :=
  first [ discriminate
        | intros [= <-]; unfold arithmetic_exn; simpl; tauto ].

Lemma py_arith_exn iop fop x y e :
  py_arith iop fop x y = Raise e -> arithmetic_exn e.
Proof.
  unfold py_arith. destruct x as [|a|f], y as [|b|g]; try raised;
    (apply rbind_exn; [apply py_float_exn | intros ? ?; raised]).
Qed.

Lemma py_truediv_exn x g e : py_truediv x g = Raise e -> arithmetic_exn e.
Proof.
  unfold py_truediv. apply rbind_exn; [apply py_float_exn|].
  intros f e'. destruct (F64.is_zero g); raised.
Qed.

Lemma py_mod_exn x n e : py_mod x n = Raise e -> arithmetic_exn e.
Proof.
  unfold py_mod. destruct x as [|a|f]; [raised| |].
  - destruct (n =? 0)%Z; raised.
  - apply rbind_exn; [apply py_float_exn|]. intros g e'.
    apply rbind_exn; [|intros ? ?; raised].
    intros e''. unfold float_rem. destruct (F64.is_zero g); raised.
Qed.

Lemma py_bitop_exn iop x y e : py_bitop iop x y = Raise e -> arithmetic_exn e.
Proof. unfold py_bitop. intros H. exn_cases H. Qed.

Lemma py_shift_exn iop x y e : py_shift iop x y = Raise e -> arithmetic_exn e.
Proof. unfold py_shift. intros H. exn_cases H. Qed.

Lemma float_pow_exn v w e : float_pow v w = Raise e -> arithmetic_exn e.
Proof. unfold float_pow. intros H. exn_cases H. Qed.

Lemma evaluates_lift {A} (r : result A) :
  (forall e, r = Raise e -> arithmetic_exn e) -> evaluates (lift r).
Proof. intros H. split; [constructor | exact H]. Qed.

Lemma evaluates_ret {A} (a : A) : evaluates (ret a).
Proof. split; [constructor | discriminate]. Qed.

Lemma evaluates_bind {A B} (m : io A) (k : A -> io B) :
  evaluates m -> (forall a, evaluates (k a)) -> evaluates (bind m k).
Proof.
  intros [Hm He] Hk. destruct m as [out [a| e |]]; simpl in *.
  - destruct (Hk a) as [Hk1 Hk2]. destruct (k a) as [out' r]. simpl in *.
    split; [apply Forall_app; auto | exact Hk2].
  - split; [exact Hm | intros e0 [= <-]; apply He; reflexivity].
  - split; [exact Hm | discriminate].
Qed.

Lemma unary_key_cases op :
  unary_key op = true -> In op ["~ x"; "- x"; "+ x"].
Proof.
  unfold unary_key. rewrite Op_Table_lookup. unfold op_info.
  repeat match goal with
  | |- context [String.eqb op ?k] =>
      destruct (String.eqb_spec op k) as [->|?]
  end; try discriminate; intros _; simpl; auto.
Qed.

(** The operator dispatch, for an operator of the table. *)
Lemma apply_op_evaluates op x y :
  in_Op_Table op = true -> evaluates (apply_op op x y).
Proof.
  rewrite in_Op_Table_info. unfold op_info.
  repeat match goal with
  | |- context [String.eqb op ?k] =>
      destruct (String.eqb_spec op k) as [->|?]
  end; try discriminate; intros _; unfold apply_op;
  cbn [String.eqb Ascii.eqb Bool.eqb].
  - apply evaluates_lift. intros e.
    repeat (apply rbind_exn; [apply py_float_exn|]; intros ? ?).
    apply rbind_exn; [apply float_pow_exn|]. intros ? ?; raised.
  - apply evaluates_lift. intros e.
    apply rbind_exn; [apply py_int_exn|]. intros ? ?; raised.
  - apply evaluates_lift. intros e. unfold py_neg. intros H. exn_cases H.
  - apply evaluates_lift. intros e. unfold py_pos. intros H. exn_cases H.
  - destruct (truthy y).
    + apply evaluates_lift. intros e.
      apply rbind_exn; [apply py_int_exn|]. intros ? ?. apply py_mod_exn.
    + split; [|discriminate]. constructor; [right; reflexivity | constructor].
  - destruct (truthy y).
    + apply evaluates_lift. intros e.
      apply rbind_exn; [apply py_float_exn|]. intros ? ?.
      apply py_truediv_exn.
    + split; [|discriminate]. constructor; [left; reflexivity | constructor].
  - apply evaluates_lift. intros e. apply py_arith_exn.
  - apply evaluates_lift. intros e. apply py_arith_exn.
  - apply evaluates_lift. intros e. apply py_arith_exn.
  - apply evaluates_lift. intros e. apply py_shift_exn.
  - apply evaluates_lift. intros e. apply py_shift_exn.
  - apply evaluates_lift. intros e. apply py_bitop_exn.
  - apply evaluates_lift. intros e. apply py_bitop_exn.
  - apply evaluates_lift. intros e. apply py_bitop_exn.
Qed.

(** The evaluation of a tree of the parser. *)
Lemma evaluate_parsed ts e :
  (forall t, In t ts -> scanned_token t) ->
  parsed ts e -> evaluates (evaluate e).
Proof.
  intros Hts. induction 1 as [|tok Htok Hnop|e He IH|op e Hu He IH
                              |op l r Hb Hin Hl IHl Hr IHr].
  - apply evaluates_ret.
  - cbn [evaluate]. unfold token_text, is_token. cbn [Expr_tok Py.opt_truthy].
    rewrite (scanned_token_nonempty _ (Hts _ Htok)).
    apply evaluates_lift. intros ex Hex.
    pose proof (to_number_outcome tok) as Ho. rewrite Hex in Ho. subst ex.
    unfold arithmetic_exn. simpl. auto.
  - rewrite evaluate_paren. exact IH.
  - cbn [evaluate]. unfold token_text, is_token, is_parenth_expr.
    cbn [Expr_tok Expr_op Expr_left Expr_right Py.opt_truthy present].
    rewrite (unary_key_nonempty _ Hu). cbn [negb andb].
    apply evaluates_bind; [apply evaluates_ret|]. intros x.
    rewrite operand_value. apply evaluates_bind; [exact IH|]. intros y.
    apply apply_op_evaluates. destruct (unary_key_item _ Hu) as [d Hd].
    unfold in_Op_Table. unfold Op_Table_item in Hd.
    destruct (Op_Table !! op); [reflexivity | discriminate].
  - cbn [evaluate]. unfold token_text, is_token, is_parenth_expr.
    cbn [Expr_tok Expr_op Expr_left Expr_right Py.opt_truthy present].
    rewrite (binary_operator_nonempty _ Hb). cbn [negb andb].
    rewrite !operand_value.
    apply evaluates_bind; [exact IHl|]. intros x.
    apply evaluates_bind; [exact IHr|]. intros y.
    apply apply_op_evaluates.
    destruct (binary_operator_info _ Hb) as [Hop _]. exact Hop.
Qed.

(** ** Float literals *)

Lemma decimal_digit_code c d :
  Text.digit_value c = Some d -> (d < 10)%Z ->
  Text.is_digit c = true /\ Z.of_nat (Text.code c - 48) = d /\
  Text.lower c = c.
Proof.
  unfold Text.digit_value, Text.is_digit, Text.lower. intros H Hd.
  destruct (Nat.leb_spec 48 (Text.code c)), (Nat.leb_spec (Text.code c) 57);
    cbn [andb] in H |- *;
    [injection H as <-|exfalso..].
  - split; [reflexivity|]. split; [reflexivity|].
    destruct (Nat.leb_spec 65 (Text.code c)); [|reflexivity].
    destruct (Nat.leb_spec (Text.code c) 90); [lia | reflexivity].
  - destruct (Nat.leb_spec 97 (Text.code c)), (Nat.leb_spec (Text.code c) 122);
      cbn [andb] in H; try (injection H as <-; lia);
    destruct (Nat.leb_spec 65 (Text.code c)), (Nat.leb_spec (Text.code c) 90);
      cbn [andb] in H; try (injection H as <-; lia); discriminate.
  - destruct (Nat.leb_spec 97 (Text.code c)), (Nat.leb_spec (Text.code c) 122);
      cbn [andb] in H; try (injection H as <-; lia);
    destruct (Nat.leb_spec 65 (Text.code c)), (Nat.leb_spec (Text.code c) 90);
      cbn [andb] in H; try (injection H as <-; lia); discriminate.
  - destruct (Nat.leb_spec 97 (Text.code c)), (Nat.leb_spec (Text.code c) 122);
      cbn [andb] in H; try (injection H as <-; lia);
    destruct (Nat.leb_spec 65 (Text.code c)), (Nat.leb_spec (Text.code c) 90);
      cbn [andb] in H; try (injection H as <-; lia); discriminate.
Qed.

Lemma numeral_app base a b acc :
  all_digits base a = true ->
  numeral base (a +:+ b) acc = numeral base b (numeral base a acc).
Proof.
  revert acc; induction a as [|c a IH]; intros acc; [reflexivity|].
  change (String c a +:+ b) with (String c (a +:+ b)).
  cbn [all_digits numeral].
  destruct (Text.digit_value c) as [d|]; [|discriminate].
  intros [_ H]%andb_prop. apply IH, H.
Qed.

Lemma dec_digits_app a rest acc n :
  all_digits 10 a = true ->
  Text.dec_digits (a +:+ rest) acc n
  = Text.dec_digits rest (numeral 10 a acc) (n + String.length a).
Proof.
  revert acc n; induction a as [|c a IH]; intros acc n.
  { intros _. cbn [String.length numeral]. rewrite Nat.add_0_r. reflexivity. }
  change (String c a +:+ rest) with (String c (a +:+ rest)).
  cbn [all_digits Text.dec_digits numeral String.length].
  destruct (Text.digit_value c) as [d|] eqn:Ed; [|discriminate].
  intros [Hd H]%andb_prop. apply Z.ltb_lt in Hd.
  destruct (decimal_digit_code _ _ Ed Hd) as (-> & -> & _).
  rewrite (IH _ _ H). f_equal. lia.
Qed.

Lemma plain_app s t : plain s -> plain t -> plain (s +:+ t).
Proof.
  induction s as [|c s IH]; [auto|]. intros [Hc Hs] Ht.
  change (String c s +:+ t) with (String c (s +:+ t)). split; auto.
Qed.

Lemma all_digits_plain base s : all_digits base s = true -> plain s.
Proof.
  induction s as [|c s IH]; [exact (fun _ => I)|]. cbn [all_digits].
  destruct (Text.digit_value c) as [d|] eqn:Ed; [|discriminate].
  intros [_ H]%andb_prop.
  destruct (digit_value_ascii _ _ Ed) as (H1 & H2 & _ & _ & H3 & _).
  split; [repeat split; assumption | apply IH, H].
Qed.

Lemma plain_view s : plain s -> Text.view s = s.
Proof.
  induction s as [|c s IH]; [reflexivity|]. intros [(Hc & _) Hs].
  cbn [Text.view]. rewrite Hc, (IH Hs). reflexivity.
Qed.

Lemma plain_lstrip s : plain s -> Text.lstrip s = s.
Proof.
  destruct s as [|c s]; [reflexivity|]. intros [(_ & Hc & _) _].
  cbn [Text.lstrip]. rewrite Hc. reflexivity.
Qed.

Lemma plain_rstrip s : plain s -> Text.rstrip s = s.
Proof.
  induction s as [|c s IH]; [reflexivity|]. intros [(_ & Hsp & _) Hs].
  cbn [Text.rstrip]. rewrite (IH Hs), Hsp. destruct s; reflexivity.
Qed.

Lemma plain_drop_underscores s prev :
  plain s -> prev <> Some "_"%char ->
  Text.drop_underscores s prev = Some s.
Proof.
  revert prev; induction s as [|c s IH]; intros prev Hs Hprev.
  - cbn. destruct prev as [p|]; [|reflexivity].
    destruct (Ascii.eqb_spec p "_") as [->|Hp]; [congruence|].
    destruct p as [[|] [|] [|] [|] [|] [|] [|] [|]]; try reflexivity.
    contradiction.
  - destruct Hs as [(_ & _ & Hus) Hs]. cbn [Text.drop_underscores].
    rewrite (proj2 (Ascii.eqb_neq c "_") Hus).
    assert (Hrec : Text.drop_underscores s (Some c) = Some s).
    { apply IH; [exact Hs|]. intros [= ->]. contradiction. }
    destruct prev as [p|]; [|rewrite Hrec; reflexivity].
    destruct p as [[|] [|] [|] [|] [|] [|] [|] [|]];
      try (rewrite Hrec; reflexivity).
    congruence.
Qed.

(** [float(s)] on a text of plain characters that starts with a digit or
    a decimal point. *)
Lemma py_float_str_plain c s :
  plain (String c s) ->
  (Text.is_digit c = true \/ c = "."%char) ->
  py_float_str (String c s)
  = match Text.decimal (String c s) with
    | Some (m, e10, EmptyString) => Ok (F64.of_decimal false m e10)
    | _ => Raise ValueError
    end.
Proof.
  intros Hp Hc. unfold py_float_str.
  rewrite (plain_view _ Hp), (plain_lstrip _ Hp), (plain_rstrip _ Hp).
  rewrite (plain_drop_underscores _ None Hp) by discriminate.
  assert (Hfirst : c <> "+"%char /\ c <> "-"%char /\
                   Text.lower c <> "i"%char /\ Text.lower c <> "n"%char).
  { destruct Hc as [Hd| ->]; [|repeat split; discriminate].
    unfold Text.is_digit in Hd. apply andb_prop in Hd as [H1 H2].
    apply Nat.leb_le in H1, H2.
    assert (Hl : Text.lower c = c).
    { unfold Text.lower. destruct (Nat.leb_spec 65 (Text.code c));
        [|reflexivity].
      destruct (Nat.leb_spec (Text.code c) 90); [lia | reflexivity]. }
    rewrite Hl.
    repeat split; intros ->; vm_compute in H1, H2; lia. }
  destruct Hfirst as (Hplus & Hminus & Hi & Hn).
  unfold Text.sign.
  rewrite (proj2 (Ascii.eqb_neq c "+") Hplus).
  rewrite (proj2 (Ascii.eqb_neq c "-") Hminus).
  cbn [Text.lower_str].
  replace (String.eqb (String (Text.lower c) (Text.lower_str s)) "inf")
    with false.
  2:{ symmetry. apply String.eqb_neq. intros [= E _]. contradiction. }
  replace (String.eqb (String (Text.lower c) (Text.lower_str s)) "infinity")
    with false.
  2:{ symmetry. apply String.eqb_neq. intros [= E _]. contradiction. }
  replace (String.eqb (String (Text.lower c) (Text.lower_str s)) "nan")
    with false.
  2:{ symmetry. apply String.eqb_neq. intros [= E _]. contradiction. }
  reflexivity.
Qed.

(** The digits of a literal with a decimal point. *)
Lemma decimal_point a b :
  all_digits 10 a = true -> all_digits 10 b = true ->
  a +:+ b <> EmptyString ->
  Text.decimal (a +:+ "." +:+ b)
  = Some (numeral 10 (a +:+ b) 0, (- Z.of_nat (String.length b))%Z,
          EmptyString).
Proof.
  intros Ha Hb Hne. unfold Text.decimal.
  rewrite (dec_digits_app a _ 0 0 Ha).
  change ("." +:+ b) with (String "." b). cbn [Text.dec_digits].
  change (Text.is_digit ".") with false. cbv iota.
  pose proof (dec_digits_app b "" (numeral 10 a 0) 0 Hb) as Hd.
  rewrite (append_empty_r b) in Hd. rewrite Hd. cbn [Text.dec_digits].
  rewrite <- (numeral_app 10 a b 0 Ha). cbn [Nat.add].
  destruct (String.length a + String.length b) as [|k] eqn:El.
  { exfalso. apply Hne. destruct a; [|discriminate]. destruct b; [|discriminate].
    reflexivity. }
  reflexivity.
Qed.

(** The digits of a literal that ends where its exponent begins. *)
Lemma decimal_exponent_missing a :
  all_digits 10 a = true -> a <> EmptyString ->
  exists m e10, Text.decimal (a +:+ "e") = Some (m, e10, "e").
Proof.
  intros Ha Hne. unfold Text.decimal.
  rewrite (dec_digits_app a _ 0 0 Ha). cbn [Text.dec_digits].
  change (Text.is_digit "e") with false. cbv iota.
  destruct (String.length a) as [|k] eqn:El;
    [destruct a; [congruence | discriminate]|].
  cbn [Nat.add]. replace (S k + 0) with (S k) by lia.
  cbn. eauto.
Qed.

(** The digits of a literal with an exponent. *)
Lemma decimal_exponent a c b :
  all_digits 10 a = true -> all_digits 10 b = true ->
  a <> EmptyString -> b <> EmptyString -> (c = "e" \/ c = "E")%char ->
  Text.decimal (a +:+ String c b)
  = Some (numeral 10 a 0, numeral 10 b 0, EmptyString).
Proof.
  intros Ha Hb Hane Hbne Hc. unfold Text.decimal.
  rewrite (dec_digits_app a _ 0 0 Ha). cbn [Text.dec_digits].
  replace (Text.is_digit c) with false by (destruct Hc as [-> | ->]; reflexivity).
  cbv iota.
  replace (match String c b with
           | String "." s1' => Text.dec_digits s1' (numeral 10 a 0) 0
           | _ => (numeral 10 a 0, 0, String c b)
           end) with (numeral 10 a 0, 0, String c b)
    by (destruct Hc as [-> | ->]; reflexivity).
  destruct (String.length a) as [|k] eqn:El;
    [destruct a; [congruence | discriminate]|].
  cbn [Nat.add]. replace (S k + 0) with (S k) by lia.
  unfold Text.exponent.
  replace (Ascii.eqb c "e" || Ascii.eqb c "E") with true
    by (destruct Hc as [-> | ->]; reflexivity).
  destruct b as [|c1 b']; [congruence|].
  assert (Hd1 := Hb). cbn [all_digits] in Hd1.
  destruct (Text.digit_value c1) as [d1|] eqn:Ed1; [|discriminate].
  destruct (digit_value_ascii _ _ Ed1) as (_ & _ & Hplus & Hminus & _).
  unfold Text.sign.
  rewrite (proj2 (Ascii.eqb_neq c1 "+") Hplus).
  rewrite (proj2 (Ascii.eqb_neq c1 "-") Hminus).
  pose proof (dec_digits_app (String c1 b') "" 0 0 Hb) as Hd.
  rewrite (append_empty_r (String c1 b')) in Hd. rewrite Hd.
  cbn [Text.dec_digits String.length Nat.add].
  rewrite Z.sub_0_r. reflexivity.
Qed.

(** ** Values of lines *)

Lemma numeral_nonneg base s acc :
  (0 <= base)%Z -> (0 <= acc)%Z -> (0 <= numeral base s acc)%Z.
Proof.
  intros Hb. revert acc. induction s as [|c s IH]; intros acc Hacc; [exact Hacc|].
  cbn [numeral]. destruct (Text.digit_value c) as [d|] eqn:Ed; [|exact Hacc].
  apply IH. destruct (digit_value_ascii _ _ Ed) as (_ & _ & _ & _ & _ & _ & Hd & _).
  nia.
Qed.

Lemma evaluate_decimal s :
  decimal_literal s = true ->
  evaluate (Leaf s) = ([], Ok (VInt (decimal_value s))).
Proof.
  intros Hs. destruct (decimal_literal_parts _ Hs) as (Hne & Hall & Hlen).
  unfold Leaf. cbn [evaluate]. fold (Leaf s).
  rewrite token_text_Leaf by (destruct s; [congruence|reflexivity]).
  rewrite (to_number_decimal _ Hne Hall Hlen). reflexivity.
Qed.

Lemma evaluate_unary_decimal u a :
  prefix_operator u = true -> decimal_literal a = true ->
  evaluate (Unary (u +:+ " x") (Leaf a))
  = apply_op (u +:+ " x") VNone (VInt (decimal_value a)).
Proof.
  intros Hu Ha. unfold Unary. cbn [evaluate].
  assert (Hop : exists c k, u +:+ " x" = String c k).
  { destruct u; [discriminate | simpl; eauto]. }
  destruct Hop as (c & k & Hop). rewrite Hop.
  unfold token_text, is_token, is_parenth_expr.
  cbn [Expr_tok Expr_op Expr_left Expr_right Py.opt_truthy Py.str_truthy
       present negb andb].
  rewrite operand_value, (evaluate_decimal _ Ha).
  cbn [ret bind app].
  destruct (apply_op (String c k) VNone _) as [out r]. reflexivity.
Qed.

Lemma evaluate_missing_decimal a op :
  decimal_literal a = true -> binary_operator op = true ->
  evaluate (BinaryNode op (Leaf a) Empty)
  = apply_op op (VInt (decimal_value a)) VNone.
Proof.
  intros Ha Hop. unfold BinaryNode. cbn [evaluate].
  unfold token_text, is_token, is_parenth_expr.
  cbn [Expr_tok Expr_op Expr_left Expr_right Py.opt_truthy present].
  rewrite (binary_operator_nonempty _ Hop). cbn [negb andb].
  rewrite operand_value, (evaluate_decimal _ Ha).
  change (is_empty Empty) with true. cbv iota.
  cbn [ret bind app].
  destruct (apply_op op _ VNone) as [out r]. reflexivity.
Qed.

Lemma tokenise_prefixed c a :
  prefix_operator (Py.char_str c) = true -> decimal_literal a = true ->
  tokenise (String c a) = [Py.char_str c; a].
Proof.
  intros Hu Ha. unfold tokenise. rewrite tokenise_state_scan.
  unfold prefix_operator, Py.list_in in Hu. cbn [existsb] in Hu.
  rewrite !orb_false_r, !orb_true_iff, !String.eqb_eq in Hu.
  assert (Hc : c = "-"%char \/ c = "+"%char \/ c = "~"%char).
  { destruct Hu as [[= ->]|[[= ->]|[= ->]]]; auto. }
  rewrite scan_all_cons.
  destruct Hc as [->|[->| ->]];
    (match goal with
     | |- context [is_whitespace ?x] => change (is_whitespace x) with false
     end; cbv iota;
     match goal with
     | |- context [first_predefined ?s] =>
         let r := eval cbn in (first_predefined s) in
         change (first_predefined s) with r
     end; cbv iota; cbn [String.length Py.slice_from];
     rewrite (scan_all_decimal _ Ha); reflexivity).
Qed.

Lemma scan_all_whitespace s :
  all_whitespace s = true -> scan_all s = ([], String.length s).
Proof.
  induction s as [|c s IH]; [reflexivity|]. cbn [all_whitespace].
  intros [Hc Hs]%andb_prop. rewrite scan_all_cons, Hc, (IH Hs). reflexivity.
Qed.

(** ** A prefix operator before a literal, an operator and a literal *)

Lemma fold_unary op a n u x rhs :
  prefix_operator u = true ->
  fold op BINARYOP a n (Some (Unary (u +:+ " x") x)) rhs
  = Ok (MkExpr None (Some op) (Some (Unary (u +:+ " x") x)) rhs).
Proof.
  intros Hu. destruct (prefix_operator_key _ Hu) as [_ Hkey]. unfold fold.
  destruct (decide (BINARYOP = UNARYOP)) as [?|_]; [discriminate|].
  unfold is_token, is_parenth_expr, Unary.
  cbn [Expr_tok Expr_op Expr_left Expr_right Py.opt_truthy present].
  replace (Py.str_truthy (u +:+ " x")) with true
    by (destruct u; [discriminate Hu | reflexivity]).
  cbn [negb andb Expr_op]. rewrite Hkey. cbn [rbind].
  rewrite bool_decide_eq_false_2 by discriminate. cbn [andb].
  destruct (decide (BINARYOP = UNARYOP)) as [?|_]; [discriminate|].
  destruct (decide (BINARYOP = BINARYOP)) as [_|?]; [reflexivity|contradiction].
Qed.

(** The operand of a prefix operator is parsed at the precedence of the
    prefix operators: a binary operator behind it takes the operand into
    its left operand if its precedence is lower, and belongs to the
    operand otherwise. *)
Lemma parse_expr_prefix_binary u a o b :
  prefix_operator u = true ->
  literal_token a = true -> literal_token b = true ->
  binary_operator o = true ->
  let ts := [u; a; o; b] in
  exists assoc n ops,
    op_info o = Some (BINARYOP, assoc, n) /\
    parse_expr (parse_fuel ts) 0 (Parser_init ts)
    = Some (Steps [] ops
        (Ok (Some (if (n <? 7)%nat
                   then BinaryNode o (Unary (u +:+ " x") (Leaf a)) (Leaf b)
                   else Unary (u +:+ " x") (BinaryNode o (Leaf a) (Leaf b))),
             {| current_tokens := ts; current_index := 4 |}))).
Proof.
  intros Hu Ha Hb Ho ts.
  destruct (binary_operator_info _ Ho) as (Hin & a1 & n1 & Hitem & Hinfo).
  exists a1, n1.
  pose proof (no_operator_leaf_Leaf _ Ha) as La.
  assert (Ta : is_token (Leaf a) = true).
  { unfold is_token. cbn. destruct (literal_token_parts _ Ha) as (-> & _).
    reflexivity. }
  set (p0 := Parser_init ts).
  set (p1 := advance p0). set (p2 := advance p1). set (p3 := advance p2).
  set (p4 := advance p3).
  assert (Hlast : forall fuel nm,
            parse_expr (S (S fuel)) nm p3
            = Some (Steps [] [] (Ok (Some (Leaf b), p4)))).
  { intros fuel nm. apply parse_expr_literal; [reflexivity | exact Hb | reflexivity]. }
  change (parse_fuel ts) with 10. rewrite parse_expr_S. unfold pbind at 1.
  destruct (Nat.ltb_spec n1 7) as [Hlt|Hge].
  - (* the operator is left to the caller of the operand *)
    erewrite (parse_atom_prefix 8 0 p0 u); [|reflexivity|exact Hu|].
    2:{ fold p1. rewrite parse_expr_S. unfold pbind at 1.
        rewrite (parse_atom_literal _ _ _ a) by (reflexivity || assumption).
        fold p2.
        rewrite (fold_loop_break _ _ _ p2 o BINARYOP a1 n1)
          by (assumption || reflexivity). reflexivity. }
    erewrite (fold_loop_step 8 0 _ p2 o a1 n1);
      [|apply token_text_None_no_leaf; reflexivity|reflexivity|assumption
       |exact Hitem|lia|apply Hlast|apply (fold_unary _ _ _ _ _ _ Hu)].
    rewrite fold_loop_end;
      [|apply token_text_None_no_leaf; reflexivity|reflexivity].
    eexists. split; [exact Hinfo | reflexivity].
  - (* the operator belongs to the operand *)
    erewrite (parse_atom_prefix 8 0 p0 u); [|reflexivity|exact Hu|].
    2:{ fold p1. rewrite parse_expr_S. unfold pbind at 1.
        rewrite (parse_atom_literal _ _ _ a) by (reflexivity || assumption).
        fold p2.
        erewrite (fold_loop_step 6 7 (Leaf a) p2 o a1 n1);
          [|assumption|reflexivity|assumption|exact Hitem|lia
           |apply Hlast|apply fold_token, Ta].
        rewrite fold_loop_end;
          [|apply token_text_None_no_leaf; reflexivity|reflexivity].
        reflexivity. }
    rewrite fold_loop_end;
      [|apply token_text_None_no_leaf; reflexivity|reflexivity].
    eexists. split; [exact Hinfo | reflexivity].
Qed.

(** ** Evaluation of the nodes of an operator *)

Lemma bind_ret_l {A B} (a : A) (k : A -> io B) : bind ([], Ok a) k = k a.
Proof. unfold bind. destruct (k a) as [out r]. reflexivity. Qed.

Lemma bind_ext {A B} (m : io A) (k k' : A -> io B) :
  (forall a, k a = k' a) -> bind m k = bind m k'.
Proof.
  intros H. destruct m as [out [a| |]]; [|reflexivity|reflexivity].
  unfold bind. rewrite H. reflexivity.
Qed.

(** A node with an operator and two operands evaluates the left operand,
    then the right one, then applies the operator. *)
Lemma evaluate_node op l r :
  Py.str_truthy op = true ->
  evaluate (BinaryNode op l r)
  = bind (evaluate l) (fun x => bind (evaluate r) (fun y => apply_op op x y)).
Proof.
  intros Ho. unfold BinaryNode. cbn [evaluate]. unfold is_parenth_expr.
  cbn [Expr_op Py.opt_truthy]. rewrite Ho. cbn [negb andb].
  rewrite !operand_value. reflexivity.
Qed.

(** A node with an operator and a right operand only evaluates the
    operand and applies the operator to [None] and its value. *)
Lemma evaluate_prefix_node key e :
  Py.str_truthy key = true ->
  evaluate (Unary key e) = bind (evaluate e) (fun y => apply_op key VNone y).
Proof.
  intros Hk. unfold Unary. cbn [evaluate].
  unfold token_text, is_token, is_parenth_expr.
  cbn [Expr_tok Expr_op Expr_left Expr_right Py.opt_truthy present].
  rewrite Hk. cbn [negb andb]. rewrite operand_value.
  unfold ret. rewrite bind_ret_l. reflexivity.
Qed.

Lemma decimal_number_token s :
  decimal_literal s = true -> number_token s = true.
Proof.
  intros Hs. destruct (decimal_literal_parts _ Hs) as (Hne & Hall & _).
  unfold number_token. apply andb_true_intro. split.
  { destruct s; [congruence | reflexivity]. }
  clear Hne Hs. induction s as [|c s IH]; [reflexivity|].
  cbn [all_digits] in Hall.
  destruct (Text.digit_value c) as [d|] eqn:Ed; [|discriminate].
  apply andb_prop in Hall as [Hd Hall]. apply Z.ltb_lt in Hd.
  destruct (decimal_digit_char _ _ Ed Hd) as (_ & _ & Hn & _).
  cbn [all_number_chars]. rewrite Hn, (IH Hall). reflexivity.
Qed.

Lemma prefix_operator_cases u :
  prefix_operator u = true -> u = "-" \/ u = "+" \/ u = "~".
Proof.
  unfold prefix_operator, Py.list_in. cbn [existsb].
  rewrite !orb_false_r, !orb_true_iff, !String.eqb_eq. tauto.
Qed.

Lemma prefix_operator_scanned u : prefix_operator u = true -> scanned_token u.
Proof.
  intros [->|[->| ->]]%prefix_operator_cases; left; simpl; tauto.
Qed.

Lemma binds_tighter_prefix u o a n :
  prefix_operator u = true -> op_info o = Some (BINARYOP, a, n) ->
  binds_tighter (u +:+ " x") o = (n <? 7)%nat.
Proof.
  intros Hu Ho. unfold binds_tighter, rank. rewrite !Op_Table_lookup, Ho.
  destruct (prefix_operator_cases _ Hu) as [->|[->| ->]]; reflexivity.
Qed.

(** The operators of one precedence have one associativity. *)
Lemma groups_left_same_rank o1 o2 :
  binary_operator o1 = true -> binary_operator o2 = true ->
  rank o1 = rank o2 ->
  declared_associativity o2 = declared_associativity o1 /\
  exists a, declared_associativity o1 = Some a /\
            groups_left o1 o2 = bool_decide (a = LEFT).
Proof.
  intros H1 H2.
  apply binary_operator_cases in H1. apply binary_operator_cases in H2.
  simpl in H1, H2.
  repeat (destruct H1 as [<-|H1]; [|]); try (destruct H1);
    (repeat (destruct H2 as [<-|H2]; [|]); try (destruct H2));
    intros Hr; vm_compute in Hr; try discriminate Hr;
    (split; [vm_compute; reflexivity|]);
    eexists; (split; [vm_compute; reflexivity | vm_compute; reflexivity]).
Qed.

(** [parse] on a line that the parser turns into a tree without a parse
    error. *)
Lemma parse_quiet_run line ops tree p :
  tokenise line <> [] ->
  parse_expr (parse_fuel (tokenise line)) 0 (Parser_init (tokenise line))
    = Some (Steps [] ops (Ok (Some tree, p))) ->
  parse_tree line = Some tree /\ parse line = Some (evaluate tree).
Proof.
  intros Hne Hrun. split.
  - unfold parse_tree. rewrite Hrun. reflexivity.
  - unfold parse. destruct (tokenise line) as [|t ts] eqn:E; [congruence|].
    rewrite Hrun. cbn. destruct (evaluate tree) as [out r]. reflexivity.
Qed.

(** * More of the program: what the code does beyond the specification *)

(** [parse] in terms of the run of the parser. *)
Lemma parse_of_run line s :
  tokenise line <> [] ->
  parse_expr (parse_fuel (tokenise line)) 0 (Parser_init (tokenise line))
    = Some s ->
  parse line
  = Some (match ended s with
          | Ok (Some expr, _) =>
              bind (printed s, Ok tt) (fun _ => evaluate expr)
          | Ok (None, _) => (printed s, Raise AttributeError)
          | Raise e => (printed s, Raise e)
          | Outside => (printed s, Outside)
          end).
Proof.
  intros Hne Hs. unfold parse. destruct (tokenise line) as [|t ts] eqn:E;
    [congruence|].
  rewrite Hs. destruct s as [out ops [[[expr|] p]| e |]]; reflexivity.
Qed.

Lemma bind_print_nothing {A} (m : io A) :
  bind ([], Ok tt) (fun _ => m) = m.
Proof. destruct m as [out r]. reflexivity. Qed.

Lemma valid_tokens text :
  syntactically_valid text -> tokenise text <> [].
Proof.
  intros (_ & ops & tree & p & Hrun & _) E. rewrite E in Hrun.
  vm_compute in Hrun. discriminate.
Qed.

(** ** The tokeniser *)

(** X1. Every token that [tokenise] returns is a predefined token or a
    non-empty run of number characters: no token is empty, and no token
    has a whitespace character. *)
Theorem tokenise_token_shape (line t : string) :
  In t (tokenise line) ->
  scanned_token t /\ t <> EmptyString /\ without_whitespace t = t.
Proof.
  intros Hin%tokenise_tokens. split; [exact Hin|]. split.
  - intros ->. apply scanned_token_nonempty in Hin. discriminate.
  - apply without_whitespace_token, Hin.
Qed.

(** X2. The tokens of a line, written one after the other, are the part
    of the line that [tokenise] has read with its whitespace removed;
    the place where it stops is within the line. *)
Theorem tokenise_round_trip (line : string) :
  concat_tokens (tokenise line)
  = without_whitespace (Py.slice 0 (snd (tokenise_state line)) line) /\
  snd (tokenise_state line) <= String.length line.
Proof.
  unfold tokenise, Py.slice. rewrite tokenise_state_scan, Nat.sub_0_r.
  split; [apply scan_all_concat | apply scan_all_consumed].
Qed.

(** X3. Tokenising is idempotent: the tokens of a line, joined by single
    blanks, are read back as the same tokens, to the end of the text. *)
Theorem tokenise_joined_tokens (line : string) :
  tokenise (joined (tokenise line)) = tokenise line /\
  snd (tokenise_state (joined (tokenise line)))
  = String.length (joined (tokenise line)).
Proof.
  assert (H : Forall scanned_token (tokenise line)).
  { apply List.Forall_forall. intros t. apply tokenise_tokens. }
  unfold tokenise at 1. rewrite !tokenise_state_scan.
  rewrite (scan_all_joined _ H). split; reflexivity.
Qed.

(** X4. Where a text that [tokenise] reads to its end is followed by a
    character that is no number character and not the second character
    of a two-character token, the tokens of the whole are the tokens of
    the text followed by the tokens of the rest. *)
Theorem tokenise_append (s : string) (c : ascii) (rest : string) :
  snd (tokenise_state s) = String.length s ->
  is_number_char c = false -> second_of_predefined c = false ->
  tokenise (s +:+ String c rest) = tokenise s ++ tokenise (String c rest).
Proof.
  intros Hend Hn Hp. unfold tokenise in *. rewrite !tokenise_state_scan in *.
  rewrite (scan_all_app _ _ _ Hn Hp).
  destruct (scan_all s) as [ts k]. simpl in Hend. subst k.
  rewrite Nat.eqb_refl. destruct (scan_all (String c rest)). reflexivity.
Qed.

(** X5. The [for] loop over [Predefined_Tokens] takes the longest
    predefined token found at [start]: ["**"] is one token, not two. *)
Theorem find_predefined_longest (line : string) (start : nat)
    (tok tok' : string) :
  find_predefined line start Predefined_Tokens = Some tok ->
  In tok Predefined_Tokens /\
  Py.slice start (start + String.length tok) line = tok /\
  (In tok' Predefined_Tokens ->
   Py.slice start (start + String.length tok') line = tok' ->
   String.length tok' <= String.length tok).
Proof.
  rewrite find_predefined_first. intros Hf.
  change (first_predefined (Py.slice_from start line) = Some tok) in Hf.
  destruct (first_predefined_starts _ _ Hf) as [Hin Hs].
  split; [exact Hin|]. split.
  - rewrite slice_slice_from. apply starts_with_substring, Hs.
  - intros Hin' Hs'. apply (first_predefined_longest _ _ _ Hf Hin').
    rewrite <- substring_starts_with, <- slice_slice_from, Hs'.
    apply String.eqb_refl.
Qed.

(** ** The operator table *)

(** X6. [build_Op_Table] sets the entries of the fourteen operator keys
    and leaves every other entry of the table as it was; running it again
    changes nothing, so [setup()] may be called more than once. *)
Theorem build_Op_Table_idempotent :
  (forall table key,
     build_Op_Table table !! key
     = match Op_Table !! key with
       | Some d => Some d
       | None => table !! key
       end) /\
  (forall table,
     build_Op_Table (build_Op_Table table) = build_Op_Table table) /\
  build_Op_Table Op_Table = Op_Table.
Proof.
  split; [|split].
  - intros table key. rewrite build_Op_Table_lookup, Op_Table_lookup.
    reflexivity.
  - apply build_Op_Table_twice.
  - apply build_Op_Table_twice.
Qed.

(** X7. The operator table and the tokens agree: every binary operator
    of the table is a predefined token that [tokenise] reads as itself,
    every predefined token is a binary operator, a parenthesis or [~],
    and the key of every unary operator is a predefined token followed by
    [" x"]. *)
Theorem operators_are_tokens :
  (forall op, binary_operator op = true ->
     In op Predefined_Tokens /\ tokenise op = [op]) /\
  (forall t, In t Predefined_Tokens ->
     binary_operator t = true \/ In t ["("; ")"; "~"]) /\
  (forall op, unary_key op = true ->
     exists t, In t Predefined_Tokens /\ prefix_operator t = true /\
               op = t +:+ " x").
Proof.
  split; [|split].
  - intros op H%binary_operator_cases. simpl in H.
    repeat (destruct H as [<-|H];
            [split; [simpl; auto 20 | vm_compute; reflexivity]|]).
    destruct H.
  - intros t H. simpl in H.
    repeat (destruct H as [<-|H];
            [first [left; vm_compute; reflexivity | right; simpl; auto]|]).
    destruct H.
  - intros op H%unary_key_cases. simpl in H.
    destruct H as [<-|[<-|[<-|[]]]].
    + exists "~". repeat split; simpl; auto 20.
    + exists "-". repeat split; simpl; auto 20.
    + exists "+". repeat split; simpl; auto 20.
Qed.

(** ** Expressions *)

(** X8. [__str__] and [__repr__]: the text of an expression is [")"]
    alone exactly when the expression [is_empty()]; otherwise it is the
    attributes that are set, in the order token, left, operator, right,
    between a pair of parentheses. *)
Theorem Expr_str_shape (e : Expr) :
  Expr_repr e = Expr_str e /\
  (is_empty e = true <-> Expr_str e = ")") /\
  (is_empty e = false ->
   exists w, str_parts e = w +:+ " " /\ Expr_str e = "(" +:+ w +:+ ")").
Proof.
  split; [reflexivity|].
  assert (Hfull : is_empty e = false ->
            exists w, str_parts e = w +:+ " " /\
                      Expr_str e = "(" +:+ w +:+ ")").
  { intros He. destruct (str_parts_blank _ He) as [w Hw]. exists w.
    split; [exact Hw | apply Expr_str_blank, Hw]. }
  split; [|exact Hfull]. split.
  - intros He. rewrite Expr_str_parts, (str_parts_empty _ He). reflexivity.
  - intros Hs. destruct (is_empty e) eqn:He; [reflexivity|].
    destruct (Hfull eq_refl) as (w & _ & Hw). rewrite Hw in Hs. discriminate.
Qed.

(** ** The parser *)

Lemma tokenise_scanned line t : In t (tokenise line) -> scanned_token t.
Proof. apply tokenise_tokens. Qed.

Lemma parsed_class_count ts e :
  (forall t, In t ts -> scanned_token t) ->
  parsed ts e ->
  class_count e = 1 /\
  (Py.opt_truthy (Expr_op e) = true -> present (Expr_right e) = true).
Proof.
  intros Hts He. unfold class_count, classes.
  destruct He as [|tok Htok Hnop|e He|op e Hu He|op l r Hb Hin Hl Hr];
    unfold is_empty, is_token, is_unary_expr, is_parenth_expr, is_binary_exprs;
    cbn [Expr_tok Expr_op Expr_left Expr_right Py.opt_truthy present].
  - split; [reflexivity | discriminate].
  - rewrite (scanned_token_nonempty _ (Hts _ Htok)).
    split; [reflexivity | discriminate].
  - split; [reflexivity | discriminate].
  - rewrite (unary_key_nonempty _ Hu). split; reflexivity.
  - rewrite (binary_operator_nonempty _ Hb). split; reflexivity.
Qed.

(** X9. [parse_expr] ends on every list of tokens: the two [while True]
    loops are left. The run does not depend on the fuel of the embedding;
    it keeps the tokens, and what it returns is an expression; the call
    [Expr(ops=op, right=rhs)], a [TypeError], is reached on no list of
    tokens. *)
Theorem parse_expr_terminates (tokens : list string) :
  exists s,
    parse_expr (parse_fuel tokens) 0 (Parser_init tokens) = Some s /\
    (forall fuel, parse_fuel tokens <= fuel ->
       parse_expr fuel 0 (Parser_init tokens) = Some s) /\
    (forall r p, ended s = Ok (r, p) ->
       is_Some r /\ current_tokens p = tokens) /\
    ended s <> Raise TypeError.
Proof.
  destruct (parse_expr_fuel tokens) as [s Hs]. exists s.
  split; [exact Hs|]. split.
  - intros fuel Hf. destruct (parser_fuel_mono (parse_fuel tokens))
      as (_ & Hmono & _).
    apply Hmono; assumption.
  - destruct (parser_keeps tokens (parse_fuel tokens)) as (_ & Ke & _).
    destruct (Ke 0 (Parser_init tokens) s eq_refl Hs) as (_ & Hn & Hok).
    split; [|exact Hn]. intros r p Hr.
    destruct (Hok r p Hr) as (Ht & _ & Hsome). auto.
Qed.

(** X10. The trees of the parser. On the tokens of a line, what
    [parse_expr] returns is built from the empty expression, leaves that
    hold a token of the line that is no operator, parenthesised trees,
    nodes of a prefix operator and nodes of a binary operator. Such a
    tree passes exactly one of the tests [is_empty], [is_token],
    [is_unary_expr], [is_parenth_expr] and [is_binary_exprs], and has a
    right operand wherever it has an operator. *)
Theorem parser_tree_shape (line : string) :
  (forall s r p,
     parse_expr (parse_fuel (tokenise line)) 0 (Parser_init (tokenise line))
       = Some s ->
     ended s = Ok (r, p) ->
     exists e, r = Some e /\ parsed (tokenise line) e) /\
  (forall e, parsed (tokenise line) e ->
     class_count e = 1 /\
     (Py.opt_truthy (Expr_op e) = true -> present (Expr_right e) = true)).
Proof.
  split.
  - intros s r p Hs Hr.
    destruct (parser_outcome _ (tokenise_scanned line)
                (parse_fuel (tokenise line))) as (_ & Ho & _).
    destruct (Ho 0 (Parser_init (tokenise line)) s eq_refl Hs) as [_ H].
    rewrite Hr in H. destruct H as (_ & He & _). exact He.
  - intros e. apply parsed_class_count, tokenise_scanned.
Qed.

(** X11. On the tokens of a line the parser prints nothing but its three
    parse errors, and the only exception it raises is [KeyError], which
    it raises only after it has printed a parse error. *)
Theorem parser_raises_KeyError_only (line : string) :
  exists s,
    parse_expr (parse_fuel (tokenise line)) 0 (Parser_init (tokenise line))
      = Some s /\
    Forall (parser_message (tokenise line)) (printed s) /\
    ended s <> Outside /\
    forall e, ended s = Raise e -> e = KeyError /\ printed s <> [].
Proof.
  destruct (parse_expr_fuel (tokenise line)) as [s Hs]. exists s.
  split; [exact Hs|].
  destruct (parser_outcome _ (tokenise_scanned line)
              (parse_fuel (tokenise line))) as (_ & Ho & _).
  destruct (Ho 0 (Parser_init (tokenise line)) s eq_refl Hs) as [HL H].
  split; [exact HL|]. split.
  - intros E. rewrite E in H. exact H.
  - intros e E. rewrite E in H. destruct H as [-> Hp]. auto.
Qed.

(** X12. A line whose first token is a binary operator other than [+] and
    [-] ends in an uncaught [KeyError], after the parse error that says
    so: the empty expression that stands for the missing operand has no
    operator to look up. *)
Theorem leading_operator_KeyError (line op : string) (rest : list string) :
  tokenise line = op :: rest ->
  binary_operator op = true -> op <> "+" -> op <> "-" ->
  exists out,
    parse line
    = Some (("Parse error: expected an atom, not an operator "
             +:+ Py.dquote +:+ op +:+ Py.dquote) :: out,
            Raise KeyError).
Proof.
  intros Htok Hop Hplus Hminus.
  assert (Hpre : Py.list_in op ["-"; "+"; "~"; "not"] = false).
  { unfold Py.list_in. cbn [existsb].
    destruct (String.eqb_spec op "-"); [contradiction|].
    destruct (String.eqb_spec op "+"); [contradiction|].
    destruct (String.eqb_spec op "~") as [->|];
      [vm_compute in Hop; discriminate|].
    destruct (String.eqb_spec op "not") as [->|];
      [vm_compute in Hop; discriminate|].
    reflexivity. }
  destruct (parse_expr_leading_operator op rest) as (out & ops & Hrun);
    [|exact Hop|exact Hpre|].
  { intros t Ht. apply (tokenise_scanned line). rewrite Htok. exact Ht. }
  exists out. rewrite <- Htok in Hrun.
  rewrite (parse_of_run _ _ ltac:(rewrite Htok; discriminate) Hrun).
  reflexivity.
Qed.

(** X13. How two operators group. In a line of three literals and two
    binary operators, the first operator takes the two literals around it
    if the second has a lower precedence, or the same precedence and the
    first groups to the left; otherwise the second operator is applied
    first. *)
Theorem three_literals_grouping (a o1 b o2 c : string) :
  number_token a = true -> number_token b = true -> number_token c = true ->
  binary_operator o1 = true -> binary_operator o2 = true ->
  parse_tree (joined [a; o1; b; o2; c])
  = Some (if groups_left o1 o2
          then BinaryNode o2 (BinaryNode o1 (Leaf a) (Leaf b)) (Leaf c)
          else BinaryNode o1 (Leaf a) (BinaryNode o2 (Leaf b) (Leaf c))).
Proof.
  intros Ha Hb Hc H1 H2.
  destruct (number_token_parts _ Ha) as [Sa La].
  destruct (number_token_parts _ Hb) as [Sb Lb].
  destruct (number_token_parts _ Hc) as [Sc Lc].
  unfold parse_tree. rewrite tokenise_joined.
  2:{ pose proof (binary_operator_scanned _ H1).
      pose proof (binary_operator_scanned _ H2).
      repeat (constructor; [assumption|]). constructor. }
  destruct (parse_expr_three a o1 b o2 c La Lb Lc H1 H2) as [ops ->].
  reflexivity.
Qed.

(** X14. Parentheses group against precedence and associativity, for
    every pair of binary operators: [(a o1 b) o2 c] applies [o1] first,
    and the tree keeps no trace of the parentheses; [a o1 (b o2 c)]
    applies [o2] first, and the tree keeps the parentheses as a node that
    evaluates to what is inside. *)
Theorem parenthesised_grouping (a o1 b o2 c : string) :
  number_token a = true -> number_token b = true -> number_token c = true ->
  binary_operator o1 = true -> binary_operator o2 = true ->
  parse_tree (joined ["("; a; o1; b; ")"; o2; c])
    = Some (BinaryNode o2 (BinaryNode o1 (Leaf a) (Leaf b)) (Leaf c)) /\
  parse_tree (joined [a; o1; "("; b; o2; c; ")"])
    = Some (BinaryNode o1 (Leaf a) (Paren (BinaryNode o2 (Leaf b) (Leaf c)))) /\
  evaluate (BinaryNode o1 (Leaf a) (Paren (BinaryNode o2 (Leaf b) (Leaf c))))
    = evaluate (BinaryNode o1 (Leaf a) (BinaryNode o2 (Leaf b) (Leaf c))).
Proof.
  intros Ha Hb Hc H1 H2.
  destruct (number_token_parts _ Ha) as [Sa La].
  destruct (number_token_parts _ Hb) as [Sb Lb].
  destruct (number_token_parts _ Hc) as [Sc Lc].
  pose proof (binary_operator_scanned _ H1) as S1.
  pose proof (binary_operator_scanned _ H2) as S2.
  assert (Sopen : scanned_token "(") by (left; simpl; tauto).
  assert (Sclose : scanned_token ")") by (left; simpl; tauto).
  split; [|split].
  - unfold parse_tree. rewrite tokenise_joined
      by (repeat (constructor; [assumption|]); constructor).
    destruct (parse_expr_parenth_left a o1 b o2 c La Lb Lc H1 H2)
      as (ops & p & ->).
    reflexivity.
  - unfold parse_tree. rewrite tokenise_joined
      by (repeat (constructor; [assumption|]); constructor).
    destruct (parse_expr_parenth_right a o1 b o2 c La Lb Lc H1 H2)
      as (ops & p & ->).
    reflexivity.
  - assert (Ho : Py.str_truthy o1 = true).
    { apply binary_operator_cases in H1. simpl in H1.
      repeat (destruct H1 as [<-|H1]; [reflexivity|]). destruct H1. }
    assert (Hnode : forall r, evaluate (BinaryNode o1 (Leaf a) r)
              = (do x <- evaluate (Leaf a); do y <- evaluate r;
                 apply_op o1 x y)%io).
    { intros r. unfold BinaryNode. cbn [evaluate]. unfold is_parenth_expr.
      cbn [Expr_op Py.opt_truthy]. rewrite Ho. cbn [negb andb].
      rewrite !operand_value. reflexivity. }
    rewrite !Hnode. unfold Paren at 1. rewrite evaluate_paren. reflexivity.
Qed.

(** X15. An opening parenthesis that is never closed is reported, and
    the line is evaluated all the same: before a syntactically valid
    text it adds the parse error to the output and leaves the value. *)
Theorem unmatched_parenthesis_reported (text : string) :
  syntactically_valid text ->
  exists out r,
    parse text = Some (out, r) /\
    parse ("(" +:+ text)
    = Some (("Parse error: unmatched " +:+ Py.dquote +:+ "(" +:+ Py.dquote)
            :: out, r).
Proof.
  intros Hv. pose proof (valid_tokens _ Hv) as Hne.
  destruct Hv as (Hscan & ops & tree & p & Hrun & Hidx).
  destruct (parse_expr_unmatched _ _ _ _ Hrun Hidx) as [q Hq].
  assert (Htok : tokenise ("(" +:+ text) = "(" :: tokenise text).
  { unfold tokenise. rewrite !tokenise_state_scan.
    change ("(" +:+ text) with (String "(" text). rewrite scan_all_cons.
    change (is_whitespace "(") with false. cbv iota.
    replace (first_predefined (String "(" text)) with (Some "(")
      by reflexivity.
    change (Py.slice_from (String.length "(") (String "(" text)) with text.
    destruct (scan_all text). reflexivity. }
  rewrite <- Htok in Hq.
  exists (fst (evaluate tree)), (snd (evaluate tree)). split.
  - rewrite (parse_of_run _ _ Hne Hrun). cbn [ended printed].
    rewrite bind_print_nothing. destruct (evaluate tree). reflexivity.
  - rewrite (parse_of_run _ _ ltac:(rewrite Htok; discriminate) Hq).
    cbn [ended printed]. rewrite evaluate_paren.
    destruct (evaluate tree) as [out [v| e |]]; reflexivity.
Qed.

(** X16. What comes after a complete expression is ignored without a
    word: if a syntactically valid text is followed by characters whose
    first token is no operator (a literal, a parenthesis, or nothing the
    tokeniser can read), the line has the output and the value of the
    text alone. *)
Theorem trailing_tokens_ignored (text : string) (c : ascii) (rest : string) :
  syntactically_valid text ->
  is_number_char c = false -> second_of_predefined c = false ->
  (forall t, head (tokenise (String c rest)) = Some t ->
             in_Op_Table t = false) ->
  parse (text +:+ String c rest) = parse text.
Proof.
  intros Hv Hn Hp Hhead. pose proof (valid_tokens _ Hv) as Hne.
  destruct Hv as (Hscan & ops & tree & p & Hrun & Hidx).
  assert (Htok : tokenise (text +:+ String c rest)
                 = tokenise text ++ tokenise (String c rest)).
  { unfold tokenise in *. rewrite !tokenise_state_scan in *.
    rewrite (scan_all_app _ _ _ Hn Hp).
    destruct (scan_all text) as [ts k]. simpl in Hscan. subst k.
    rewrite Nat.eqb_refl. destruct (scan_all (String c rest)). reflexivity. }
  pose proof (parse_expr_trailing _ _ _ _ _ Hhead Hrun) as Hq.
  rewrite <- Htok in Hq.
  rewrite (parse_of_run _ _ Hne Hrun).
  rewrite (parse_of_run _ _ ltac:(rewrite Htok; destruct (tokenise text);
                                  [congruence | discriminate]) Hq).
  reflexivity.
Qed.

(** X17. A line that follows the grammar (atoms separated by binary
    operators, an atom being a literal, an expression in parentheses or a
    prefix operator before an atom) is parsed without a parse error into
    a tree, and [parse] is the evaluation of that tree, which prints
    nothing but the reports of a zero divisor and raises nothing but
    exceptions of the arithmetic. *)
Theorem well_formed_lines (text : string) :
  snd (tokenise_state text) = String.length text ->
  well_formed (tokenise text) = true ->
  exists tree,
    parse_tree text = Some tree /\
    parsed (tokenise text) tree /\
    parse text = Some (evaluate tree) /\
    evaluates (evaluate tree).
Proof.
  intros Hscan Hwf.
  pose proof (well_formed_valid _ Hscan Hwf) as Hv.
  pose proof (valid_tokens _ Hv) as Hne.
  destruct Hv as (_ & ops & tree & p & Hrun & Hidx).
  exists tree. split; [unfold parse_tree; rewrite Hrun; reflexivity|].
  assert (Hp : parsed (tokenise text) tree).
  { destruct (parser_outcome _ (tokenise_scanned text)
                (parse_fuel (tokenise text))) as (_ & Ho & _).
    destruct (Ho 0 (Parser_init (tokenise text)) _ eq_refl Hrun) as [_ H].
    simpl in H. destruct H as (_ & (e & [= <-] & He) & _). exact He. }
  split; [exact Hp|]. split.
  - rewrite (parse_of_run _ _ Hne Hrun). cbn [ended printed].
    rewrite bind_print_nothing. reflexivity.
  - apply (evaluate_parsed _ _ (tokenise_scanned text) Hp).
Qed.

(** ** The evaluator *)

(** X18. [parse] ends on every line. It prints nothing but the three
    parse errors of the parser and the reports of a zero divisor: the
    reports ["has too few items"], ["leaf node wasn't a literal number"]
    and ["Error: evaluating"] of [evaluate] are never printed. The only
    exceptions it raises are a [KeyError], after a parse error, and
    [TypeError], [ValueError], [ZeroDivisionError] and [OverflowError] of
    the arithmetic: never the [AttributeError] of [lhs.is_token()] on
    [None]. *)
Theorem parse_outcome (line : string) :
  exists out r,
    parse line = Some (out, r) /\
    Forall (fun msg => parser_message (tokenise line) msg \/
                       evaluator_message msg) out /\
    forall e, r = Raise e ->
      (e = KeyError /\ out <> []) \/ arithmetic_exn e.
Proof.
  destruct (tokenise line) as [|t ts] eqn:Etok.
  { exists [], (Ok VNone). unfold parse. rewrite Etok.
    split; [reflexivity|]. split; [constructor | discriminate]. }
  destruct (parse_expr_fuel (tokenise line)) as [s Hs].
  assert (Hne : tokenise line <> []) by (rewrite Etok; discriminate).
  rewrite (parse_of_run _ _ Hne Hs).
  destruct (parser_outcome _ (tokenise_scanned line)
              (parse_fuel (tokenise line))) as (_ & Ho & _).
  destruct (Ho 0 (Parser_init (tokenise line)) s eq_refl Hs) as [HL H].
  rewrite <- Etok.
  assert (HL' : Forall (fun msg => parser_message (tokenise line) msg \/
                                   evaluator_message msg) (printed s)).
  { eapply Forall_impl; [exact HL|]. auto. }
  destruct s as [out ops [[r p]| e |]]; cbn [ended printed] in *.
  - destruct H as (_ & (tree & -> & Hp) & _).
    destruct (evaluate_parsed _ _ (tokenise_scanned line) Hp) as [E1 E2].
    destruct (evaluate tree) as [out' r'] eqn:Ev. cbn [fst snd] in E1, E2.
    exists (out ++ out'), r'. split; [reflexivity|]. split.
    + apply Forall_app. split; [exact HL'|].
      eapply Forall_impl; [exact E1|]. auto.
    + intros e He. right. apply E2, He.
  - destruct H as [-> Hp]. exists out, (Raise KeyError).
    split; [reflexivity|]. split; [exact HL'|].
    intros e [= <-]. left. auto.
  - destruct H.
Qed.

(** X19. [to_number] returns an [int] or a [float], or raises
    [ValueError]: it raises nothing else and never returns [None]. *)
Theorem to_number_result (tok : string) :
  (exists z, to_number tok = Ok (VInt z)) \/
  (exists f, to_number tok = Ok (VFloat f)) \/
  to_number tok = Raise ValueError.
Proof.
  pose proof (to_number_outcome tok) as H.
  destruct (to_number tok) as [[|z|f]| e |]; try contradiction; eauto.
  subst e. auto.
Qed.

(** ** Lines and their values *)

Lemma decimal_value_nonneg a : (0 <= decimal_value a)%Z.
Proof. apply numeral_nonneg; lia. Qed.

(** X20. The result of a line [a op b] of two decimal literals, for the
    operators that return an integer: the difference, the product, the
    bitwise or, exclusive or and and, the right shift and, for a divisor
    that is not zero, the remainder. *)
Theorem binary_lines_values (a b : string) :
  decimal_literal a = true -> decimal_literal b = true ->
  let x := decimal_value a in
  let y := decimal_value b in
  parse (binary_line a "-" b) = Some ([], Ok (VInt (x - y))) /\
  parse (binary_line a "*" b) = Some ([], Ok (VInt (x * y))) /\
  parse (binary_line a "|" b) = Some ([], Ok (VInt (Z.lor x y))) /\
  parse (binary_line a "^" b) = Some ([], Ok (VInt (Z.lxor x y))) /\
  parse (binary_line a "&" b) = Some ([], Ok (VInt (Z.land x y))) /\
  parse (binary_line a ">>" b) = Some ([], Ok (VInt (Z.shiftr x y))) /\
  parse (binary_line a "%" b)
  = Some (if (y =? 0)%Z then (["Error: modulo by zero."], Ok VNone)
          else ([], Ok (VInt (x mod y)))).
Proof.
  intros Ha Hb x y.
  rewrite !parse_binary_line by (assumption || reflexivity).
  fold x y. repeat (split; [reflexivity|]). split.
  - unfold apply_op, py_shift. cbn [String.eqb Ascii.eqb Bool.eqb].
    pose proof (decimal_value_nonneg b) as Hy. fold y in Hy.
    destruct (Z.ltb_spec y 0); [lia | reflexivity].
  - unfold apply_op. cbn [String.eqb Ascii.eqb Bool.eqb truthy].
    destruct (Z.eqb_spec y 0) as [->|Hy]; [reflexivity|].
    cbn [negb py_int rbind py_mod].
    destruct (Z.eqb_spec y 0); [contradiction | reflexivity].
Qed.

(** X21. The result of a prefix operator before a decimal literal:
    [-a] is the negative, [+a] the number itself and [~a] the bitwise
    complement [-a - 1]. *)
Theorem unary_lines_values (a : string) :
  decimal_literal a = true ->
  parse ("-" +:+ a) = Some ([], Ok (VInt (- decimal_value a))) /\
  parse ("+" +:+ a) = Some ([], Ok (VInt (decimal_value a))) /\
  parse ("~" +:+ a) = Some ([], Ok (VInt (- decimal_value a - 1))).
Proof.
  intros Ha. pose proof (decimal_literal_token _ Ha) as La.
  assert (H : forall c, prefix_operator (Py.char_str c) = true ->
            parse (String c a)
            = Some (apply_op (Py.char_str c +:+ " x") VNone
                             (VInt (decimal_value a)))).
  { intros c Hc. pose proof (tokenise_prefixed c a Hc Ha) as Htok.
    pose proof (parse_expr_unary _ _ Hc La) as Hrun. rewrite <- Htok in Hrun.
    rewrite (parse_of_run _ _ ltac:(rewrite Htok; discriminate) Hrun).
    cbn [ended printed]. rewrite bind_print_nothing.
    rewrite (evaluate_unary_decimal _ _ Hc Ha). reflexivity. }
  change ("-" +:+ a) with (String "-" a).
  change ("+" +:+ a) with (String "+" a).
  change ("~" +:+ a) with (String "~" a).
  rewrite !H by reflexivity. split; [reflexivity|]. split; [reflexivity|].
  change (Py.char_str "~" +:+ " x") with "~ x".
  unfold apply_op. cbn [String.eqb Ascii.eqb Bool.eqb py_int rbind lift].
  replace (Z.lnot (decimal_value a)) with (- decimal_value a - 1)%Z
    by (unfold Z.lnot; lia).
  reflexivity.
Qed.

(** X22. A line that ends after a binary operator. The parser reports
    that the source ended and puts the empty expression in the place of
    the right operand, which evaluates to [None]: division and modulo
    then report a zero divisor, and every other operator raises an
    uncaught exception, a [TypeError] (for [**], after the left operand
    has been converted to float). *)
Theorem missing_operand (a op : string) :
  decimal_literal a = true -> binary_operator op = true ->
  parse (a +:+ " " +:+ op)
  = Some (if String.eqb op "/"
          then (["Parse error: source ended unexpectedly";
                 "Error: division by zero."], Ok VNone)
          else if String.eqb op "%"
          then (["Parse error: source ended unexpectedly";
                 "Error: modulo by zero."], Ok VNone)
          else if String.eqb op "**"
          then (["Parse error: source ended unexpectedly"],
                rbind (py_float (VInt (decimal_value a)))
                      (fun _ => Raise TypeError))
          else (["Parse error: source ended unexpectedly"],
                Raise TypeError)).
Proof.
  intros Ha Hop. pose proof (decimal_literal_token _ Ha) as La.
  assert (Htok : tokenise (a +:+ " " +:+ op) = [a; op]).
  { apply (tokenise_joined [a; op]).
    constructor; [right|].
    - destruct (decimal_literal_parts _ Ha) as (Hne & Hall & _).
      split; [exact Hne|]. clear Ha La Hne.
      induction a as [|c a IH]; [reflexivity|]. cbn [all_digits] in Hall.
      destruct (Text.digit_value c) as [d|] eqn:Ed; [|discriminate].
      apply andb_prop in Hall as [Hd Hall]. apply Z.ltb_lt in Hd.
      destruct (decimal_digit_char _ _ Ed Hd) as (_ & _ & Hc & _).
      cbn [all_number_chars]. rewrite Hc, (IH Hall). reflexivity.
    - constructor; [apply binary_operator_scanned, Hop | constructor]. }
  pose proof (parse_expr_missing _ _ La Hop) as Hrun. rewrite <- Htok in Hrun.
  rewrite (parse_of_run _ _ ltac:(rewrite Htok; discriminate) Hrun).
  cbn [ended printed]. rewrite (evaluate_missing_decimal _ _ Ha Hop).
  apply binary_operator_cases in Hop. simpl in Hop.
  repeat (destruct Hop as [<-|Hop]; [reflexivity|]). destruct Hop.
Qed.

(** X23. A line of whitespace only, and a line whose first character
    after the whitespace cannot be read, have no tokens: [parse] returns
    [None] for them and prints nothing. *)
Theorem blank_line (ws : string) :
  all_whitespace ws = true ->
  tokenise ws = [] /\
  parse ws = Some ([], Ok VNone) /\
  forall c rest, stops_scan c = true ->
    tokenise (ws +:+ String c rest) = [] /\
    parse (ws +:+ String c rest) = Some ([], Ok VNone).
Proof.
  intros Hws.
  assert (H1 : tokenise ws = []).
  { unfold tokenise. rewrite tokenise_state_scan, (scan_all_whitespace _ Hws).
    reflexivity. }
  assert (H2 : forall c rest, stops_scan c = true ->
            tokenise (ws +:+ String c rest) = []).
  { intros c rest Hc. unfold tokenise. rewrite tokenise_state_scan.
    clear H1. induction ws as [|w ws IH].
    - change ("" +:+ String c rest) with (String c rest).
      rewrite (scan_all_stops _ _ Hc). reflexivity.
    - cbn [all_whitespace] in Hws. apply andb_prop in Hws as [Hw Hws].
      change (String w ws +:+ String c rest)
        with (String w (ws +:+ String c rest)).
      rewrite scan_all_cons, Hw. specialize (IH Hws).
      destruct (scan_all (ws +:+ String c rest)). exact IH. }
  split; [exact H1|]. split.
  - unfold parse. rewrite H1. reflexivity.
  - intros c rest Hc. split; [apply H2, Hc|].
    unfold parse. rewrite (H2 c rest Hc). reflexivity.
Qed.

(** ** Literals: floats and long integers *)

Lemma not_prefixed a c rest c2 :
  all_digits 10 a = true -> (c = "." \/ c = "e" \/ c = "E")%char ->
  In c2 ["x"; "X"; "o"; "b"]%char ->
  starts_with (String "0" (String c2 "")) (a +:+ String c rest) = false.
Proof.
  intros Ha Hc Hc2.
  destruct a as [|c1 [|c3 a']].
  - change ("" +:+ String c rest) with (String c rest). cbn [starts_with].
    destruct Hc as [-> | [-> | ->]]; reflexivity.
  - change (String c1 "" +:+ String c rest) with (String c1 (String c rest)).
    cbn [starts_with]. rewrite andb_true_r.
    replace (Ascii.eqb c2 c) with false; [apply andb_false_r|].
    symmetry. apply Ascii.eqb_neq. simpl in Hc2.
    destruct Hc as [-> | [-> | ->]];
      destruct Hc2 as [<-|[<-|[<-|[<-|[]]]]]; discriminate.
  - change (String c1 (String c3 a') +:+ String c rest)
      with (String c1 (String c3 (a' +:+ String c rest))).
    cbn [starts_with]. rewrite andb_true_r.
    replace (Ascii.eqb c2 c3) with false; [apply andb_false_r|].
    symmetry. apply Ascii.eqb_neq. intros <-.
    cbn [all_digits] in Ha.
    destruct (Text.digit_value c1); [|discriminate].
    apply andb_prop in Ha as [_ Ha].
    destruct (Text.digit_value c2) as [d|] eqn:Ed; [|discriminate].
    apply andb_prop in Ha as [Hd _]. apply Z.ltb_lt in Hd.
    destruct (digit_value_ascii _ _ Ed)
      as (_ & _ & _ & _ & _ & _ & _ & Hx & Ho & Hb & _).
    simpl in Hc2. destruct Hc2 as [<-|[<-|[<-|[<-|[]]]]];
      [specialize (Hx ltac:(auto)) | specialize (Hx ltac:(auto))
       | specialize (Ho ltac:(auto)) | specialize (Hb ltac:(auto))]; lia.
Qed.

Lemma occurs_after a c rest : occurs c (a +:+ String c rest) = true.
Proof.
  induction a as [|c1 a IH].
  - change ("" +:+ String c rest) with (String c rest). cbn [occurs].
    rewrite Ascii.eqb_refl. reflexivity.
  - change (String c1 a +:+ String c rest)
      with (String c1 (a +:+ String c rest)).
    cbn [occurs]. rewrite IH. apply orb_true_r.
Qed.

(** A literal of digits before a point or an exponent is a float
    literal. *)
Lemma to_number_floating a c rest :
  all_digits 10 a = true -> (c = "." \/ c = "e" \/ c = "E")%char ->
  to_number (a +:+ String c rest)
  = rbind (py_float_str (a +:+ String c rest)) (fun f => Ok (VFloat f)).
Proof.
  intros Ha Hc. rewrite to_number_by_format.
  unfold number_of_literal, format_of.
  rewrite !(not_prefixed a c rest) by (auto; simpl; auto).
  cbn [orb].
  destruct Hc as [-> | [-> | ->]]; rewrite (occurs_after a _ rest);
    rewrite ?orb_true_r; reflexivity.
Qed.

Lemma plain_char_point : plain_char ".".
Proof. repeat split; discriminate. Qed.

Lemma plain_char_e : plain_char "e".
Proof. repeat split; discriminate. Qed.

Lemma plain_char_E : plain_char "E".
Proof. repeat split; discriminate. Qed.

Lemma all_digits_first c a :
  all_digits 10 (String c a) = true -> Text.is_digit c = true.
Proof.
  cbn [all_digits]. destruct (Text.digit_value c) as [d|] eqn:Ed;
    [|discriminate].
  intros [Hd _]%andb_prop. apply Z.ltb_lt in Hd.
  destruct (decimal_digit_code _ _ Ed Hd) as (H & _). exact H.
Qed.

(** X24. A literal of decimal digits with a decimal point is the float
    nearest to the decimal fraction its digits write: the digits before
    and after the point give the numerator, the number of digits after
    the point the power of ten of the denominator. With no digit after
    the point it is the float of the integer before it. *)
Theorem float_literal_value (a b : string) :
  all_digits 10 a = true -> all_digits 10 b = true ->
  a +:+ b <> EmptyString ->
  to_number (a +:+ "." +:+ b)
  = Ok (VFloat (F64.of_decimal false (numeral 10 (a +:+ b) 0)
                               (- Z.of_nat (String.length b)))) /\
  (a <> EmptyString ->
   to_number (a +:+ ".") = Ok (VFloat (F64.of_Z (decimal_value a)))).
Proof.
  intros Ha Hb Hne.
  assert (Hval : forall b', all_digits 10 b' = true ->
            a +:+ b' <> EmptyString ->
            to_number (a +:+ "." +:+ b')
            = Ok (VFloat (F64.of_decimal false (numeral 10 (a +:+ b') 0)
                                         (- Z.of_nat (String.length b'))))).
  { clear b Hb Hne. intros b Hb Hne.
    change (a +:+ "." +:+ b) with (a +:+ String "." b).
    rewrite (to_number_floating a "." b Ha) by auto.
    assert (Hp : plain (a +:+ String "." b)).
    { apply plain_app; [apply (all_digits_plain 10), Ha|].
      split; [apply plain_char_point | apply (all_digits_plain 10), Hb]. }
    assert (Hfirst : exists c s, a +:+ String "." b = String c s /\
                                 (Text.is_digit c = true \/ c = "."%char)).
    { destruct a as [|c a']; [exists "."%char, b; auto|].
      exists c, (a' +:+ String "." b). split; [reflexivity|].
      left. apply (all_digits_first _ _ Ha). }
    destruct Hfirst as (c & s & Es & Hc). rewrite Es in Hp |- *.
    rewrite (py_float_str_plain _ _ Hp Hc). rewrite <- Es.
    change (a +:+ String "." b) with (a +:+ "." +:+ b).
    rewrite (decimal_point _ _ Ha Hb Hne). reflexivity. }
  split; [apply Hval; assumption|]. intros Hane.
  change (a +:+ ".") with (a +:+ "." +:+ "").
  rewrite Hval; [|reflexivity|rewrite (append_empty_r a); exact Hane].
  rewrite (append_empty_r a).
  change (- Z.of_nat (String.length ""))%Z with 0%Z.
  unfold decimal_value, F64.of_decimal, F64.of_Z.
  pose proof (numeral_nonneg 10 a 0 ltac:(lia) ltac:(lia)) as Hn.
  destruct (numeral 10 a 0) as [|m|m] eqn:Em; [reflexivity| |lia].
  change (0 <=? 0)%Z with true. cbv iota.
  replace (cond_Zopp false (Z.pos m * 10 ^ 0)) with (Z.pos m)
    by (cbn [cond_Zopp]; lia).
  reflexivity.
Qed.

(** X25. An exponent with a sign cannot be written: the tokeniser ends
    the number at the [e], the sign is read as an operator, and the
    number that ends in [e] is not a float, so the line raises an uncaught
    [ValueError]. *)
Theorem signed_exponent_unsupported (a b : string) :
  decimal_literal a = true -> decimal_literal b = true ->
  tokenise (a +:+ "e-" +:+ b) = [a +:+ "e"; "-"; b] /\
  parse (a +:+ "e-" +:+ b) = Some ([], Raise ValueError) /\
  parse (a +:+ "e+" +:+ b) = Some ([], Raise ValueError).
Proof.
  intros Ha Hb.
  destruct (decimal_literal_parts _ Ha) as (Hane & Hall & _).
  assert (Hnum : number_token (a +:+ "e") = true).
  { unfold number_token. apply andb_true_intro. split.
    - destruct a; [congruence | reflexivity].
    - clear Ha Hane. induction a as [|c a IH]; [reflexivity|].
      change (String c a +:+ "e") with (String c (a +:+ "e")).
      cbn [all_digits] in Hall.
      destruct (Text.digit_value c) as [d|] eqn:Ed; [|discriminate].
      apply andb_prop in Hall as [Hd Hall]. apply Z.ltb_lt in Hd.
      destruct (decimal_digit_char _ _ Ed Hd) as (_ & _ & Hc & _).
      cbn [all_number_chars]. rewrite Hc, (IH Hall). reflexivity. }
  destruct (number_token_parts _ Hnum) as [Snum Lnum].
  assert (Htok : forall c, prefix_operator (Py.char_str c) = true ->
            is_number_char c = false -> second_of_predefined c = false ->
            tokenise (a +:+ "e" +:+ String c b)
            = [a +:+ "e"; Py.char_str c; b]).
  { intros c Hc Hn Hp. rewrite <- append_assoc.
    pose proof (tokenise_prefixed c b Hc Hb) as Hcb.
    unfold tokenise in *. rewrite tokenise_state_scan in *.
    rewrite (scan_all_app _ _ _ Hn Hp), (scan_all_token _ Snum), Nat.eqb_refl.
    destruct (scan_all (String c b)) as [ts k]. simpl in Hcb. subst ts.
    reflexivity. }
  assert (Hleft : to_number (a +:+ "e") = Raise ValueError).
  { change (a +:+ "e") with (a +:+ String "e" "").
    rewrite (to_number_floating a "e" "" Hall) by auto.
    destruct a as [|c a']; [congruence|].
    change (String c a' +:+ String "e" "") with (String c (a' +:+ "e")).
    rewrite py_float_str_plain.
    - change (String c (a' +:+ "e")) with (String c a' +:+ "e").
      destruct (decimal_exponent_missing _ Hall Hane) as (m & e10 & ->).
      reflexivity.
    - change (String c (a' +:+ "e")) with (String c a' +:+ "e").
      apply plain_app; [apply (all_digits_plain 10), Hall|].
      split; [apply plain_char_e | exact I].
    - left. apply (all_digits_first _ _ Hall). }
  assert (Hrun : forall op, binary_operator op = true ->
            tokenise (a +:+ "e" +:+ op +:+ b) = [a +:+ "e"; op; b] ->
            parse (a +:+ "e" +:+ op +:+ b) = Some ([], Raise ValueError)).
  { intros op Hop Ht.
    pose proof (parse_expr_binary _ op _ Lnum Hop
                  (decimal_literal_token _ Hb)) as Hr.
    rewrite <- Ht in Hr.
    rewrite (parse_of_run _ _ ltac:(rewrite Ht; discriminate) Hr).
    cbn [ended printed]. rewrite bind_print_nothing.
    unfold BinaryNode. cbn [evaluate].
    unfold token_text at 1, is_token at 1, is_parenth_expr.
    cbn [Expr_tok Expr_op Expr_left Expr_right Py.opt_truthy present].
    rewrite (binary_operator_nonempty _ Hop). cbn [negb andb].
    rewrite operand_value.
    replace (evaluate (Leaf (a +:+ "e"))) with (@lift value (Raise ValueError)).
    - reflexivity.
    - unfold Leaf. cbn [evaluate]. fold (Leaf (a +:+ "e")).
      rewrite token_text_Leaf, Hleft; [reflexivity|].
      destruct a; [congruence | reflexivity]. }
  change (a +:+ "e-" +:+ b) with (a +:+ "e" +:+ "-" +:+ b).
  change (a +:+ "e+" +:+ b) with (a +:+ "e" +:+ "+" +:+ b).
  pose proof (Htok "-"%char eq_refl eq_refl eq_refl) as Hm.
  pose proof (Htok "+"%char eq_refl eq_refl eq_refl) as Hp.
  split; [exact Hm|]. split; apply Hrun; (reflexivity || assumption).
Qed.

(** [int(s)] on a decimal numeral of any length. *)
Lemma py_int_str_decimal s :
  s <> EmptyString -> all_digits 10 s = true ->
  py_int_str s 10
  = if (640 <? String.length s)%nat && (0 <? int_max_str_digits)%nat
       && (int_max_str_digits <? String.length s)%nat
    then Raise ValueError
    else Ok (numeral 10 s 0).
Proof.
  intros Hne Hs. unfold py_int_str.
  rewrite (all_digits_view _ _ Hs).
  destruct s as [|c s']; [congruence|].
  assert (Hc := Hs). cbn [all_digits] in Hc.
  destruct (Text.digit_value c) as [d|] eqn:Ed; [|discriminate].
  apply andb_prop in Hc as [Hd Hs'].
  destruct (digit_value_ascii _ _ Ed)
    as (_ & Hsp & Hplus & Hminus & Hus & _).
  cbn [Text.lstrip]. rewrite Hsp. unfold Text.sign.
  rewrite (proj2 (Ascii.eqb_neq c "+") Hplus).
  rewrite (proj2 (Ascii.eqb_neq c "-") Hminus).
  assert (Hskip : Text.skip_base_prefix 10 (String c s') = String c s').
  { unfold Text.skip_base_prefix. destruct s' as [|c2 s'']; [reflexivity|].
    change (10 =? 16)%Z with false. change (10 =? 8)%Z with false.
    change (10 =? 2)%Z with false. cbn [andb orb].
    rewrite andb_false_r. reflexivity. }
  rewrite Hskip. unfold Text.starts_with_underscore.
  rewrite (proj2 (Ascii.eqb_neq c "_") Hus).
  rewrite int_digits_numeral by exact Hs.
  cbn [String.length Nat.add Nat.eqb Text.lstrip String.eqb negb].
  change (negb (Z.land 10 (10 - 1) =? 0)%Z) with true. cbn [andb].
  reflexivity.
Qed.

(** X26. The limit of the interpreter on the length of decimal integer
    literals: a literal of decimal digits longer than 640 digits and
    longer than a limit that is set raises an uncaught [ValueError];
    every other one is the integer its digits write. *)
Theorem long_literal_rejected (s : string) :
  s <> EmptyString -> all_digits 10 s = true ->
  to_number s
  = if (640 <? String.length s)%nat && (0 <? int_max_str_digits)%nat
       && (int_max_str_digits <? String.length s)%nat
    then Raise ValueError
    else Ok (VInt (numeral 10 s 0)).
Proof.
  intros Hne Hs. rewrite to_number_by_format.
  unfold number_of_literal, format_of.
  assert (Hpre : forall c, (forall d, Text.digit_value c = Some d ->
                                      (10 <= d)%Z) ->
                 starts_with (String "0" (String c "")) s = false).
  { intros c Hc. destruct s as [|c1 [|c2 s']]; cbn;
      rewrite ?andb_false_r; try reflexivity.
    cbn [all_digits] in Hs.
    destruct (Text.digit_value c1); [|discriminate].
    apply andb_prop in Hs as [_ Hs].
    destruct (Text.digit_value c2) as [d2|] eqn:Ed2; [|discriminate].
    apply andb_prop in Hs as [Hd2 _]. apply Z.ltb_lt in Hd2.
    rewrite andb_true_r.
    destruct (Ascii.eqb_spec c c2) as [->|?];
      [|rewrite andb_false_r; reflexivity].
    specialize (Hc _ Ed2). lia. }
  rewrite !Hpre by (intros d [= <-]; lia). cbn [orb].
  rewrite !(all_digits_no_char 10 s) by (auto; intros d [= <-]; lia).
  cbn [orb]. rewrite (py_int_str_decimal _ Hne Hs).
  destruct (_ && _); reflexivity.
Qed.

(** X27. A literal of decimal digits, an [e] or [E] and decimal digits is
    the float nearest to the digits before the letter times ten to the
    power the digits after it write: [1e5] is no hexadecimal number. *)
Theorem exponent_literal_value (a b : string) (c : ascii) :
  all_digits 10 a = true -> all_digits 10 b = true ->
  a <> EmptyString -> b <> EmptyString -> (c = "e" \/ c = "E")%char ->
  to_number (a +:+ String c b)
  = Ok (VFloat (F64.of_decimal false (numeral 10 a 0) (numeral 10 b 0))).
Proof.
  intros Ha Hb Hane Hbne Hc.
  rewrite (to_number_floating a c b Ha) by tauto.
  assert (Hp : plain (a +:+ String c b)).
  { apply plain_app; [apply (all_digits_plain 10), Ha|].
    split; [|apply (all_digits_plain 10), Hb].
    destruct Hc as [-> | ->]; [apply plain_char_e | apply plain_char_E]. }
  destruct a as [|c1 a']; [congruence|].
  change (String c1 a' +:+ String c b) with (String c1 (a' +:+ String c b))
    in Hp |- *.
  rewrite (py_float_str_plain _ _ Hp)
    by (left; apply (all_digits_first _ _ Ha)).
  change (String c1 (a' +:+ String c b)) with (String c1 a' +:+ String c b).
  rewrite (decimal_exponent _ _ _ Ha Hb Hane Hbne Hc). reflexivity.
Qed.

(** * The specification: precedence and associativity *)

(** The line of a prefix operator, a literal, a binary operator and a
    literal: its tree, and [parse] as the evaluation of that tree. *)
Lemma prefix_binary_line u a o b :
  prefix_operator u = true ->
  number_token a = true -> number_token b = true ->
  binary_operator o = true ->
  let tree := if binds_tighter (u +:+ " x") o
              then BinaryNode o (Unary (u +:+ " x") (Leaf a)) (Leaf b)
              else Unary (u +:+ " x") (BinaryNode o (Leaf a) (Leaf b)) in
  parse_tree (joined [u; a; o; b]) = Some tree /\
  parse (joined [u; a; o; b]) = Some (evaluate tree).
Proof.
  intros Hu Ha Hb Ho tree.
  destruct (number_token_parts _ Ha) as [Sa La].
  destruct (number_token_parts _ Hb) as [Sb Lb].
  pose proof (binary_operator_scanned _ Ho) as So.
  pose proof (prefix_operator_scanned _ Hu) as Su.
  assert (Htok : tokenise (joined [u; a; o; b]) = [u; a; o; b]).
  { apply tokenise_joined. repeat (constructor; [assumption|]). constructor. }
  destruct (parse_expr_prefix_binary u a o b Hu La Lb Ho)
    as (assoc & n & ops & Hinfo & Hrun).
  rewrite <- (binds_tighter_prefix u o assoc n Hu Hinfo) in Hrun.
  rewrite <- Htok in Hrun.
  eapply (parse_quiet_run _ ops tree); [rewrite Htok; discriminate|].
  exact Hrun.
Qed.

(** The line of three literals and two binary operators of one
    precedence: its tree, and [parse] as the evaluation of that tree. *)
Lemma same_rank_line a o1 b o2 c :
  number_token a = true -> number_token b = true -> number_token c = true ->
  binary_operator o1 = true -> binary_operator o2 = true ->
  rank o1 = rank o2 ->
  let tree := match declared_associativity o1 with
              | Some LEFT =>
                  BinaryNode o2 (BinaryNode o1 (Leaf a) (Leaf b)) (Leaf c)
              | _ => BinaryNode o1 (Leaf a) (BinaryNode o2 (Leaf b) (Leaf c))
              end in
  parse_tree (joined [a; o1; b; o2; c]) = Some tree /\
  parse (joined [a; o1; b; o2; c]) = Some (evaluate tree).
Proof.
  intros Ha Hb Hc H1 H2 Hr tree.
  destruct (number_token_parts _ Ha) as [Sa La].
  destruct (number_token_parts _ Hb) as [Sb Lb].
  destruct (number_token_parts _ Hc) as [Sc Lc].
  pose proof (binary_operator_scanned _ H1) as S1.
  pose proof (binary_operator_scanned _ H2) as S2.
  assert (Htok : tokenise (joined [a; o1; b; o2; c]) = [a; o1; b; o2; c]).
  { apply tokenise_joined. repeat (constructor; [assumption|]). constructor. }
  destruct (parse_expr_three a o1 b o2 c La Lb Lc H1 H2) as [ops Hrun].
  destruct (groups_left_same_rank o1 o2 H1 H2 Hr) as (_ & assoc & Hassoc & Hg).
  rewrite Hg in Hrun. rewrite <- Htok in Hrun.
  eapply (parse_quiet_run _ ops tree); [rewrite Htok; discriminate|].
  rewrite Hrun. subst tree. rewrite Hassoc.
  destruct assoc; reflexivity.
Qed.

(** C4. The unary operators rank above [*], [/], [%] and below [**], and
    the parser groups by these ranks. For every prefix operator [u],
    literals [a] and [b] and binary operator [o], the line [u a o b] is
    parsed as [(u a) o b] if [u] binds tighter than [o], which it does
    for every binary operator but [**], and as [u (a o b)] for [**]; the
    value of the line is the value of that tree: the prefix operator is
    applied before [o], and after [**]. So ["-2*3"] is parsed as
    [(-2) * 3], and ["-2 ** 2"] as [-(2 ** 2)], which evaluates to [-4.0]
    where the platform's [pow] gives 2 to the power 2 as 4. *)
Theorem C4_unary_rank :
  (rank "*" = Some 6 /\ rank "/" = Some 6 /\ rank "%" = Some 6) /\
  (rank "+ x" = Some 7 /\ rank "- x" = Some 7 /\ rank "~ x" = Some 7) /\
  rank "**" = Some 8 /\
  (forall u o : string,
     prefix_operator u = true -> binary_operator o = true ->
     binds_tighter (u +:+ " x") o = negb (String.eqb o "**") /\
     binds_tighter o (u +:+ " x") = String.eqb o "**") /\
  (forall u a o b : string,
     prefix_operator u = true ->
     number_token a = true -> number_token b = true ->
     binary_operator o = true ->
     let tree := if binds_tighter (u +:+ " x") o
                 then BinaryNode o (Unary (u +:+ " x") (Leaf a)) (Leaf b)
                 else Unary (u +:+ " x") (BinaryNode o (Leaf a) (Leaf b)) in
     parse_tree (joined [u; a; o; b]) = Some tree /\
     parse (joined [u; a; o; b]) = Some (evaluate tree)) /\
  (forall u a o b : string,
     prefix_operator u = true ->
     decimal_literal a = true -> decimal_literal b = true ->
     binary_operator o = true ->
     let x := VInt (decimal_value a) in
     let y := VInt (decimal_value b) in
     parse (joined [u; a; o; b])
     = Some (if String.eqb o "**"
             then bind (apply_op o x y)
                       (fun v => apply_op (u +:+ " x") VNone v)
             else bind (apply_op (u +:+ " x") VNone x)
                       (fun v => apply_op o v y))) /\
  (forall a b : string,
     decimal_literal a = true -> decimal_literal b = true ->
     let x := decimal_value a in
     let y := decimal_value b in
     parse (joined ["-"; a; "*"; b]) = Some ([], Ok (VInt (- x * y))) /\
     parse (joined ["+"; a; "*"; b]) = Some ([], Ok (VInt (x * y))) /\
     parse (joined ["~"; a; "*"; b]) = Some ([], Ok (VInt ((- x - 1) * y)))) /\
  parse_tree "-2 ** 2"
    = Some (Unary "- x" (BinaryNode "**" (Leaf "2") (Leaf "2"))) /\
  (libm_pow (F64.of_Z 2) (F64.of_Z 2) = F64.of_Z 4 ->
   parse "-2 ** 2" = Some ([], Ok (VFloat (F64.opp (F64.of_Z 4))))) /\
  parse_tree "-2*3"
    = Some (BinaryNode "*" (Unary "- x" (Leaf "2")) (Leaf "3")) /\
  parse "-2*3" = Some ([], Ok (VInt (-6))).
Proof.
  assert (Htight : forall u o : string,
     prefix_operator u = true -> binary_operator o = true ->
     binds_tighter (u +:+ " x") o = negb (String.eqb o "**") /\
     binds_tighter o (u +:+ " x") = String.eqb o "**").
  { intros u o Hu Ho. apply binary_operator_cases in Ho. simpl in Ho.
    destruct (prefix_operator_cases _ Hu) as [->|[->| ->]];
      repeat (destruct Ho as [<-|Ho]; [split; vm_compute; reflexivity|]);
      destruct Ho. }
  assert (Hvalue : forall u a o b : string,
     prefix_operator u = true ->
     decimal_literal a = true -> decimal_literal b = true ->
     binary_operator o = true ->
     parse (joined [u; a; o; b])
     = Some (if String.eqb o "**"
             then bind (apply_op o (VInt (decimal_value a))
                                 (VInt (decimal_value b)))
                       (fun v => apply_op (u +:+ " x") VNone v)
             else bind (apply_op (u +:+ " x") VNone (VInt (decimal_value a)))
                       (fun v => apply_op o v (VInt (decimal_value b))))).
  { intros u a o b Hu Ha Hb Ho.
    destruct (prefix_binary_line u a o b Hu (decimal_number_token _ Ha)
                (decimal_number_token _ Hb) Ho) as [_ ->].
    destruct (Htight u o Hu Ho) as [-> _]. f_equal.
    assert (Hk : Py.str_truthy (u +:+ " x") = true)
      by (destruct u; [discriminate Hu | reflexivity]).
    destruct (String.eqb o "**"); cbn [negb].
    - rewrite (evaluate_prefix_node _ _ Hk).
      rewrite (evaluate_binary _ _ _ Ha Ho Hb). reflexivity.
    - rewrite (evaluate_node _ _ _ (binary_operator_nonempty _ Ho)).
      rewrite (evaluate_prefix_node _ _ Hk), !(evaluate_decimal _ Ha).
      rewrite bind_ret_l. apply bind_ext. intros v.
      rewrite (evaluate_decimal _ Hb). apply bind_ret_l. }
  split; [repeat split; vm_compute; reflexivity|].
  split; [repeat split; vm_compute; reflexivity|].
  split; [vm_compute; reflexivity|].
  split; [exact Htight|].
  split; [exact prefix_binary_line|].
  split; [exact Hvalue|].
  split.
  { intros a b Ha Hb x y.
    rewrite !Hvalue by (assumption || reflexivity).
    split; [reflexivity|]. split; [reflexivity|].
    cbn [String.eqb Ascii.eqb Bool.eqb].
    change ("~" +:+ " x") with "~ x".
    assert (Hnot : apply_op "~ x" VNone (VInt (decimal_value a))
                   = ([], Ok (VInt (- x - 1)))).
    { unfold apply_op. cbn [String.eqb Ascii.eqb Bool.eqb py_int rbind lift].
      replace (Z.lnot (decimal_value a)) with (- x - 1)%Z
        by (unfold Z.lnot; subst x; lia).
      reflexivity. }
    rewrite Hnot, bind_ret_l. reflexivity. }
  split; [vm_compute; reflexivity|].
  split.
  { intros Hpow. vm_compute in Hpow. vm_compute. rewrite Hpow. reflexivity. }
  split; vm_compute; reflexivity.
Qed.

(** C5. Operators of one precedence group by the associativity that
    [Op_Sets] declares for them, which is the same for all operators of
    that precedence. For every three literals and two binary operators
    [o1], [o2] of one precedence, the line [a o1 b o2 c] is parsed as
    [(a o1 b) o2 c] if they are declared [LEFT] and as [a o1 (b o2 c)] if
    they are declared [RIGHT]; the value of the line is the value of that
    tree. So [a - b - c] is the difference of [a - b] and [c], with
    ["8 - 4 - 2"] evaluating to 2, and ["2 ** 3 ** 2"] is parsed as
    [2 ** (3 ** 2)] and, where the platform's [pow] is exact on these
    powers, evaluates to [512.0]. *)
Theorem C5_associativity :
  (forall o1 o2 : string,
     binary_operator o1 = true -> binary_operator o2 = true ->
     rank o1 = rank o2 ->
     declared_associativity o2 = declared_associativity o1 /\
     (declared_associativity o1 = Some LEFT \/
      declared_associativity o1 = Some RIGHT)) /\
  (forall a o1 b o2 c : string,
     number_token a = true -> number_token b = true ->
     number_token c = true ->
     binary_operator o1 = true -> binary_operator o2 = true ->
     rank o1 = rank o2 ->
     let tree := match declared_associativity o1 with
                 | Some LEFT =>
                     BinaryNode o2 (BinaryNode o1 (Leaf a) (Leaf b)) (Leaf c)
                 | _ =>
                     BinaryNode o1 (Leaf a) (BinaryNode o2 (Leaf b) (Leaf c))
                 end in
     parse_tree (joined [a; o1; b; o2; c]) = Some tree /\
     parse (joined [a; o1; b; o2; c]) = Some (evaluate tree)) /\
  (forall a o1 b o2 c : string,
     decimal_literal a = true -> decimal_literal b = true ->
     decimal_literal c = true ->
     binary_operator o1 = true -> binary_operator o2 = true ->
     rank o1 = rank o2 ->
     let x := VInt (decimal_value a) in
     let y := VInt (decimal_value b) in
     let z := VInt (decimal_value c) in
     parse (joined [a; o1; b; o2; c])
     = Some (match declared_associativity o1 with
             | Some LEFT =>
                 bind (apply_op o1 x y) (fun v => apply_op o2 v z)
             | _ => bind (apply_op o2 y z) (fun v => apply_op o1 x v)
             end)) /\
  (forall a b c : string,
     decimal_literal a = true -> decimal_literal b = true ->
     decimal_literal c = true ->
     parse (joined [a; "-"; b; "-"; c])
     = Some ([], Ok (VInt (decimal_value a - decimal_value b
                           - decimal_value c)))) /\
  parse_tree "8 - 4 - 2"
    = Some (BinaryNode "-" (BinaryNode "-" (Leaf "8") (Leaf "4")) (Leaf "2")) /\
  parse "8 - 4 - 2" = Some ([], Ok (VInt 2)) /\
  parse_tree "2 ** 3 ** 2"
    = Some (BinaryNode "**" (Leaf "2")
              (BinaryNode "**" (Leaf "3") (Leaf "2"))) /\
  (libm_pow (F64.of_Z 3) (F64.of_Z 2) = F64.of_Z 9 ->
   libm_pow (F64.of_Z 2) (F64.of_Z 9) = F64.of_Z 512 ->
   parse "2 ** 3 ** 2" = Some ([], Ok (VFloat (F64.of_Z 512)))).
Proof.
  assert (Hvalue : forall a o1 b o2 c : string,
     decimal_literal a = true -> decimal_literal b = true ->
     decimal_literal c = true ->
     binary_operator o1 = true -> binary_operator o2 = true ->
     rank o1 = rank o2 ->
     parse (joined [a; o1; b; o2; c])
     = Some (match declared_associativity o1 with
             | Some LEFT =>
                 bind (apply_op o1 (VInt (decimal_value a))
                                (VInt (decimal_value b)))
                      (fun v => apply_op o2 v (VInt (decimal_value c)))
             | _ =>
                 bind (apply_op o2 (VInt (decimal_value b))
                                (VInt (decimal_value c)))
                      (fun v => apply_op o1 (VInt (decimal_value a)) v)
             end)).
  { intros a o1 b o2 c Ha Hb Hc H1 H2 Hr.
    destruct (same_rank_line a o1 b o2 c (decimal_number_token _ Ha)
                (decimal_number_token _ Hb) (decimal_number_token _ Hc)
                H1 H2 Hr) as [_ ->].
    f_equal.
    pose proof (binary_operator_nonempty _ H1) as T1.
    pose proof (binary_operator_nonempty _ H2) as T2.
    destruct (declared_associativity o1) as [[|]|].
    - rewrite (evaluate_node _ _ _ T2), (evaluate_binary _ _ _ Ha H1 Hb).
      apply bind_ext. intros v. rewrite (evaluate_decimal _ Hc).
      apply bind_ret_l.
    - rewrite (evaluate_node _ _ _ T1), (evaluate_decimal _ Ha), bind_ret_l.
      rewrite (evaluate_binary _ _ _ Hb H2 Hc). reflexivity.
    - rewrite (evaluate_node _ _ _ T1), (evaluate_decimal _ Ha), bind_ret_l.
      rewrite (evaluate_binary _ _ _ Hb H2 Hc). reflexivity. }
  split.
  { intros o1 o2 H1 H2 Hr.
    destruct (groups_left_same_rank o1 o2 H1 H2 Hr) as (He & assoc & Ha & _).
    split; [exact He|]. rewrite Ha. destruct assoc; auto. }
  split; [exact same_rank_line|].
  split; [exact Hvalue|].
  split.
  { intros a b c Ha Hb Hc.
    rewrite (Hvalue a "-" b "-" c) by (assumption || reflexivity).
    reflexivity. }
  split; [vm_compute; reflexivity|].
  split; [vm_compute; reflexivity|].
  split; [vm_compute; reflexivity|].
  intros H32 H29. vm_compute in H32, H29.
  vm_compute. rewrite H32. rewrite H29. reflexivity.
Qed.

End Interpreter.

(** * Instances

    The theorems above hold for every platform [pow] and every limit on
    the length of integer literals. Below they are applied to one: a
    [pow] that is exact on natural numbers, and the default limit of 4300
    digits. *)

Lemma C2_zero_divisor_witness :
  evaluate pow_on_naturals default_max_str_digits (Leaf "7")
    = ([], Ok (VInt 7)) /\
  evaluate pow_on_naturals default_max_str_digits
           (BinaryNode "/" (Leaf "7") (Leaf "0"))
    = ([] ++ ["Error: division by zero."], Ok VNone) /\
  evaluate pow_on_naturals default_max_str_digits
           (BinaryNode "%" (Leaf "7") (Leaf "0"))
    = ([] ++ ["Error: modulo by zero."], Ok VNone) /\
  parse pow_on_naturals default_max_str_digits "7 / 0"
    = Some (["Error: division by zero."], Ok VNone) /\
  parse pow_on_naturals default_max_str_digits "7 % 0"
    = Some (["Error: modulo by zero."], Ok VNone).
Proof.
  split; [vm_compute; reflexivity|].
  destruct (C2_zero_divisor pow_on_naturals default_max_str_digits
                            (Leaf "7") [] (VInt 7)) as (H1 & H2 & H3);
    [vm_compute; reflexivity|].
  split; [exact H1|]. split; [exact H2|].
  apply (H3 "7"). reflexivity.
Defined.

Lemma C3_modulo_witness :
  apply_op pow_on_naturals "%" (VInt 7) (VFloat (F64.of_decimal false 25 (-1)))
    = ([], Ok (VInt 1)).
Proof.
  apply (C3_modulo pow_on_naturals (VInt 7)
                   (VFloat (F64.of_decimal false 25 (-1))) 2).
  - discriminate.
  - vm_compute. reflexivity.
  - intros H. discriminate H.
  - left. exists 7%Z. reflexivity.
Defined.

(** C3 as the specification states it fails: a half is not zero, and the
    node neither reports an error nor returns [x mod int(y)]: it
    raises. *)
Lemma C3_counterexample :
  is_zero_number (VFloat one_half) = false /\
  apply_op pow_on_naturals "%" (VInt 5) (VFloat one_half)
    = ([], Raise ZeroDivisionError).
Proof. exact (modulo_half_raises pow_on_naturals). Qed.

Lemma C4_unary_rank_witness :
  prefix_operator "~" = true /\
  number_token "2" = true /\ number_token "3" = true /\
  binary_operator "*" = true /\
  parse_tree (joined ["~"; "2"; "*"; "3"])
    = Some (BinaryNode "*" (Unary "~ x" (Leaf "2")) (Leaf "3")) /\
  pow_on_naturals (F64.of_Z 2) (F64.of_Z 2) = F64.of_Z 4 /\
  parse pow_on_naturals default_max_str_digits "-2 ** 2"
    = Some ([], Ok (VFloat (F64.opp (F64.of_Z 4)))).
Proof.
  destruct (C4_unary_rank pow_on_naturals default_max_str_digits)
    as (_ & _ & _ & _ & Htree & _ & _ & _ & Hvalue & _).
  split; [reflexivity|]. split; [reflexivity|]. split; [reflexivity|].
  split; [vm_compute; reflexivity|].
  split.
  { destruct (Htree "~" "2" "*" "3") as [H _];
      [reflexivity | reflexivity | reflexivity | vm_compute; reflexivity|].
    exact H. }
  split; [vm_compute; reflexivity|].
  apply Hvalue. vm_compute. reflexivity.
Defined.

Lemma C5_associativity_witness :
  number_token "8" = true /\ number_token "4" = true /\
  number_token "2" = true /\
  binary_operator "/" = true /\ binary_operator "*" = true /\
  rank "/" = rank "*" /\
  parse_tree (joined ["8"; "/"; "4"; "*"; "2"])
    = Some (BinaryNode "*" (BinaryNode "/" (Leaf "8") (Leaf "4")) (Leaf "2")) /\
  pow_on_naturals (F64.of_Z 3) (F64.of_Z 2) = F64.of_Z 9 /\
  pow_on_naturals (F64.of_Z 2) (F64.of_Z 9) = F64.of_Z 512 /\
  parse pow_on_naturals default_max_str_digits "2 ** 3 ** 2"
    = Some ([], Ok (VFloat (F64.of_Z 512))).
Proof.
  destruct (C5_associativity pow_on_naturals default_max_str_digits)
    as (_ & Htree & _ & _ & _ & _ & _ & Hvalue).
  split; [reflexivity|]. split; [reflexivity|]. split; [reflexivity|].
  split; [vm_compute; reflexivity|]. split; [vm_compute; reflexivity|].
  split; [vm_compute; reflexivity|].
  split.
  { destruct (Htree "8" "/" "4" "*" "2") as [H _];
      [reflexivity | reflexivity | reflexivity | vm_compute; reflexivity
       | vm_compute; reflexivity | vm_compute; reflexivity|].
    exact H. }
  split; [vm_compute; reflexivity|]. split; [vm_compute; reflexivity|].
  apply Hvalue; vm_compute; reflexivity.
Defined.

Lemma valid_example : syntactically_valid "1 + 2 * 3".
Proof.
  split; [vm_compute; reflexivity|].
  do 3 eexists. split; vm_compute; reflexivity.
Defined.

Lemma C6_parentheses_witness :
  syntactically_valid "1 + 2 * 3" /\
  exists r,
    parse pow_on_naturals default_max_str_digits "1 + 2 * 3" = Some r /\
    parse pow_on_naturals default_max_str_digits "(1 + 2 * 3)" = Some r.
Proof.
  split; [exact valid_example|].
  exact (C6_parentheses pow_on_naturals default_max_str_digits
                        "1 + 2 * 3" valid_example).
Defined.



Lemma C9_tokenise_stops_witness :
  stops_scan "$" = true /\
  tokenise "1 + 2 $ 3" = ["1"; "+"; "2"] /\
  tokenise_state "1 + 2 $ 3" = tokenise_state "1 + 2 ".
Proof.
  split; [reflexivity|]. split; [vm_compute; reflexivity|].
  apply (C9_tokenise_stops "1 + 2 " "$" " 3"). reflexivity.
Defined.

(** * Instances of the further properties *)

Lemma tokenise_token_shape_witness :
  In "12" (tokenise "12 * 3") /\
  scanned_token "12" /\ "12" <> EmptyString /\ without_whitespace "12" = "12".
Proof.
  split; [vm_compute; left; reflexivity|].
  apply (tokenise_token_shape "12 * 3" "12"). vm_compute. left. reflexivity.
Defined.

Lemma tokenise_append_witness :
  snd (tokenise_state "1 + 2") = String.length "1 + 2" /\
  is_number_char "(" = false /\ second_of_predefined "(" = false /\
  tokenise ("1 + 2" +:+ "(3)") = tokenise "1 + 2" ++ tokenise "(3)".
Proof.
  split; [vm_compute; reflexivity|]. split; [reflexivity|].
  split; [reflexivity|].
  apply (tokenise_append "1 + 2" "(" "3)"); vm_compute; reflexivity.
Defined.

Lemma find_predefined_longest_witness :
  find_predefined "2 ** 3" 2 Predefined_Tokens = Some "**" /\
  In "**" Predefined_Tokens /\
  Py.slice 2 (2 + String.length "**") "2 ** 3" = "**" /\
  (In "*" Predefined_Tokens ->
   Py.slice 2 (2 + String.length "*") "2 ** 3" = "*" ->
   String.length "*" <= String.length "**").
Proof.
  split; [vm_compute; reflexivity|].
  apply (find_predefined_longest "2 ** 3" 2 "**" "*").
  vm_compute. reflexivity.
Defined.

Lemma leading_operator_KeyError_witness :
  tokenise "* 2" = ["*"; "2"] /\ binary_operator "*" = true /\
  exists out,
    parse pow_on_naturals default_max_str_digits "* 2"
    = Some (("Parse error: expected an atom, not an operator "
             +:+ Py.dquote +:+ "*" +:+ Py.dquote) :: out,
            Raise KeyError).
Proof.
  split; [vm_compute; reflexivity|]. split; [vm_compute; reflexivity|].
  apply (leading_operator_KeyError pow_on_naturals default_max_str_digits
                                   "* 2" "*" ["2"]).
  - vm_compute. reflexivity.
  - vm_compute. reflexivity.
  - discriminate.
  - discriminate.
Defined.

Lemma three_literals_grouping_witness :
  number_token "1" = true /\ number_token "2" = true /\
  number_token "3" = true /\
  binary_operator "-" = true /\ binary_operator "**" = true /\
  parse_tree (joined ["1"; "-"; "2"; "**"; "3"])
  = Some (if groups_left "-" "**"
          then BinaryNode "**" (BinaryNode "-" (Leaf "1") (Leaf "2"))
                          (Leaf "3")
          else BinaryNode "-" (Leaf "1")
                          (BinaryNode "**" (Leaf "2") (Leaf "3"))).
Proof.
  repeat (split; [vm_compute; reflexivity|]).
  apply (three_literals_grouping "1" "-" "2" "**" "3");
    vm_compute; reflexivity.
Defined.

Lemma parenthesised_grouping_witness :
  number_token "1" = true /\ number_token "2" = true /\
  number_token "3" = true /\
  binary_operator "-" = true /\ binary_operator "**" = true /\
  parse_tree (joined ["("; "1"; "-"; "2"; ")"; "**"; "3"])
    = Some (BinaryNode "**" (BinaryNode "-" (Leaf "1") (Leaf "2"))
                       (Leaf "3")).
Proof.
  repeat (split; [vm_compute; reflexivity|]).
  apply (parenthesised_grouping pow_on_naturals default_max_str_digits
                                "1" "-" "2" "**" "3");
    vm_compute; reflexivity.
Defined.

Lemma valid_product : syntactically_valid "4 * 5".
Proof.
  split; [vm_compute; reflexivity|].
  do 3 eexists. split; vm_compute; reflexivity.
Defined.

Lemma unmatched_parenthesis_reported_witness :
  syntactically_valid "4 * 5" /\
  exists out r,
    parse pow_on_naturals default_max_str_digits "4 * 5" = Some (out, r) /\
    parse pow_on_naturals default_max_str_digits ("(" +:+ "4 * 5")
    = Some (("Parse error: unmatched " +:+ Py.dquote +:+ "(" +:+ Py.dquote)
            :: out, r).
Proof.
  split; [exact valid_product|].
  exact (unmatched_parenthesis_reported pow_on_naturals
           default_max_str_digits "4 * 5" valid_product).
Defined.

Lemma trailing_tokens_ignored_witness :
  syntactically_valid "4 * 5" /\
  is_number_char " " = false /\ second_of_predefined " " = false /\
  head (tokenise " 6") = Some "6" /\ in_Op_Table "6" = false /\
  parse pow_on_naturals default_max_str_digits ("4 * 5" +:+ " 6")
  = parse pow_on_naturals default_max_str_digits "4 * 5".
Proof.
  split; [exact valid_product|]. split; [reflexivity|].
  split; [reflexivity|]. split; [vm_compute; reflexivity|].
  split; [vm_compute; reflexivity|].
  apply (trailing_tokens_ignored pow_on_naturals default_max_str_digits
                                 "4 * 5" " " "6" valid_product).
  - reflexivity.
  - reflexivity.
  - intros t H. vm_compute in H. injection H as <-. vm_compute. reflexivity.
Defined.

Lemma well_formed_lines_witness :
  snd (tokenise_state "-(1 + 2) * 3") = String.length "-(1 + 2) * 3" /\
  well_formed (tokenise "-(1 + 2) * 3") = true /\
  exists tree,
    parse_tree "-(1 + 2) * 3" = Some tree /\
    parsed (tokenise "-(1 + 2) * 3") tree /\
    parse pow_on_naturals default_max_str_digits "-(1 + 2) * 3"
      = Some (evaluate pow_on_naturals default_max_str_digits tree) /\
    evaluates (evaluate pow_on_naturals default_max_str_digits tree).
Proof.
  split; [vm_compute; reflexivity|]. split; [vm_compute; reflexivity|].
  apply (well_formed_lines pow_on_naturals default_max_str_digits
                           "-(1 + 2) * 3");
    vm_compute; reflexivity.
Defined.

Lemma binary_lines_values_witness :
  decimal_literal "7" = true /\ decimal_literal "2" = true /\
  parse pow_on_naturals default_max_str_digits (binary_line "7" "-" "2")
    = Some ([], Ok (VInt (decimal_value "7" - decimal_value "2"))).
Proof.
  split; [reflexivity|]. split; [reflexivity|].
  apply (binary_lines_values pow_on_naturals default_max_str_digits "7" "2");
    reflexivity.
Defined.

Lemma unary_lines_values_witness :
  decimal_literal "7" = true /\
  parse pow_on_naturals default_max_str_digits ("-" +:+ "7")
    = Some ([], Ok (VInt (- decimal_value "7"))).
Proof.
  split; [reflexivity|].
  apply (unary_lines_values pow_on_naturals default_max_str_digits "7").
  reflexivity.
Defined.

Lemma missing_operand_witness :
  decimal_literal "7" = true /\ binary_operator "/" = true /\
  parse pow_on_naturals default_max_str_digits ("7" +:+ " " +:+ "/")
  = Some (["Parse error: source ended unexpectedly";
           "Error: division by zero."], Ok VNone).
Proof.
  split; [reflexivity|]. split; [vm_compute; reflexivity|].
  apply (missing_operand pow_on_naturals default_max_str_digits "7" "/");
    vm_compute; reflexivity.
Defined.

Lemma blank_line_witness :
  all_whitespace "  " = true /\
  tokenise "  " = [] /\
  parse pow_on_naturals default_max_str_digits "  " = Some ([], Ok VNone).
Proof.
  split; [reflexivity|].
  destruct (blank_line pow_on_naturals default_max_str_digits "  ")
    as (H1 & H2 & _); [reflexivity|].
  split; [exact H1 | exact H2].
Defined.

Lemma float_literal_value_witness :
  all_digits 10 "2" = true /\ all_digits 10 "5" = true /\
  "2" +:+ "5" <> EmptyString /\
  to_number default_max_str_digits ("2" +:+ "." +:+ "5")
  = Ok (VFloat (F64.of_decimal false (numeral 10 ("2" +:+ "5") 0)
                               (- Z.of_nat (String.length "5")))).
Proof.
  split; [reflexivity|]. split; [reflexivity|]. split; [discriminate|].
  apply (float_literal_value default_max_str_digits "2" "5");
    [reflexivity | reflexivity | discriminate].
Defined.

Lemma signed_exponent_unsupported_witness :
  decimal_literal "1" = true /\ decimal_literal "5" = true /\
  tokenise ("1" +:+ "e-" +:+ "5") = ["1" +:+ "e"; "-"; "5"] /\
  parse pow_on_naturals default_max_str_digits ("1" +:+ "e-" +:+ "5")
    = Some ([], Raise ValueError).
Proof.
  split; [reflexivity|]. split; [reflexivity|].
  destruct (signed_exponent_unsupported pow_on_naturals
              default_max_str_digits "1" "5") as (H1 & H2 & _);
    [reflexivity | reflexivity |].
  split; [exact H1 | exact H2].
Defined.

Lemma long_literal_rejected_witness :
  "42" <> EmptyString /\ all_digits 10 "42" = true /\
  to_number default_max_str_digits "42"
  = if (640 <? String.length "42")%nat && (0 <? default_max_str_digits)%nat
       && (default_max_str_digits <? String.length "42")%nat
    then Raise ValueError
    else Ok (VInt (numeral 10 "42" 0)).
Proof.
  split; [discriminate|]. split; [reflexivity|].
  apply (long_literal_rejected default_max_str_digits "42");
    [discriminate | reflexivity].
Defined.

Lemma exponent_literal_value_witness :
  all_digits 10 "1" = true /\ all_digits 10 "5" = true /\
  to_number default_max_str_digits ("1" +:+ String "e" "5")
  = Ok (VFloat (F64.of_decimal false (numeral 10 "1" 0) (numeral 10 "5" 0))).
Proof.
  split; [reflexivity|]. split; [reflexivity|].
  apply (exponent_literal_value default_max_str_digits "1" "5" "e");
    [reflexivity | reflexivity | discriminate | discriminate
     | left; reflexivity].
Defined.
